(** * College picker: the life-path simulation of [life-path/route.ts]

    A shallow embedding of the simulation engine of the college picker
    (functions [getStickerPrice], [getAidAdjustedPrice], [generateLifePath],
    [POST] and the career classifier [matchCareerFromText]) and the
    properties of its timeline and summary.

    Numbers.  A JavaScript [number] that holds money is embedded as an exact
    rational ([Q]); year counts and ages, which the program only ever
    increments by one and compares, are integers ([Z]).  [Math.round]
    rounds half up, [Math.max] / [Math.min] are [Qmax] / [Qmin].  The
    binary64 rounding error of the products with 0.6, 1.05, 1.07 ... is
    not part of the model.

    Fields of the result that no property below reads (the descriptions,
    the major label, the occupation block and the warning text) are left
    out of the records. *)

From Stdlib Require Import ZArith QArith Qminmax Qround Qabs.
From Stdlib Require Import List String Ascii Bool Lia Lqa.
Import ListNotations.

Local Open Scope Z_scope.

(** ** JavaScript primitives *)

Module JS.

(** [Math.round x]: the integer nearest to [x], a tie going up. *)
Definition Math_round (x : Q) : Z := Qfloor (x + (1 # 2))%Q.

Definition Math_max (x y : Q) : Q := Qmax x y.
Definition Math_min (x y : Q) : Q := Qmin x y.

(** [a ?? b] on a nullable number. *)
Definition nullish {A : Type} (a : option A) (b : A) : A :=
  match a with Some v => v | None => b end.

Definition nullish_opt {A : Type} (a b : option A) : option A :=
  match a with Some v => Some v | None => b end.

(** [x < y] on numbers, as a test. *)
Definition Qltb (x y : Q) : bool := negb (Qle_bool y x).

(** Truthiness of a number: every number but zero. *)
Definition truthy (x : Q) : bool := negb (Qeq_bool x 0).

(** [for (let i = lo; i <= hi; i++) body], for a body that neither breaks
    nor assigns [i]: the indices it runs through. *)
Definition for_range (lo hi : Z) : list Z :=
  map (fun k => lo + Z.of_nat k) (seq 0 (Z.to_nat (hi - lo + 1))).

Definition for_loop {S : Type} (lo hi : Z) (body : Z -> S -> S) (s : S) : S :=
  fold_left (fun st i => body i st) (for_range lo hi) s.

(** Names every object literal inherits from [Object.prototype]; a lookup
    [obj[key]] with such a key finds a (truthy, non-null) object even when
    the literal does not list the key. *)
Definition Object_prototype_keys : list string :=
  [ "constructor"; "__proto__"; "hasOwnProperty"; "isPrototypeOf";
    "propertyIsEnumerable"; "toLocaleString"; "toString"; "valueOf";
    "__defineGetter__"; "__defineSetter__"; "__lookupGetter__";
    "__lookupSetter__" ]%string.

Definition inherited (key : string) : bool :=
  existsb (String.eqb key) Object_prototype_keys.

End JS.
Import JS.

Infix "<?" := Qltb : Q_scope.

(** ** Data model (the interfaces of the route) *)

Record Cost := {
  tuitionInState : option Q;
  tuitionOutOfState : option Q;
  roomBoardOnCampus : option Q;
  avgNetPrice : option Q;
  (** [netPriceByIncome]: [POST] always builds it with exactly these five
      keys, each a nullable column of the row. *)
  np_0_30000 : option Q;
  np_30001_48000 : option Q;
  np_48001_75000 : option Q;
  np_75001_110000 : option Q;
  np_110001_plus : option Q
}.

Record CollegeInput := {
  id : Z;
  state : string;
  cost : Cost;
  medianDebt : option Q       (* college.debt.medianDebt *)
}.

Record StudentProfile := {
  incomeBracket : string;
  homeState : string;
  hasScholarships : bool;
  scholarshipAmount : Q;
  currentAge : option Z
}.

Record CareerData := {
  medianSalary : Q;
  salaryLow : Q;
  salaryHigh : Q;
  requiresGradSchool : bool;
  gradSchoolYears : Z;
  gradCostPerYear : Q;
  residencyYears : Z;
  residencySalary : Q
}.

Inductive Phase := College | GradSchool | Residency | Career.

Definition Phase_eqb (p q : Phase) : bool :=
  match p, q with
  | College, College | GradSchool, GradSchool
  | Residency, Residency | Career, Career => true
  | _, _ => false
  end.

Record LifePathYear := {
  year : Z;
  age : Z;
  phase : Phase;
  earnings : option Q;
  debt : Z;
  netWorth : Z
}.

(** ** Cost model *)

(** The five canonical income brackets. *)
Definition canonical_brackets : list string :=
  [ "0-30000"; "30001-48000"; "48001-75000"; "75001-110000"; "110001-plus" ]%string.

Definition is_canonical (bracket : string) : bool :=
  existsb (String.eqb bracket) canonical_brackets.

(** What [college.cost.netPriceByIncome?.[bracket]] evaluates to. *)
Inductive Lookup :=
| Undefined                 (* no such property *)
| Null                      (* the column is NULL *)
| Num (q : Q)               (* a price *)
| Inherited.                (* a member of Object.prototype *)

Definition netPriceByIncome (c : Cost) (bracket : string) : Lookup :=
  let col (o : option Q) := match o with Some q => Num q | None => Null end in
  if String.eqb bracket "0-30000" then col (np_0_30000 c)
  else if String.eqb bracket "30001-48000" then col (np_30001_48000 c)
  else if String.eqb bracket "48001-75000" then col (np_48001_75000 c)
  else if String.eqb bracket "75001-110000" then col (np_75001_110000 c)
  else if String.eqb bracket "110001-plus" then col (np_110001_plus c)
  else if inherited bracket then Inherited
  else Undefined.

Definition getStickerPrice (college : CollegeInput) (isInState includeRoomBoard : bool) : Q :=
  let tuition :=
    if isInState
    then nullish (nullish_opt (tuitionInState (cost college)) (tuitionOutOfState (cost college))) 15000%Q
    else nullish (nullish_opt (tuitionOutOfState (cost college)) (tuitionInState (cost college))) 30000%Q in
  let roomBoard :=
    if includeRoomBoard then nullish (roomBoardOnCampus (cost college)) 15000%Q else 0%Q in
  (tuition + roomBoard)%Q.

(** [byIncome ?? college.cost.avgNetPrice ?? null]. *)
Definition getAidAdjustedPrice (college : CollegeInput) (bracket : string) : Lookup :=
  match netPriceByIncome (cost college) bracket with
  | Num q => Num q
  | Inherited => Inherited
  | Undefined | Null =>
      match avgNetPrice (cost college) with
      | Some q => Num q
      | None => Null
      end
  end.

(** ** Strings: [toUpperCase] / [toLowerCase] on ASCII text *)

(** JavaScript also maps the letters of other alphabets; the two functions
    below map the ASCII letters and leave every other character as it is:
    they are the source's functions on ASCII text. *)

Definition upper_ascii (c : ascii) : ascii :=
  let n := nat_of_ascii c in
  if ((97 <=? n) && (n <=? 122))%nat then ascii_of_nat (n - 32) else c.

Definition lower_ascii (c : ascii) : ascii :=
  let n := nat_of_ascii c in
  if ((65 <=? n) && (n <=? 90))%nat then ascii_of_nat (n + 32) else c.

Fixpoint map_string (f : ascii -> ascii) (s : string) : string :=
  match s with
  | EmptyString => EmptyString
  | String c r => String (f c) (map_string f r)
  end.

Definition toUpperCase : string -> string := map_string upper_ascii.
Definition toLowerCase : string -> string := map_string lower_ascii.

(** ** The timeline simulator *)

(** One pushed snapshot, together with the values the running variables
    [cumulativeDebt] and [accumulatedSavings] had when it was pushed
    ([accumulatedSavings] is declared only before the career loop: it counts
    as 0 until then).  The two extra fields are not part of the output. *)
Record Entry := {
  snap : LifePathYear;
  run_debt : Q;
  run_savings : Q
}.

(** The mutable locals of [generateLifePath]. *)
Module Loop.
Record State := {
  timeline : list Entry;
  cumulativeDebt : Q;
  cumulativeEarnings : Q;
  peakDebt : Q;
  breakEvenAge : option Z;
  accumulatedSavings : Q
}.
End Loop.

Module Summary.
Record t := {
  totalCost : Z;
  undergradWithRoomBoard : Z;
  undergradTuitionOnly : Z;
  gradSchoolCost : Z;
  aidAdjustedUndergrad : option Z;
  peakDebt : Z;
  breakEvenAge : option Z;
  netWorthAt35 : Z
}.
End Summary.

Record LifePath := {
  college_id : Z;
  timeline : list LifePathYear;
  summary : Summary.t
}.

(** A nullable number that may also be [NaN]. *)
Inductive NumOrNull := IsNull | IsNaN | IsNum (q : Q).

Section GenerateLifePath.

Variable college : CollegeInput.
Variable profile : StudentProfile.
Variable careerData : CareerData.

Local Open Scope Q_scope.

Definition isInState : bool :=
  String.eqb (toUpperCase (homeState profile)) (toUpperCase (state college)).

Definition stickerPriceWithRB : Q := getStickerPrice college isInState true.
Definition stickerPriceTuitionOnly : Q := getStickerPrice college isInState false.

Definition undergradCostWithRB : Q := stickerPriceWithRB * 4.
Definition undergradCostTuitionOnly : Q := stickerPriceTuitionOnly * 4.

Definition aidAdjustedPerYear : Lookup :=
  getAidAdjustedPrice college (incomeBracket profile).

(** [aidAdjustedPerYear ? aidAdjustedPerYear * 4 : null] *)
Definition aidAdjustedUndergrad : NumOrNull :=
  match aidAdjustedPerYear with
  | Num q => if truthy q then IsNum (q * 4) else IsNull
  | Inherited => IsNaN
  | Undefined | Null => IsNull
  end.

Definition scholarshipOffset : Q :=
  if hasScholarships profile then scholarshipAmount profile else 0.

Definition adjustedUndergradCost : Q :=
  Math_max 0 (undergradCostWithRB - scholarshipOffset).

Definition undergradDebt : Z := Math_round (adjustedUndergradCost * 0.6).
Definition gradDebt : Q :=
  gradCostPerYear careerData * inject_Z (gradSchoolYears careerData).
Definition totalDebt : Q := inject_Z undergradDebt + gradDebt.

(** [profile.currentAge || 18] *)
Definition startAge : Z :=
  match currentAge profile with
  | Some a => if (a =? 0)%Z then 18%Z else a
  | None => 18%Z
  end.

Definition projectionEndAge : Z := (startAge + 17)%Z.

Definition push (y : LifePathYear) (d s : Q) (l : list Entry) : list Entry :=
  l ++ [ {| snap := y; run_debt := d; run_savings := s |} ].

Definition init : Loop.State :=
  {| Loop.timeline := [];
     Loop.cumulativeDebt := 0;
     Loop.cumulativeEarnings := 0;
     Loop.peakDebt := 0;
     Loop.breakEvenAge := None;
     Loop.accumulatedSavings := 0 |}.

(** Body of the undergraduate loop, [year] from 1 to 4. *)
Definition undergradYear (year : Z) (s : Loop.State) : Loop.State :=
  let age := (startAge + year - 1)%Z in
  let cumulativeDebt := Loop.cumulativeDebt s + stickerPriceWithRB * 0.6 in
  let peakDebt := Math_max (Loop.peakDebt s) cumulativeDebt in
  {| Loop.timeline :=
       push {| year := year; age := age; phase := College; earnings := None;
               debt := Math_round cumulativeDebt;
               netWorth := (- Math_round cumulativeDebt)%Z |}
            cumulativeDebt 0 (Loop.timeline s);
     Loop.cumulativeDebt := cumulativeDebt;
     Loop.cumulativeEarnings := Loop.cumulativeEarnings s;
     Loop.peakDebt := peakDebt;
     Loop.breakEvenAge := Loop.breakEvenAge s;
     Loop.accumulatedSavings := Loop.accumulatedSavings s |}.

(** [peakDebt = Math.max(peakDebt, cumulativeDebt)] after the loop. *)
Definition afterUndergrad (s : Loop.State) : Loop.State :=
  {| Loop.timeline := Loop.timeline s;
     Loop.cumulativeDebt := Loop.cumulativeDebt s;
     Loop.cumulativeEarnings := Loop.cumulativeEarnings s;
     Loop.peakDebt := Math_max (Loop.peakDebt s) (Loop.cumulativeDebt s);
     Loop.breakEvenAge := Loop.breakEvenAge s;
     Loop.accumulatedSavings := Loop.accumulatedSavings s |}.

(** Body of the graduate-school loop. *)
Definition gradYear (year : Z) (s : Loop.State) : Loop.State :=
  let age := (22 + year - 1)%Z in
  let yearNum := (4 + year)%Z in
  let cumulativeDebt := Loop.cumulativeDebt s + gradCostPerYear careerData in
  let peakDebt := Math_max (Loop.peakDebt s) cumulativeDebt in
  {| Loop.timeline :=
       push {| year := yearNum; age := age; phase := GradSchool; earnings := None;
               debt := Math_round cumulativeDebt;
               netWorth := Math_round (- cumulativeDebt) |}
            cumulativeDebt 0 (Loop.timeline s);
     Loop.cumulativeDebt := cumulativeDebt;
     Loop.cumulativeEarnings := Loop.cumulativeEarnings s;
     Loop.peakDebt := peakDebt;
     Loop.breakEvenAge := Loop.breakEvenAge s;
     Loop.accumulatedSavings := Loop.accumulatedSavings s |}.

(** Body of the residency loop. *)
Definition residencyYear (year : Z) (s : Loop.State) : Loop.State :=
  let gradSchoolEndAge := (22 + gradSchoolYears careerData)%Z in
  let age := (gradSchoolEndAge + year - 1)%Z in
  let yearNum := (4 + gradSchoolYears careerData + year)%Z in
  let cumulativeEarnings := Loop.cumulativeEarnings s + residencySalary careerData in
  let cumulativeDebt := Loop.cumulativeDebt s * 1.05 - 5000 in
  {| Loop.timeline :=
       push {| year := yearNum; age := age; phase := Residency;
               earnings := Some (residencySalary careerData);
               debt := Math_round (Math_max 0 cumulativeDebt);
               netWorth := Math_round (cumulativeEarnings - Math_max 0 cumulativeDebt) |}
            cumulativeDebt 0 (Loop.timeline s);
     Loop.cumulativeDebt := cumulativeDebt;
     Loop.cumulativeEarnings := cumulativeEarnings;
     Loop.peakDebt := Loop.peakDebt s;
     Loop.breakEvenAge := Loop.breakEvenAge s;
     Loop.accumulatedSavings := Loop.accumulatedSavings s |}.

Definition careerStartAge : Z :=
  (startAge + 4 + gradSchoolYears careerData + residencyYears careerData)%Z.

Definition yearsToShow : Z := (projectionEndAge - careerStartAge + 1)%Z.

Definition SAVINGS_RATE : Q := 0.15.
Definition INVESTMENT_RETURN : Q := 0.07.

(** The salary of career year [careerYear]. *)
Definition currentSalary (careerYear : Z) : Z :=
  let yearsExperience := (careerYear - 1)%Z in
  let low := salaryLow careerData in
  let median := medianSalary careerData in
  let high := salaryHigh careerData in
  if (yearsExperience <=? 0)%Z then
    Math_round (low * 0.9)
  else if (yearsExperience <=? 2)%Z then
    let progress := inject_Z yearsExperience / 2 in
    Math_round (low * 0.9 + (median - low * 0.9) * progress * 0.5)
  else if (yearsExperience <=? 5)%Z then
    let progress := (inject_Z yearsExperience - 2) / 3 in
    let startSalary := low * 0.9 + (median - low * 0.9) * 0.5 in
    Math_round (startSalary + (median - startSalary) * progress)
  else if (yearsExperience <=? 10)%Z then
    let progress := (inject_Z yearsExperience - 5) / 5 in
    Math_round (median + (high - median) * progress * 0.6)
  else
    let progress := Math_min ((inject_Z yearsExperience - 10) / 10) 1 in
    let base := median + (high - median) * 0.6 in
    Math_round (base + (high - base) * progress * 0.5).

(** Body of the career loop after its [break] test; [currentYearNum] is
    [timeline.length] as read once before the loop. *)
Definition careerYearBody (currentYearNum careerYear : Z) (s : Loop.State) : Loop.State :=
  let age := (careerStartAge + careerYear - 1)%Z in
  let yearNum := (currentYearNum + careerYear)%Z in
  let salary := inject_Z (currentSalary careerYear) in
  let annualPayment :=
    if 0 <? totalDebt
    then Math_min (totalDebt / 10 * 1.5) (Loop.cumulativeDebt s)
    else 0 in
  let cumulativeDebt := Math_max 0 (Loop.cumulativeDebt s * 1.05 - annualPayment) in
  let annualSavings := Math_max 0 (salary * SAVINGS_RATE - annualPayment) in
  let accumulatedSavings :=
    Loop.accumulatedSavings s * (1 + INVESTMENT_RETURN) + annualSavings in
  let netWorth := accumulatedSavings - cumulativeDebt in
  let breakEvenAge :=
    match Loop.breakEvenAge s with
    | None => if 0 <? netWorth then Some age else None
    | Some a => Some a
    end in
  {| Loop.timeline :=
       push {| year := yearNum; age := age; phase := Career;
               earnings := Some salary;
               debt := Math_round (Math_max 0 cumulativeDebt);
               netWorth := Math_round netWorth |}
            cumulativeDebt accumulatedSavings (Loop.timeline s);
     Loop.cumulativeDebt := cumulativeDebt;
     Loop.cumulativeEarnings := Loop.cumulativeEarnings s;
     Loop.peakDebt := Loop.peakDebt s;
     Loop.breakEvenAge := breakEvenAge;
     Loop.accumulatedSavings := accumulatedSavings |}.

(** [for (careerYear = 1; careerYear <= yearsToShow; careerYear++)] with its
    [if (age > projectionEndAge) break]; [fuel] bounds the iterations. *)
Fixpoint careerLoop (fuel : nat) (currentYearNum careerYear : Z) (s : Loop.State)
  : Loop.State :=
  match fuel with
  | O => s
  | S fuel' =>
      if (careerYear <=? yearsToShow)%Z then
        let age := (careerStartAge + careerYear - 1)%Z in
        if (age >? projectionEndAge)%Z then s
        else careerLoop fuel' currentYearNum (careerYear + 1)%Z
               (careerYearBody currentYearNum careerYear s)
      else s
  end.

Definition undergradPhase (s : Loop.State) : Loop.State :=
  afterUndergrad (for_loop 1 4 undergradYear s).

Definition gradPhase (s : Loop.State) : Loop.State :=
  if requiresGradSchool careerData && (0 <? gradSchoolYears careerData)%Z
  then for_loop 1 (gradSchoolYears careerData) gradYear s
  else s.

Definition residencyPhase (s : Loop.State) : Loop.State :=
  if (0 <? residencyYears careerData)%Z
     && (0 <? residencySalary careerData)
  then for_loop 1 (residencyYears careerData) residencyYear s
  else s.

(** [let accumulatedSavings = 0] *)
Definition declareSavings (s : Loop.State) : Loop.State :=
  {| Loop.timeline := Loop.timeline s;
     Loop.cumulativeDebt := Loop.cumulativeDebt s;
     Loop.cumulativeEarnings := Loop.cumulativeEarnings s;
     Loop.peakDebt := Loop.peakDebt s;
     Loop.breakEvenAge := Loop.breakEvenAge s;
     Loop.accumulatedSavings := 0 |}.

Definition careerPhase (s : Loop.State) : Loop.State :=
  let currentYearNum := Z.of_nat (List.length (Loop.timeline s)) in
  careerLoop (Z.to_nat yearsToShow) currentYearNum 1%Z (declareSavings s).

(** The state of the locals when the four loops are done. *)
Definition simulate : Loop.State :=
  careerPhase (residencyPhase (gradPhase (undergradPhase init))).

(** [lastYear?.netWorth || -totalDebt] *)
Definition netWorthAtEnd (tl : list Entry) : Q :=
  match last (map (fun e => Some (snap e)) tl) None with
  | Some lastYear =>
      if (netWorth lastYear =? 0)%Z then - totalDebt else inject_Z (netWorth lastYear)
  | None => - totalDebt
  end.

Definition generateLifePath : LifePath :=
  let s := simulate in
  let gradCost := gradCostPerYear careerData * inject_Z (gradSchoolYears careerData) in
  {| college_id := id college;
     timeline := map snap (Loop.timeline s);
     summary :=
       {| Summary.totalCost := Math_round (adjustedUndergradCost + gradCost);
          Summary.undergradWithRoomBoard := Math_round undergradCostWithRB;
          Summary.undergradTuitionOnly := Math_round undergradCostTuitionOnly;
          Summary.gradSchoolCost := Math_round gradCost;
          Summary.aidAdjustedUndergrad :=
            match aidAdjustedUndergrad with
            | IsNum v => if truthy v then Some (Math_round v) else None
            | IsNaN | IsNull => None
            end;
          Summary.peakDebt := Math_round (Loop.peakDebt s);
          Summary.breakEvenAge := Loop.breakEvenAge s;
          Summary.netWorthAt35 := Math_round (netWorthAtEnd (Loop.timeline s)) |} |}.

End GenerateLifePath.

(** ** The request handler *)

Inductive Response :=
| BadRequest (error : string)          (* status 400 *)
| Success (paths : list LifePath).

(** [POST] of the life-path route.  The rows the database returns for the
    requested ids and the career data the provider resolves are outside the
    program: they are taken as given. *)
Definition POST (colleges : option (list Z)) (rows : list CollegeInput)
    (profile : StudentProfile) (careerData : CareerData) : Response :=
  match colleges with
  | None | Some [] => BadRequest "No colleges provided"
  | Some (_ :: _) =>
      Success (map (fun college => generateLifePath college profile careerData) rows)
  end.

(** ** The career classifier *)

Module Regex.

(** [\w] *)
Definition isWordChar (c : ascii) : bool :=
  let n := nat_of_ascii c in
  (((48 <=? n) && (n <=? 57)) || ((65 <=? n) && (n <=? 90))
   || ((97 <=? n) && (n <=? 122)) || (n =? 95))%nat.

Definition isWord (c : option ascii) : bool :=
  match c with Some a => isWordChar a | None => false end.

Definition peek (s : string) : option ascii :=
  match s with String c _ => Some c | EmptyString => None end.

(** [\b] between the character before and the character after. *)
Definition boundary (prev next : option ascii) : bool :=
  xorb (isWord prev) (isWord next).

(** The literal [w] followed by [\b], matched at the head of [s]. *)
Fixpoint literal_then_boundary (w : string) (prev : option ascii) (s : string) : bool :=
  match w with
  | EmptyString => boundary prev (peek s)
  | String a w' =>
      match s with
      | String c r => Ascii.eqb a c && literal_then_boundary w' (Some c) r
      | EmptyString => false
      end
  end.

(** [\b(w1|...|wn)\b] matched at the head of [s]. *)
Definition match_here (alts : list string) (prev : option ascii) (s : string) : bool :=
  boundary prev (peek s)
  && existsb (fun w => literal_then_boundary w prev s) alts.

Fixpoint search (alts : list string) (prev : option ascii) (s : string) : bool :=
  match_here alts prev s
  || match s with
     | String c r => search alts (Some c) r
     | EmptyString => false
     end.

(** [/\b(w1|...|wn)\b/i.test(s)] for lower-case literals and a lower-cased
    subject. *)
Definition test (alts : list string) (s : string) : bool := search alts None s.

End Regex.

Definition isSpace (c : ascii) : bool :=
  let n := nat_of_ascii c in ((n =? 32) || ((9 <=? n) && (n <=? 13)))%nat.

Fixpoint trimStart (s : string) : string :=
  match s with
  | String c r => if isSpace c then trimStart r else s
  | EmptyString => EmptyString
  end.

Fixpoint trimEnd (s : string) : string :=
  match s with
  | String c r =>
      match trimEnd r with
      | EmptyString => if isSpace c then EmptyString else String c EmptyString
      | r' => String c r'
      end
  | EmptyString => EmptyString
  end.

Definition trim (s : string) : string := trimEnd (trimStart s).

Local Open Scope string_scope.

(** The own keys of [CAREER_PATH_CONFIG]. *)
Definition CAREER_PATH_CONFIG_keys : list string :=
  [ "tech_engineer"; "tech_pm"; "finance"; "consulting"; "medicine"; "surgery";
    "neurosurgery"; "healthcare"; "nursing"; "law"; "academia"; "teaching";
    "creative"; "entrepreneur"; "government"; "not_sure"; "trades";
    "first_responder"; "military"; "real_estate"; "sales"; "dentistry";
    "pharmacy"; "veterinary"; "optometry"; "therapy"; "healthcare_tech";
    "social_work"; "media"; "data_analyst"; "accounting"; "aviation";
    "logistics"; "corporate"; "marketing"; "architecture"; "hospitality";
    "fitness"; "beauty"; "agriculture"; "nonprofit" ].

(** Whether [CAREER_PATH_CONFIG[key]] is truthy: an own key holds an object,
    and so does a name inherited from [Object.prototype]. *)
Definition CAREER_PATH_CONFIG_has (key : string) : bool :=
  existsb (String.eqb key) CAREER_PATH_CONFIG_keys || inherited key.

(** The keyword rules, in the order of the source; each rule is
    [\b(alternatives)\b]; [non-?profit] is listed as its two spellings. *)
Definition patterns : list (list string * string) :=
  [
    (["nursing"; "nurse"; "rn"; "bsn"; "lpn"; "registered nurse";
      "nurse practitioner"; "np"],
     "nursing");
    (["software"; "developer"; "programmer"; "engineer"; "coding"; "web dev";
      "data scientist"; "devops"; "sysadmin"; "network admin"; "database"; "dba";
      "qa"; "tester"; "cybersecurity"; "cloud"; "backend"; "frontend";
      "full stack"; "machine learning"; "ai engineer"],
     "tech_engineer");
    (["product manager"; "pm"; "product owner"; "ux"; "ui designer";
      "scrum master"; "agile"],
     "tech_pm");
    (["data analyst"; "business analyst"; "analytics"; "statistician"; "actuary";
      "quantitative"],
     "data_analyst");
    (["finance"; "banker"; "investment"; "trading"; "wall street"; "hedge fund";
      "private equity"; "venture capital"; "financial advisor";
      "wealth management"; "cfo"],
     "finance");
    (["accountant"; "accounting"; "cpa"; "auditor"; "tax"; "bookkeeper"],
     "accounting");
    (["consultant"; "consulting"; "mckinsey"; "bain"; "bcg"; "deloitte"; "pwc";
      "kpmg"; "ey"; "accenture"],
     "consulting");
    (["neurosurgeon"; "neurosurgery"; "brain surgeon"; "brain surgery"],
     "neurosurgery");
    (["surgeon"; "surgery"; "surgical"; "orthopedic surgeon"; "cardiac surgeon";
      "trauma surgeon"; "plastic surgeon"; "general surgery"],
     "surgery");
    (["doctor"; "physician"; "md"; "do"; "medical doctor"; "pediatrician";
      "cardiologist"; "dermatologist"; "psychiatrist"; "oncologist";
      "anesthesiologist"; "radiologist"],
     "medicine");
    (["dentist"; "dental"; "orthodontist"; "oral surgeon"; "periodontist"],
     "dentistry");
    (["pharmacist"; "pharmacy"; "pharmd"],
     "pharmacy");
    (["veterinarian"; "vet"; "veterinary"; "animal doctor"],
     "veterinary");
    (["optometrist"; "optometry"; "eye doctor"],
     "optometry");
    (["physical therapist"; "pt"; "dpt"; "occupational therapist"; "ot";
      "speech therapist"; "slp"; "rehab"],
     "therapy");
    (["healthcare"; "health care"; "medical assistant"; "technician"; "radiology";
      "sonographer"; "phlebotomist"; "medical coder"; "health admin"; "hospital"],
     "healthcare");
    (["dental hygienist"; "dental assistant"; "vet tech"; "veterinary tech";
      "pharmacy tech"; "lab tech"],
     "healthcare_tech");
    (["lawyer"; "attorney"; "legal"; "paralegal"; "judge"; "prosecutor";
      "public defender"; "corporate counsel"],
     "law");
    (["professor"; "academia"; "phd"; "research"; "scientist"; "researcher";
      "postdoc"],
     "academia");
    (["teacher"; "teaching"; "educator"; "principal"; "school"; "tutor";
      "special education"],
     "teaching");
    (["social worker"; "counselor"; "therapist"; "mental health"; "case manager";
      "family services"; "child welfare"; "lcsw"; "lmft"],
     "social_work");
    (["artist"; "musician"; "writer"; "filmmaker"; "photographer"; "actor";
      "actress"; "animator"; "video editor"; "graphic design"; "illustrator";
      "creative director"],
     "creative");
    (["content creator"; "influencer"; "streamer"; "youtuber"; "podcaster";
      "social media"; "journalist"; "reporter"; "news"; "broadcasting"],
     "media");
    (["entrepreneur"; "startup"; "founder"; "business owner"; "self-employed";
      "freelance"; "small business"],
     "entrepreneur");
    (["government"; "federal"; "public sector"; "civil servant"; "policy";
      "diplomat"; "city planner"; "urban planner"],
     "government");
    (["electrician"; "plumber"; "hvac"; "carpenter"; "mechanic"; "welder";
      "construction"; "contractor"; "trades"; "lineman"; "ironworker"; "machinist";
      "cnc"; "heavy equipment"; "crane operator"; "roofer"; "painter"; "mason"],
     "trades");
    (["auto mechanic"; "automotive"; "car"; "diesel"; "collision repair";
      "body shop"],
     "trades");
    (["police"; "cop"; "officer"; "firefighter"; "emt"; "paramedic";
      "first responder"; "detective"; "sheriff"; "state trooper"; "corrections";
      "prison"],
     "first_responder");
    (["military"; "army"; "navy"; "air force"; "marines"; "coast guard";
      "national guard"; "veteran"; "enlisted"; "officer"],
     "military");
    (["pilot"; "aviation"; "airline"; "flight attendant"; "air traffic"; "aerospace"],
     "aviation");
    (["truck driver"; "trucker"; "cdl"; "logistics"; "supply chain"; "warehouse";
      "shipping"; "delivery"; "ups"; "fedex"; "amazon"],
     "logistics");
    (["real estate"; "realtor"; "property"; "broker"; "mortgage"; "appraiser"],
     "real_estate");
    (["sales"; "account executive"; "ae"; "business development"; "bdr"; "sdr";
      "retail"; "store manager"],
     "sales");
    (["human resources"; "hr"; "recruiter"; "talent"; "operations";
      "office manager"; "administrative"; "executive assistant"; "project manager";
      "pmp"],
     "corporate");
    (["marketing"; "brand"; "advertising"; "seo"; "growth"; "digital marketing";
      "pr"; "public relations"; "communications"],
     "marketing");
    (["architect"; "architecture"; "interior design"; "landscape architect"],
     "architecture");
    (["chef"; "cook"; "culinary"; "restaurant"; "hotel"; "hospitality";
      "event planner"; "catering"; "bartender"; "sommelier"],
     "hospitality");
    (["personal trainer"; "fitness"; "gym"; "coach"; "athletic trainer"; "sports";
      "yoga"; "pilates"; "nutritionist"; "dietitian"],
     "fitness");
    (["cosmetologist"; "hair stylist"; "barber"; "esthetician"; "nail tech";
      "makeup artist"; "beauty"; "salon"; "spa"],
     "beauty");
    (["farmer"; "farming"; "agriculture"; "rancher"; "agricultural"; "agribusiness"],
     "agriculture");
    (["non-profit"; "nonprofit"; "ngo"; "charity"; "foundation"; "advocacy";
      "community organizer"],
     "nonprofit")
  ].

Fixpoint firstMatch (rules : list (list string * string)) (lower : string) : option string :=
  match rules with
  | [] => None
  | (pattern, category) :: rest =>
      if Regex.test pattern lower then Some category else firstMatch rest lower
  end.

Definition matchCareerFromText (text : string) : string :=
  let lower := trim (toLowerCase text) in
  if CAREER_PATH_CONFIG_has lower then lower
  else match firstMatch patterns lower with
       | Some category => category
       | None => "not_sure"
       end.

Local Close Scope string_scope.

(** ** What the specification asks of a result *)

(** The largest [debt] of a timeline (0 for an empty one). *)
Definition max_debt (tl : list LifePathYear) : Z :=
  match map debt tl with
  | [] => 0
  | d :: ds => fold_left Z.max ds d
  end.

Definition is_school (p : Phase) : bool :=
  match p with
  | College | GradSchool => true
  | Residency | Career => false
  end.

(** The largest [debt] among the College and Grad School snapshots. *)
Definition school_max_debt (tl : list LifePathYear) : Z :=
  fold_left (fun m y => if is_school (phase y) then Z.max m (debt y) else m) tl 0.

(** Net-worth identity on a pushed snapshot, savings being the running
    [accumulatedSavings] (0 before the career). *)
Definition net_worth_identity (e : Entry) : Prop :=
  (inject_Z (netWorth (snap e)) == run_savings e - inject_Z (debt (snap e)))%Q.

(** The age of the first snapshot whose [netWorth] is positive. *)
Definition first_positive_age (tl : list LifePathYear) : option Z :=
  option_map age (find (fun y => 0 <? netWorth y) tl).

(** The age of the first career year whose net worth, before it is rounded
    for display, is positive. *)
Definition first_career_break_even (tr : list Entry) : option Z :=
  option_map (fun e => age (snap e))
    (find (fun e => Phase_eqb (phase (snap e)) Career
                    && (0 <? run_savings e - run_debt e)%Q) tr).

(** Undergraduate debt as the specification words it:
    [providedMedianDebt ?? round(adjustedStickerCost * 0.6)]. *)
Definition undergradDebt_spec (college : CollegeInput) (profile : StudentProfile) : Q :=
  nullish (medianDebt college)
          (inject_Z (Math_round (adjustedUndergradCost college profile * 0.6)%Q)).

Definition set_medianDebt (college : CollegeInput) (d : option Q) : CollegeInput :=
  {| id := id college; state := state college; cost := cost college; medianDebt := d |}.

(** The salary curve as the specification words it: straight lines between
    the anchors at 0, 2, 5, 10 and 20 years of experience. *)
Definition lerp (x0 y0 x1 y1 x : Q) : Q :=
  (y0 + (y1 - y0) * ((x - x0) / (x1 - x0)))%Q.

Definition salaryCurve (low median high : Q) (e : Z) : Q :=
  let entry := (0.9 * low)%Q in
  let midpoint := ((entry + median) / 2)%Q in
  let upper := (median + 0.6 * (high - median))%Q in
  let top := (upper + 0.5 * (high - upper))%Q in
  if e <=? 0 then entry
  else if e <=? 2 then lerp 0 entry 2 midpoint (inject_Z e)
  else if e <=? 5 then lerp 2 midpoint 5 median (inject_Z e)
  else if e <=? 10 then lerp 5 median 10 upper (inject_Z e)
  else if e <=? 20 then lerp 10 upper 20 top (inject_Z e)
  else top.

(** What a snapshot shows of the running balances [D = run_debt] and
    [S = run_savings] (residency years apart). *)
Definition shows_balances (e : Entry) : Prop :=
  match phase (snap e) with
  | College =>
      debt (snap e) = Math_round (run_debt e)
      /\ netWorth (snap e) = - debt (snap e)
      /\ (run_savings e == 0)%Q
  | GradSchool =>
      debt (snap e) = Math_round (run_debt e)
      /\ netWorth (snap e) = Math_round (run_savings e - run_debt e)%Q
      /\ (run_savings e == 0)%Q
  | Career =>
      debt (snap e) = Math_round (Math_max 0 (run_debt e))
      /\ netWorth (snap e) = Math_round (run_savings e - run_debt e)%Q
  | Residency => True
  end.

(** The age a snapshot carries, by phase: school and residency years count
    from the constant 22, that is [year + 17]. *)
Definition age_by_phase (startAge : Z) (y : LifePathYear) : Prop :=
  match phase y with
  | College => age y = startAge + year y - 1
  | GradSchool | Residency => age y = year y + 17
  | Career => True
  end.

(** No career year has been pushed and no break-even age recorded. *)
Definition before_career (s : Loop.State) : Prop :=
  Loop.breakEvenAge s = None
  /\ Forall (fun e => phase (snap e) <> Career) (Loop.timeline s).

(** ** Sample inputs *)

Module Samples.
Local Open Scope Q_scope.
Local Open Scope string_scope.

Definition cost_of (tuition roomBoard : Q) (avg zeroBand : option Q) : Cost :=
  {| tuitionInState := Some tuition; tuitionOutOfState := Some tuition;
     roomBoardOnCampus := Some roomBoard; avgNetPrice := avg;
     np_0_30000 := zeroBand; np_30001_48000 := None; np_48001_75000 := None;
     np_75001_110000 := None; np_110001_plus := None |}.

(** Sticker price 50000 a year; lowest bracket pays nothing. *)
Definition private_college : CollegeInput :=
  {| id := 1; state := "CA";
     cost := cost_of 35000 15000 (Some 20000) (Some 0);
     medianDebt := Some 20000 |}.

(** Sticker price 10000 a year. *)
Definition state_college : CollegeInput :=
  {| id := 2; state := "NV"; cost := cost_of 10000 0 None None; medianDebt := None |}.

(** Sticker price 1000 a year. *)
Definition community_college : CollegeInput :=
  {| id := 3; state := "NV"; cost := cost_of 1000 0 None None; medianDebt := None |}.

(** Sticker price 0. *)
Definition free_college : CollegeInput :=
  {| id := 4; state := "NV"; cost := cost_of 0 0 None None; medianDebt := None |}.

Definition freshman : StudentProfile :=
  {| incomeBracket := "0-30000"; homeState := "ca"; hasScholarships := false;
     scholarshipAmount := 0; currentAge := Some 18%Z |}.

(** Thirty years old, with a bracket string outside the canonical five. *)
Definition returning_student : StudentProfile :=
  {| incomeBracket := "banana"; homeState := "ca"; hasScholarships := false;
     scholarshipAmount := 0; currentAge := Some 30%Z |}.

(** One year of paid training, no graduate school. *)
Definition trainee : CareerData :=
  {| medianSalary := 60000; salaryLow := 40000; salaryHigh := 80000;
     requiresGradSchool := false; gradSchoolYears := 0; gradCostPerYear := 0;
     residencyYears := 1; residencySalary := 60000 |}.

(** Two years of graduate school at 20000 a year. *)
Definition graduate : CareerData :=
  {| medianSalary := 60000; salaryLow := 40000; salaryHigh := 80000;
     requiresGradSchool := true; gradSchoolYears := 2; gradCostPerYear := 20000;
     residencyYears := 0; residencySalary := 0 |}.

(** No graduate school, no residency. *)
Definition bachelor : CareerData :=
  {| medianSalary := 60000; salaryLow := 40000; salaryHigh := 80000;
     requiresGradSchool := false; gradSchoolYears := 0; gradCostPerYear := 0;
     residencyYears := 0; residencySalary := 0 |}.

(** A salary band of two currency units. *)
Definition pocket_money : CareerData :=
  {| medianSalary := 2; salaryLow := 2; salaryHigh := 2;
     requiresGradSchool := false; gradSchoolYears := 0; gradCostPerYear := 0;
     residencyYears := 0; residencySalary := 0 |}.

End Samples.

(** * Further definitions *)

From Stdlib Require Import Qpower.

(** ** Shape of a timeline *)

(** The part of a snapshot that its position in the loops decides. *)
Definition shape (y : LifePathYear) : Z * Z * Phase * option Q :=
  (year y, age y, phase y, earnings y).

(** The guards of the graduate-school and residency loops. *)
Definition gradRuns (careerData : CareerData) : bool :=
  requiresGradSchool careerData && (0 <? gradSchoolYears careerData).

Definition residencyRuns (careerData : CareerData) : bool :=
  (0 <? residencyYears careerData) && (0 <? residencySalary careerData)%Q.

Definition collegeShape (profile : StudentProfile) (y : Z) : Z * Z * Phase * option Q :=
  (y, startAge profile + y - 1, College, None).

Definition gradShape (y : Z) : Z * Z * Phase * option Q :=
  (4 + y, 22 + y - 1, GradSchool, None).

Definition residencyShape (careerData : CareerData) (y : Z) : Z * Z * Phase * option Q :=
  (4 + gradSchoolYears careerData + y, 22 + gradSchoolYears careerData + y - 1,
   Residency, Some (residencySalary careerData)).

Definition careerShape (profile : StudentProfile) (careerData : CareerData)
    (currentYearNum careerYear : Z) : Z * Z * Phase * option Q :=
  (currentYearNum + careerYear, careerStartAge profile careerData + careerYear - 1,
   Career, Some (inject_Z (currentSalary careerData careerYear))).

(** The snapshots pushed before the career loop. *)
Definition trainingShape (profile : StudentProfile) (careerData : CareerData)
  : list (Z * Z * Phase * option Q) :=
  map (collegeShape profile) (for_range 1 4)
  ++ (if gradRuns careerData
      then map gradShape (for_range 1 (gradSchoolYears careerData)) else [])
  ++ (if residencyRuns careerData
      then map (residencyShape careerData) (for_range 1 (residencyYears careerData))
      else []).

Definition timelineShape (profile : StudentProfile) (careerData : CareerData)
  : list (Z * Z * Phase * option Q) :=
  trainingShape profile careerData
  ++ map (careerShape profile careerData
            (Z.of_nat (List.length (trainingShape profile careerData))))
         (for_range 1 (yearsToShow profile careerData)).

(** The balance that enters the career loop. *)
Definition balanceAtCareerStart (college : CollegeInput) (profile : StudentProfile)
    (careerData : CareerData) : Q :=
  Loop.cumulativeDebt
    (residencyPhase careerData
       (gradPhase careerData (undergradPhase college profile init))).

(** A present amount is not negative. *)
Definition nonneg_opt (o : option Q) : Prop :=
  match o with
  | Some q => (0 <= q)%Q
  | None => True
  end.

Definition costs_nonnegative (c : Cost) : Prop :=
  nonneg_opt (tuitionInState c) /\ nonneg_opt (tuitionOutOfState c)
  /\ nonneg_opt (roomBoardOnCampus c).

(** Seven years of graduate school and seven of residency. *)
Definition long_training : CareerData :=
  {| medianSalary := 300000; salaryLow := 200000; salaryHigh := 400000;
     requiresGradSchool := true; gradSchoolYears := 7; gradCostPerYear := 50000;
     residencyYears := 7; residencySalary := 60000 |}.

(** ** The major classifier *)

Local Open Scope string_scope.

(** [MAJOR_EARNINGS_MULTIPLIERS]: key and label (the multiplier is not read
    by the life-path route). *)
Definition MAJOR_EARNINGS_MULTIPLIERS : list (string * string) :=
  [
  ("computer_science", "Computer Science");
  ("engineering", "Engineering");
  ("business", "Business");
  ("accounting", "Accounting");
  ("finance", "Finance");
  ("marketing", "Marketing");
  ("health_premed", "Pre-Med / Health Sciences");
  ("nursing", "Nursing");
  ("pharmacy", "Pharmacy");
  ("dental_hygiene", "Dental Hygiene");
  ("biology", "Biology");
  ("physical_sciences", "Physical Sciences");
  ("math", "Mathematics");
  ("social_sciences", "Social Sciences");
  ("psychology", "Psychology");
  ("criminal_justice", "Criminal Justice");
  ("social_work", "Social Work");
  ("humanities", "Humanities");
  ("arts", "Fine Arts");
  ("communications", "Communications");
  ("journalism", "Journalism");
  ("education", "Education");
  ("trades", "Trades/Vocational");
  ("culinary", "Culinary Arts");
  ("cosmetology", "Cosmetology");
  ("automotive", "Automotive Technology");
  ("architecture", "Architecture");
  ("agriculture", "Agriculture");
  ("hospitality", "Hospitality Management");
  ("undecided", "Undecided")
  ].

(** Whether [MAJOR_EARNINGS_MULTIPLIERS[key]] is truthy. *)
Definition MAJOR_EARNINGS_MULTIPLIERS_has (key : string) : bool :=
  existsb (fun entry => String.eqb key (fst entry)) MAJOR_EARNINGS_MULTIPLIERS
  || inherited key.

(** The keyword rules of [matchMajorFromText], in the order of the source;
    [pre-?med] is listed as its two spellings. *)
Definition major_patterns : list (list string * string) :=
  [
  (["nursing"; "nurse"; "rn"; "bsn"; "lpn"; "registered nurse"; "nurse practitioner"],
   "nursing");
  (["computer"; "software"; "programming"; "coding"; "developer"; "data science";
    "cs"; "it"; "information technology"; "cyber"; "web dev"; "machine learning";
    "ai"; "artificial intelligence"],
   "computer_science");
  (["engineer"; "engineering"; "mechanical"; "electrical"; "civil"; "chemical";
    "aerospace"; "biomedical"; "industrial"],
   "engineering");
  (["finance"; "financial"; "investment"; "banking"; "economics"; "econ"],
   "finance");
  (["marketing"; "advertising"; "brand"; "digital marketing"],
   "marketing");
  (["business"; "management"; "mba"; "entrepreneur"; "administration"],
   "business");
  (["accounting"; "accountant"; "cpa"; "bookkeeping"],
   "accounting");
  (["pharmacy"; "pharmacist"; "pharmd"; "pharmaceutical"],
   "pharmacy");
  (["dental hygien"; "dental assistant"],
   "dental_hygiene");
  (["pre-med"; "premed"; "premed"; "medicine"; "doctor"; "physician"; "medical";
    "health science"; "healthcare admin"; "public health"],
   "health_premed");
  (["biology"; "bio"; "biochem"; "microbiology"; "molecular"; "genetics";
    "neuroscience"],
   "biology");
  (["math"; "mathematics"; "statistics"; "actuarial"],
   "math");
  (["physics"; "chemistry"; "astronomy"; "geology"; "earth science";
    "environmental science"],
   "physical_sciences");
  (["psychology"; "psych"; "behavioral science"],
   "psychology");
  (["social work"; "lcsw"; "msw"; "bsw"],
   "social_work");
  (["sociology"; "political science"; "anthropology"; "international relations";
    "government"; "poli sci"],
   "social_sciences");
  (["criminal justice"; "criminology"; "law enforcement"; "police"; "forensic";
    "corrections"],
   "criminal_justice");
  (["education"; "teaching"; "teacher"; "pedagogy"; "elementary"; "secondary";
    "early childhood"],
   "education");
  (["journalism"; "reporter"; "news"; "broadcast journalism"],
   "journalism");
  (["english"; "history"; "philosophy"; "literature"; "language"; "classics";
    "religious studies"; "liberal arts"],
   "humanities");
  (["art"; "music"; "theater"; "theatre"; "film"; "graphic design"; "creative";
    "photography"; "dance"; "studio art"; "fine art"],
   "arts");
  (["communications"; "media"; "public relations"; "broadcasting"; "speech"],
   "communications");
  (["architecture"; "architect"; "interior design"; "urban planning";
    "landscape design"],
   "architecture");
  (["electrician"; "plumber"; "hvac"; "welding"; "welder"; "construction";
    "carpentry"; "carpenter"; "machinist"; "cnc"],
   "trades");
  (["automotive"; "auto mechanic"; "diesel"; "collision"; "auto tech"],
   "automotive");
  (["culinary"; "chef"; "cooking"; "pastry"; "baking"; "food service"],
   "culinary");
  (["cosmetology"; "hair"; "stylist"; "esthetician"; "beauty"; "barber";
    "nail tech"; "makeup"],
   "cosmetology");
  (["agriculture"; "farming"; "agribusiness"; "horticulture"; "animal science"],
   "agriculture");
  (["hospitality"; "hotel"; "tourism"; "event management"; "restaurant management"],
   "hospitality")
  ].

Definition matchMajorFromText (text : string) : string :=
  let lower := trim (toLowerCase text) in
  if MAJOR_EARNINGS_MULTIPLIERS_has lower then lower
  else match firstMatch major_patterns lower with
       | Some category => category
       | None => "undecided"
       end.

Local Close Scope string_scope.

(** The scheme both classifiers follow. *)
Definition classify (has : string -> bool) (rules : list (list string * string))
    (fallback : string) (text : string) : string :=
  let lower := trim (toLowerCase text) in
  if has lower then lower
  else match firstMatch rules lower with
       | Some category => category
       | None => fallback
       end.

(** The text consists of white space only. *)
Fixpoint allSpaces (s : string) : bool :=
  match s with
  | EmptyString => true
  | String c r => isSpace c && allSpaces r
  end.

(** A text that does not start with white space. *)
Definition no_leading_space (s : string) : Prop :=
  match s with
  | EmptyString => True
  | String c _ => isSpace c = false
  end.

(** ** Validation of the provider's career data *)

(** The fields of the parsed JSON object that the simulation reads; [None] is
    a missing or null field. *)
Record RawCareerData := {
  raw_medianSalary : option Q;
  raw_salaryLow : option Q;
  raw_salaryHigh : option Q;
  raw_requiresGradSchool : option bool;
  raw_gradSchoolYears : option Z;
  raw_gradCostPerYear : option Q;
  raw_residencyYears : option Z;
  raw_residencySalary : option Q
}.

(** [a || b] on a nullable number: a missing, null or zero [a] gives [b]. *)
Definition orElse (a : option Q) (b : Q) : Q :=
  match a with
  | Some v => if truthy v then v else b
  | None => b
  end.

(** [data.medianSalary * k]: [NaN] (here [None]) when the median is missing. *)
Definition scaledMedian (data : RawCareerData) (k : Q) : option Q :=
  match raw_medianSalary data with
  | Some m => Some (m * k)%Q
  | None => None
  end.

(** The [validatedData] object of [getCareerDataFromAI]. *)
Definition validatedData (data : RawCareerData) : CareerData :=
  {| medianSalary := orElse (raw_medianSalary data) 50000;
     salaryLow := orElse (raw_salaryLow data) (orElse (scaledMedian data 0.7) 35000);
     salaryHigh := orElse (raw_salaryHigh data) (orElse (scaledMedian data 1.4) 70000);
     requiresGradSchool := nullish (raw_requiresGradSchool data) false;
     gradSchoolYears := nullish (raw_gradSchoolYears data) 0;
     gradCostPerYear := nullish (raw_gradCostPerYear data) 0%Q;
     residencyYears := nullish (raw_residencyYears data) 0;
     residencySalary := nullish (raw_residencySalary data) 0%Q |}.

(** The data returned when the request or the parsing fails. *)
Definition fallbackCareerData : CareerData :=
  {| medianSalary := 55000; salaryLow := 40000; salaryHigh := 75000;
     requiresGradSchool := false; gradSchoolYears := 0; gradCostPerYear := 0;
     residencyYears := 0; residencySalary := 0 |}.

(** [getCareerDataFromAI] on a cache miss: [None] stands for any failure of
    the request or of [JSON.parse]. *)
Definition getCareerDataFromAI (response : option RawCareerData) : CareerData :=
  match response with
  | Some data => validatedData data
  | None => fallbackCareerData
  end.

(** A field the provider left out or set to zero. *)
Definition absent (a : option Q) : Prop :=
  match a with
  | Some v => (v == 0)%Q
  | None => True
  end.

(** A provider answer with a median of 80000 and no percentiles. *)
Definition median_only : RawCareerData :=
  {| raw_medianSalary := Some 80000%Q; raw_salaryLow := None; raw_salaryHigh := None;
     raw_requiresGradSchool := None; raw_gradSchoolYears := None;
     raw_gradCostPerYear := None; raw_residencyYears := None;
     raw_residencySalary := None |}.

(** ** The transfer-path route ([alternatives/route.ts]) *)

Module Alternatives.

Local Open Scope Q_scope.

(** A row of the community-college query (the city, state and graduation
    rate are copied to the answer and not read). *)
Record CommunityCollege := {
  id : Z;
  name : string;
  avgNetPrice : option Q
}.

Record AlternativeRequest := {
  collegeId : option Z;
  collegeName : string;
  state : option string;
  netPrice : Q
}.

Inductive PathType := direct | two_plus_two.

Record Years := {
  school : string;
  costPerYear : Q;
  total : Q
}.

Record AlternativePath := {
  type : PathType;
  description : string;
  communityCollege : option CommunityCollege;
  targetSchool : string;
  years1_2 : Years;
  years3_4 : Years;
  totalCost : Q;
  savings : Q;
  (** [None] stands for a value that is not finite (division by a zero
      direct total), which the JSON answer shows as null. *)
  savingsPercent : option Z
}.

Inductive Response :=
| BadRequest (error : string)
| Success (alternatives : list AlternativePath)
          (availableCommunityColleges : list CommunityCollege).

(** [Math.round((savings / directTotal) * 100)] *)
Definition percentOf (savings directTotal : Q) : option Z :=
  if Qeq_bool directTotal 0 then None
  else Some (Math_round (savings / directTotal * 100)).

Definition directPath (collegeName : string) (netPrice : Q) : AlternativePath :=
  {| type := direct;
     description := "Attend 4 years at target school";
     communityCollege := None;
     targetSchool := collegeName;
     years1_2 := {| school := collegeName; costPerYear := netPrice; total := netPrice * 2 |};
     years3_4 := {| school := collegeName; costPerYear := netPrice; total := netPrice * 2 |};
     totalCost := netPrice * 4;
     savings := 0;
     savingsPercent := Some 0%Z |}.

(** The object pushed for a community college whose price is [ccCostPerYear]. *)
Definition transferPath (text : string) (cc : CommunityCollege) (ccCostPerYear : Q)
    (collegeName : string) (netPrice : Q) : AlternativePath :=
  let directTotal := netPrice * 4 in
  let transferTotal := ccCostPerYear * 2 + netPrice * 2 in
  let savings := directTotal - transferTotal in
  {| type := two_plus_two;
     description := text;
     communityCollege := Some cc;
     targetSchool := collegeName;
     years1_2 := {| school := name cc; costPerYear := ccCostPerYear;
                    total := ccCostPerYear * 2 |};
     years3_4 := {| school := collegeName; costPerYear := netPrice;
                    total := netPrice * 2 |};
     totalCost := transferTotal;
     savings := savings;
     savingsPercent := percentOf savings directTotal |}.

(** [cc && cc.avgNetPrice]: the price when it is present and not zero. *)
Definition priced (cc : CommunityCollege) : option Q :=
  match avgNetPrice cc with
  | Some p => if truthy p then Some p else None
  | None => None
  end.

(** The 2+2 path with the cheapest community college. *)
Definition cheapestPath (communityColleges : list CommunityCollege)
    (collegeName : string) (netPrice : Q) (alternatives : list AlternativePath)
  : list AlternativePath :=
  match communityColleges with
  | cheapestCC :: _ =>
      match priced cheapestCC with
      | Some ccCostPerYear =>
          alternatives
          ++ [ transferPath
                 ("2 years at " ++ name cheapestCC ++ ", then transfer to " ++ collegeName)
                 cheapestCC ccCostPerYear collegeName netPrice ]
      | None => alternatives
      end
  | [] => alternatives
  end.

(** Body of [for (let i = 1; i < Math.min(3, communityColleges.length); i++)]. *)
Definition morePaths (communityColleges : list CommunityCollege)
    (collegeName : string) (netPrice : Q) (i : Z) (alternatives : list AlternativePath)
  : list AlternativePath :=
  match nth_error communityColleges (Z.to_nat i) with
  | Some cc =>
      match priced cc with
      | Some ccCostPerYear =>
          alternatives
          ++ [ transferPath ("2 years at " ++ name cc ++ ", then transfer")
                 cc ccCostPerYear collegeName netPrice ]
      | None => alternatives
      end
  | None => alternatives
  end.

Definition falsyId (i : option Z) : bool :=
  match i with Some n => (n =? 0)%Z | None => true end.

Definition falsyText (s : option string) : bool :=
  match s with Some t => String.eqb t "" | None => true end.

(** [POST]; [ccRows] is what the community-college query returns. *)
Definition POST (request : AlternativeRequest) (ccRows : list CommunityCollege)
  : Response :=
  if falsyId (collegeId request) || falsyText (state request)
  then BadRequest "College ID and state required"
  else
    let communityColleges := ccRows in
    let alternatives := [ directPath (collegeName request) (netPrice request) ] in
    let alternatives :=
      cheapestPath communityColleges (collegeName request) (netPrice request)
        alternatives in
    let alternatives :=
      for_loop 1 (Z.min 3 (Z.of_nat (List.length communityColleges)) - 1)
        (morePaths communityColleges (collegeName request) (netPrice request))
        alternatives in
    Success alternatives communityColleges.

(** The balance of an alternative: what it costs and what it saves add up to
    four years at the target school, and its two halves add up to its cost. *)
Definition balanced (netPrice : Q) (a : AlternativePath) : Prop :=
  totalCost a + savings a == netPrice * 4
  /\ total (years1_2 a) + total (years3_4 a) == totalCost a.

(** The community colleges of a list that have a non-zero price. *)
Definition pricedOnes (l : list CommunityCollege) : list CommunityCollege :=
  filter (fun cc => match priced cc with Some _ => true | None => false end) l.

(** Sample rows: a free college between two priced ones, and a fourth. *)
Definition sample_rows : list CommunityCollege :=
  [ {| id := 11; name := "Truckee Meadows"; avgNetPrice := Some 4000 |};
    {| id := 12; name := "Great Basin"; avgNetPrice := Some 0 |};
    {| id := 13; name := "Western Nevada"; avgNetPrice := Some 6000 |};
    {| id := 14; name := "Southern Nevada"; avgNetPrice := Some 7000 |} ].

Definition sample_request : AlternativeRequest :=
  {| collegeId := Some 2%Z; collegeName := "State University";
     state := Some "NV"%string; netPrice := 18000 |}.

End Alternatives.

(** What the answer says of a 2+2 alternative. *)
Definition transfers_to_priced (netPrice : Q) (a : Alternatives.AlternativePath) : Prop :=
  Alternatives.type a = Alternatives.two_plus_two
  /\ exists cc p,
       Alternatives.communityCollege a = Some cc
       /\ Alternatives.priced cc = Some p
       /\ ~ (p == 0)%Q
       /\ (Alternatives.savings a == 2 * (netPrice - p))%Q.

(** ** Loan payments ([calculateMonthlyPayment]) *)

(** [Math.pow(base, n)] for an integral exponent; [None] stands for a result
    that is not finite (zero to a negative power). *)
Definition Math_pow (base : Q) (n : Z) : option Q :=
  if Qeq_bool base 0 && (n <? 0)%Z then None else Some (base ^ n)%Q.

(** [x / y] on numbers; [None] stands for [NaN] or an infinity. *)
Definition divide (x y : Q) : option Q :=
  if Qeq_bool y 0 then None else Some (x / y)%Q.

(** The annuity formula shared by the two routes; the number of years is
    integral. *)
Definition annuity (principal annualRate : Q) (years : Z) : option Q :=
  let monthlyRate := (annualRate / 12)%Q in
  let numPayments := (years * 12)%Z in
  match Math_pow (1 + monthlyRate) numPayments with
  | Some power => divide (principal * monthlyRate * power) (power - 1)
  | None => None
  end.

Module Outcomes.

Definition INTEREST_RATE : Q := 0.05.
Definition LOAN_TERM_YEARS : Z := 10.

(** [calculateMonthlyPayment] of the outcomes route. *)
Definition calculateMonthlyPayment (principal annualRate : Q) (years : Z) : option Q :=
  if Qle_bool principal 0 then Some 0%Q
  else annuity principal annualRate years.

End Outcomes.

Module Page.

(** [calculateMonthlyPayment] of the page: the same formula, rounded. *)
Definition calculateMonthlyPayment (principal annualRate : Q) (years : Z) : option Z :=
  if Qle_bool principal 0 then Some 0
  else option_map Math_round (annuity principal annualRate years).

(** [calculateTotalInterest] *)
Definition calculateTotalInterest (principal annualRate : Q) (years : Z) : option Q :=
  option_map (fun monthlyPayment =>
                (inject_Z monthlyPayment * inject_Z years * 12 - principal)%Q)
             (calculateMonthlyPayment principal annualRate years).

End Page.

(** What is owed after [months] payments of [payment], interest being added
    each month before the payment is taken. *)
Fixpoint outstanding (principal monthlyRate payment : Q) (months : nat) : Q :=
  match months with
  | O => principal
  | S k => (outstanding principal monthlyRate payment k * (1 + monthlyRate) - payment)%Q
  end.

(** The growth of one unit over [k] months. *)
Definition growth (monthlyRate : Q) (k : nat) : Q := ((1 + monthlyRate) ^ Z.of_nat k)%Q.

(** ** The outcomes route ([outcomes/route.ts]) *)

Module Outcome.

Local Open Scope Q_scope.

Inductive ProfessionalPath := bachelors | medical | law | phd | mba.

Record PathConfig := {
  name : string;
  undergradYears : Z;
  gradYears : Z;
  residencyYears : Z;
  gradCostPerYear : Q;
  additionalDebt : Q;
  peakSalary : Q;
  salaryGrowthRate : Q
}.

Definition PROFESSIONAL_PATHS (p : ProfessionalPath) : PathConfig :=
  match p with
  | bachelors =>
      {| name := "Bachelor's Degree"; undergradYears := 4; gradYears := 0;
         residencyYears := 0; gradCostPerYear := 0; additionalDebt := 0;
         peakSalary := 65000; salaryGrowthRate := 0.03 |}
  | medical =>
      {| name := "Medical Doctor (MD)"; undergradYears := 4; gradYears := 4;
         residencyYears := 4; gradCostPerYear := 60000; additionalDebt := 200000;
         peakSalary := 250000; salaryGrowthRate := 0.02 |}
  | law =>
      {| name := "Law (JD)"; undergradYears := 4; gradYears := 3;
         residencyYears := 0; gradCostPerYear := 55000; additionalDebt := 145000;
         peakSalary := 130000; salaryGrowthRate := 0.03 |}
  | phd =>
      {| name := "PhD"; undergradYears := 4; gradYears := 5;
         residencyYears := 0; gradCostPerYear := 5000; additionalDebt := 25000;
         peakSalary := 95000; salaryGrowthRate := 0.025 |}
  | mba =>
      {| name := "MBA"; undergradYears := 4; gradYears := 2;
         residencyYears := 0; gradCostPerYear := 70000; additionalDebt := 120000;
         peakSalary := 150000; salaryGrowthRate := 0.04 |}
  end.

Definition INTEREST_RATE : Q := Outcomes.INTEREST_RATE.
Definition LOAN_TERM_YEARS : Z := Outcomes.LOAN_TERM_YEARS.

(** The college of the request, as far as the route reads it. *)
Record CollegeInput := {
  cost : Cost;
  medianDebt : option Q;
  median10yr : option Q
}.

(** [byIncome ?? college.cost.avgNetPrice ?? 20000]; [None] when the lookup
    finds an inherited member instead of a price. *)
Definition getNetPrice (college : CollegeInput) (bracket : string) : option Q :=
  match netPriceByIncome (cost college) bracket with
  | Num q => Some q
  | Inherited => None
  | Undefined | Null => Some (nullish (avgNetPrice (cost college)) 20000)
  end.

Inductive Phase := undergrad | grad_school | residency | career.

(** [getYearLabel]: the phase and the milestone (the label text is left out). *)
Definition getYearLabel (year : Z) (path : PathConfig) : Phase * string :=
  let totalSchoolYears :=
    (undergradYears path + gradYears path + residencyYears path)%Z in
  if (year <=? undergradYears path)%Z then
    (undergrad,
     if (year =? 1)%Z then "Start college"
     else if (year =? undergradYears path)%Z then "Graduate undergrad" else "")%string
  else if (year <=? undergradYears path + gradYears path)%Z then
    let gradYear := (year - undergradYears path)%Z in
    (grad_school,
     if (gradYear =? 1)%Z then "Start grad school"
     else if (gradYear =? gradYears path)%Z then "Complete grad school" else "")%string
  else if (year <=? totalSchoolYears)%Z then
    let resYear := (year - undergradYears path - gradYears path)%Z in
    (residency,
     if (resYear =? 1)%Z then "Start residency"
     else if (resYear =? residencyYears path)%Z then "Complete residency" else "")%string
  else
    let careerYear := (year - totalSchoolYears)%Z in
    (career, if (careerYear =? 1)%Z then "Start full career" else "")%string.

Definition calculateEarnings (year : Z) (path : PathConfig) (baseEarnings : Q) : Q :=
  let totalSchoolYears := (undergradYears path + gradYears path)%Z in
  if (year <=? undergradYears path)%Z then 0
  else if (year <=? undergradYears path + gradYears path)%Z then
    if String.eqb (name path) "PhD" then 30000 else 0
  else if (year <=? totalSchoolYears + residencyYears path)%Z then 60000
  else
    let careerYear := (year - totalSchoolYears - residencyYears path)%Z in
    if String.eqb (name path) "Bachelor's Degree" then
      baseEarnings * (1 + salaryGrowthRate path) ^ (careerYear - 1)
    else
      let startingSalary := peakSalary path * 0.7 in
      Math_min (peakSalary path)
               (startingSalary * (1 + salaryGrowthRate path) ^ (careerYear - 1)).

Record TimelineYear := {
  year : Z;
  phase : Phase;
  tuitionPaidThisYear : Q;
  cumulativeTuition : Q;
  debtWithInterest : Z;
  earnings : option Z;
  loanPayment : option Z;
  netIncome : option Z;
  netWorth : Z;
  milestone : string
}.

Record OutcomeSummary := {
  totalCost : Z;
  totalDebt : Z;
  breakEvenYear : option Z;
  roiAtEnd : Z;
  monthlyPayment : Z;
  yearsToPayoff : Z;
  path : string;
  totalYears : Z
}.

(** The mutable locals of [POST]; [pushed] pairs every snapshot with the net
    worth it was computed from, before rounding. *)
Record State := {
  pushed : list (TimelineYear * Q);
  s_cumulativeTuition : Q;
  s_debtWithInterest : Q;
  s_totalEarnings : Q;
  s_totalLoanPaid : Q;
  s_remainingDebt : Q;
  s_breakEvenYear : option Z
}.

Definition start : State :=
  {| pushed := []; s_cumulativeTuition := 0; s_debtWithInterest := 0;
     s_totalEarnings := 0; s_totalLoanPaid := 0; s_remainingDebt := 0;
     s_breakEvenYear := None |}.

(** [x ? Math.round(x) : null] *)
Definition roundOrNull (x : option Q) : option Z :=
  match x with
  | Some v => if truthy v then Some (Math_round v) else None
  | None => None
  end.

(** [Math.ceil] *)
Definition Math_ceil (x : Q) : Z := Qceiling x.

Section Simulation.

Variable config : PathConfig.
Variable netPricePerYear : Q.
Variable undergradDebt : Q.
Variable baseCareerEarnings : Q.

Definition totalDebtOf : Q := undergradDebt + additionalDebt config.

(** [calculateMonthlyPayment(totalDebt, INTEREST_RATE, LOAN_TERM_YEARS)]; the
    formula is finite at this rate and term. *)
Definition monthlyPaymentOf : Q :=
  nullish (Outcomes.calculateMonthlyPayment totalDebtOf INTEREST_RATE LOAN_TERM_YEARS) 0.

Definition annualPaymentOf : Q := monthlyPaymentOf * 12.

(** Body of the year loop. *)
Definition yearBody (year : Z) (s : State) : State :=
  let '(phase, milestone) := getYearLabel year config in
  let growth := 1 + INTEREST_RATE in
  (* the locals of the iteration after the branch on the phase:
     tuition, cumulative tuition, debt, earnings, payment, net income,
     total earnings, total paid, remaining debt *)
  let '(tuitionThisYear, cumulativeTuition, debtWithInterest, earnings,
        loanPayment, netIncome, totalEarnings, totalLoanPaid, remainingDebt) :=
    match phase with
    | undergrad =>
        let tuitionThisYear := netPricePerYear in
        let cumulativeTuition := s_cumulativeTuition s + tuitionThisYear in
        let debtWithInterest := cumulativeTuition * growth ^ year in
        if (year =? undergradYears config)%Z
        then (tuitionThisYear, cumulativeTuition, undergradDebt, None, None, None,
              s_totalEarnings s, s_totalLoanPaid s, undergradDebt)
        else (tuitionThisYear, cumulativeTuition, debtWithInterest, None, None, None,
              s_totalEarnings s, s_totalLoanPaid s, s_remainingDebt s)
    | grad_school =>
        let tuitionThisYear := gradCostPerYear config in
        let cumulativeTuition := s_cumulativeTuition s + tuitionThisYear in
        let yearsInGrad := (year - undergradYears config)%Z in
        let debtWithInterest :=
          s_remainingDebt s * growth ^ yearsInGrad
          + gradCostPerYear config * inject_Z yearsInGrad in
        let earnings := calculateEarnings year config baseCareerEarnings in
        let totalEarnings :=
          if 0 <? earnings then s_totalEarnings s + earnings else s_totalEarnings s in
        if (year =? undergradYears config + gradYears config)%Z
        then (tuitionThisYear, cumulativeTuition, totalDebtOf, Some earnings, None, None,
              totalEarnings, s_totalLoanPaid s, totalDebtOf)
        else (tuitionThisYear, cumulativeTuition, debtWithInterest, Some earnings,
              None, None, totalEarnings, s_totalLoanPaid s, s_remainingDebt s)
    | residency =>
        let earnings := calculateEarnings year config baseCareerEarnings in
        let totalEarnings := s_totalEarnings s + earnings in
        let debtWithInterest := s_remainingDebt s * growth in
        (0, s_cumulativeTuition s, debtWithInterest, Some earnings, None,
         Some earnings, totalEarnings, s_totalLoanPaid s, debtWithInterest)
    | career =>
        let earnings := calculateEarnings year config baseCareerEarnings in
        let totalEarnings := s_totalEarnings s + earnings in
        if 0 <? s_remainingDebt s then
          let loanPayment := Math_min annualPaymentOf (s_remainingDebt s * growth) in
          let remainingDebt := Math_max 0 (s_remainingDebt s * growth - loanPayment) in
          (0, s_cumulativeTuition s, remainingDebt, Some earnings, Some loanPayment,
           Some (earnings - (if truthy loanPayment then loanPayment else 0)),
           totalEarnings, s_totalLoanPaid s + loanPayment, remainingDebt)
        else
          (0, s_cumulativeTuition s, s_remainingDebt s, Some earnings, Some 0,
           Some (earnings - 0), totalEarnings, s_totalLoanPaid s, s_remainingDebt s)
    end in
  let netWorth := totalEarnings - debtWithInterest in
  let breakEvenYear :=
    match s_breakEvenYear s with
    | None => if 0 <? netWorth then Some year else None
    | Some y => Some y
    end in
  {| pushed :=
       pushed s
       ++ [ ({| year := year; phase := phase;
                tuitionPaidThisYear := tuitionThisYear;
                cumulativeTuition := cumulativeTuition;
                debtWithInterest := Math_round debtWithInterest;
                earnings := roundOrNull earnings;
                loanPayment := roundOrNull loanPayment;
                netIncome := roundOrNull netIncome;
                netWorth := Math_round netWorth;
                milestone := milestone |}, netWorth) ];
     s_cumulativeTuition := cumulativeTuition;
     s_debtWithInterest := debtWithInterest;
     s_totalEarnings := totalEarnings;
     s_totalLoanPaid := totalLoanPaid;
     s_remainingDebt := remainingDebt;
     s_breakEvenYear := breakEvenYear |}.

Definition totalSchoolYearsOf : Z :=
  (undergradYears config + gradYears config + residencyYears config)%Z.

Definition careerYearsToShow : Z := Z.max 6 (15 - totalSchoolYearsOf).

Definition totalYearsOf : Z := (totalSchoolYearsOf + careerYearsToShow)%Z.

Definition run : State := for_loop 1 totalYearsOf yearBody start.

(** [totalDebt > 0 ? Math.ceil(totalDebt / annualPayment) : 0], capped. *)
Definition yearsToPayoffOf : Z :=
  Z.min (if 0 <? totalDebtOf then Math_ceil (totalDebtOf / annualPaymentOf) else 0%Z)
        (LOAN_TERM_YEARS + 5).

Definition summaryOf : OutcomeSummary :=
  let totalTuition :=
    netPricePerYear * inject_Z (undergradYears config)
    + gradCostPerYear config * inject_Z (gradYears config) in
  {| totalCost := Math_round totalTuition;
     totalDebt := Math_round totalDebtOf;
     breakEvenYear := s_breakEvenYear run;
     roiAtEnd := Math_round (s_totalEarnings run - totalTuition - s_totalLoanPaid run);
     monthlyPayment := Math_round monthlyPaymentOf;
     yearsToPayoff := yearsToPayoffOf;
     path := name config;
     totalYears := totalYearsOf |}.

End Simulation.

Inductive Response :=
| BadRequest (error : string)
| Success (timeline : list TimelineYear) (summary : OutcomeSummary)
| NotANumber.    (* the price lookup found an inherited member: not modelled *)

(** [POST]; a missing [professionalPath] is ["bachelors"]. *)
Definition POST (college : option CollegeInput) (incomeBracket : string)
    (professionalPath : option ProfessionalPath) : Response :=
  match college with
  | None => BadRequest "College data required"
  | Some college =>
      let config := PROFESSIONAL_PATHS (nullish professionalPath bachelors) in
      match getNetPrice college incomeBracket with
      | None => NotANumber
      | Some netPricePerYear =>
          let undergradTuition := netPricePerYear * inject_Z (undergradYears config) in
          let undergradDebt :=
            nullish (medianDebt college) (inject_Z (Math_round (undergradTuition * 0.6))) in
          let baseCareerEarnings := nullish (median10yr college) 55000 in
          Success
            (map fst (pushed (run config netPricePerYear undergradDebt baseCareerEarnings)))
            (summaryOf config netPricePerYear undergradDebt baseCareerEarnings)
      end
  end.

(** The year at which the net worth, before rounding, first turns positive. *)
Definition firstPositiveYear (l : list (TimelineYear * Q)) : option Z :=
  option_map (fun e => year (fst e)) (find (fun e => 0 <? snd e) l).

(** A college at 12000 a year that reports neither debt nor earnings. *)
Definition sample_college : CollegeInput :=
  {| cost := Samples.cost_of 9000 0 (Some 12000) None;
     medianDebt := None; median10yr := None |}.

End Outcome.

(** The debt the outcomes route shows at the end of the undergraduate years
    ([atGraduation]) and of the graduate years ([afterGradSchool]). *)
Definition resets_debt (config : Outcome.PathConfig) (atGraduation afterGradSchool : Q)
    (t : Outcome.TimelineYear) : Prop :=
  (Outcome.year t = Outcome.undergradYears config ->
   Outcome.debtWithInterest t = Math_round atGraduation)
  /\ (0 < Outcome.gradYears config ->
      Outcome.year t = Outcome.undergradYears config + Outcome.gradYears config ->
      Outcome.debtWithInterest t = Math_round afterGradSchool).


From Stdlib Require Import Sorted.

(** The Career snapshots of a timeline. *)
Definition career_years (tl : list LifePathYear) : list LifePathYear :=
  filter (fun y => Phase_eqb (phase y) Career) tl.

(** A later snapshot shows no more debt and no less net worth. *)
Definition improves (a b : LifePathYear) : Prop :=
  debt b <= debt a /\ netWorth a <= netWorth b.

(** Nothing is charged to the student: the scholarship covers four years at
    the sticker price. *)
Definition fully_funded (college : CollegeInput) (profile : StudentProfile) : Prop :=
  hasScholarships profile = true
  /\ (undergradCostWithRB college profile <= scholarshipAmount profile)%Q.

(** A scholarship larger than four years at the sticker price. *)
Definition scholar : StudentProfile :=
  {| incomeBracket := "0-30000"; homeState := "ca"; hasScholarships := true;
     scholarshipAmount := 250000; currentAge := Some 18 |}.

(** ** ASCII text *)

(** The text holds ASCII characters only: the texts on which [toUpperCase]
    and [toLowerCase] above are JavaScript's (which also maps the letters of
    other alphabets). *)
Definition isASCII (s : string) : bool :=
  forallb (fun c => (nat_of_ascii c <? 128)%nat) (list_ascii_of_string s).

(** A public university, cheaper for residents of its state. *)
Definition state_university : CollegeInput :=
  {| id := 5; state := "Nv";
     cost := {| tuitionInState := Some 8000%Q; tuitionOutOfState := Some 24000%Q;
                roomBoardOnCampus := Some 12000%Q; avgNetPrice := None;
                np_0_30000 := None; np_30001_48000 := None; np_48001_75000 := None;
                np_75001_110000 := None; np_110001_plus := None |};
     medianDebt := None |}.

Definition resident : StudentProfile :=
  {| incomeBracket := "48001-75000"; homeState := "nV"; hasScholarships := false;
     scholarshipAmount := 0%Q; currentAge := Some 18 |}.

(** ** The outcomes route, year by year *)

(** The locals of the outcomes route's [POST] for a college, the net price
    found for it and a path, after the first [n] iterations of its year
    loop. *)
Definition outcome_after (college : Outcome.CollegeInput) (netPricePerYear : Q)
    (professionalPath : option Outcome.ProfessionalPath) (n : Z) : Outcome.State :=
  let config := Outcome.PROFESSIONAL_PATHS (nullish professionalPath Outcome.bachelors) in
  let undergradTuition := (netPricePerYear * inject_Z (Outcome.undergradYears config))%Q in
  let undergradDebt :=
    nullish (Outcome.medianDebt college)
            (inject_Z (Math_round (undergradTuition * 0.6)%Q)) in
  let baseCareerEarnings := nullish (Outcome.median10yr college) 55000%Q in
  for_loop 1 n
    (Outcome.yearBody config netPricePerYear undergradDebt baseCareerEarnings)
    Outcome.start.

(** [totalEarnings - debtWithInterest] at the end of iteration [n]: the net
    worth of year [n], not rounded. *)
Definition outcome_net_worth (college : Outcome.CollegeInput) (netPricePerYear : Q)
    (professionalPath : option Outcome.ProfessionalPath) (n : Z) : Q :=
  let s := outcome_after college netPricePerYear professionalPath n in
  (Outcome.s_totalEarnings s - Outcome.s_debtWithInterest s)%Q.

(** A college that costs nothing and whose graduates earn a quarter of a
    currency unit. *)
Definition quarter_college : Outcome.CollegeInput :=
  {| Outcome.cost := Samples.cost_of 0 0 (Some 0%Q) None;
     Outcome.medianDebt := None; Outcome.median10yr := Some 0.25%Q |}.
(** * Properties *)

Import Samples.

(** ** Rounding *)

Lemma Math_round_comp (x y : Q) : (x == y)%Q -> Math_round x = Math_round y.
Proof.
  intros H. unfold Math_round. now rewrite H.
Qed.

Lemma Math_round_mono (x y : Q) : (x <= y)%Q -> Math_round x <= Math_round y.
Proof.
  intros H. unfold Math_round. apply Qfloor_resp_le.
  now apply Qplus_le_compat; [ | apply Qle_refl ].
Qed.

Lemma Math_round_max (x y : Q) :
  Math_round (Math_max x y) = Z.max (Math_round x) (Math_round y).
Proof.
  unfold Math_max. destruct (Qlt_le_dec x y) as [Hlt | Hle].
  - apply Qlt_le_weak in Hlt.
    rewrite (Math_round_comp _ _ (Q.max_r _ _ Hlt)).
    pose proof (Math_round_mono _ _ Hlt). lia.
  - rewrite (Math_round_comp _ _ (Q.max_l _ _ Hle)).
    pose proof (Math_round_mono _ _ Hle). lia.
Qed.

(** ** Loop invariants *)

Lemma for_loop_invariant {S : Type} (P : S -> Prop) (lo hi : Z)
      (body : Z -> S -> S) (s : S) :
  (forall i st, P st -> P (body i st)) -> P s -> P (for_loop lo hi body s).
Proof.
  intros Hbody. unfold for_loop. generalize (for_range lo hi) as l.
  intros l; revert s. induction l as [ | i l IH ]; intros s Hs; cbn [fold_left].
  - exact Hs.
  - apply IH. now apply Hbody.
Qed.

Lemma find_snoc {A : Type} (f : A -> bool) (l : list A) (x : A) :
  find f (l ++ [x])
  = match find f l with
    | Some y => Some y
    | None => if f x then Some x else None
    end.
Proof.
  induction l as [ | a l IH ]; cbn [app find].
  - reflexivity.
  - destruct (f a); [ reflexivity | exact IH ].
Qed.

Lemma find_none_Forall {A : Type} (f : A -> bool) (l : list A) :
  Forall (fun x => f x = false) l -> find f l = None.
Proof.
  induction 1 as [ | x l Hx _ IH ]; cbn [find]; [ reflexivity | ].
  now rewrite Hx.
Qed.

Section Invariants.

Variable college : CollegeInput.
Variable profile : StudentProfile.
Variable careerData : CareerData.

Lemma careerLoop_invariant (P : Loop.State -> Prop) (fuel : nat)
      (k careerYear : Z) (s : Loop.State) :
  (forall cy st, P st -> P (careerYearBody college profile careerData k cy st)) ->
  P s -> P (careerLoop college profile careerData fuel k careerYear s).
Proof.
  intros Hbody. revert careerYear s.
  induction fuel as [ | fuel IH ]; intros careerYear s Hs; cbn [careerLoop].
  - exact Hs.
  - destruct (careerYear <=? _); [ | exact Hs ].
    destruct (_ >? _); [ exact Hs | ].
    apply IH. now apply Hbody.
Qed.

(** The loops of [generateLifePath] keep what every one of their bodies
    keeps: [U] through the undergraduate years, [G] through the graduate
    years, [R] through the residency years, [C] through the career years. *)
Lemma simulate_phases (U G R C : Loop.State -> Prop) :
  U init ->
  (forall y s, U s -> U (undergradYear college profile y s)) ->
  (forall s, U s -> G (afterUndergrad s)) ->
  (forall y s, G s -> G (gradYear careerData y s)) ->
  (forall s, G s -> R s) ->
  (forall y s, R s -> R (residencyYear careerData y s)) ->
  (forall s, R s -> C (declareSavings s)) ->
  (forall k y s, C s -> C (careerYearBody college profile careerData k y s)) ->
  C (simulate college profile careerData).
Proof.
  intros Hinit Hu Ha Hg Hgr Hr Hd Hc.
  unfold simulate, careerPhase.
  apply careerLoop_invariant; [ apply Hc | ]. apply Hd.
  assert (HG : G (gradPhase careerData (undergradPhase college profile init))).
  { unfold gradPhase, undergradPhase. destruct (_ && _).
    - apply for_loop_invariant; [ exact Hg | ].
      apply Ha. apply for_loop_invariant; [ exact Hu | exact Hinit ].
    - apply Ha. apply for_loop_invariant; [ exact Hu | exact Hinit ]. }
  unfold residencyPhase. destruct (_ && _).
  - apply for_loop_invariant; [ exact Hr | ]. apply Hgr, HG.
  - apply Hgr, HG.
Qed.

(** The same with one invariant [P] up to the career loop and [Q] in it. *)
Lemma simulate_invariant (P Q : Loop.State -> Prop) :
  P init ->
  (forall y s, P s -> P (undergradYear college profile y s)) ->
  (forall s, P s -> P (afterUndergrad s)) ->
  (forall y s, P s -> P (gradYear careerData y s)) ->
  (forall y s, P s -> P (residencyYear careerData y s)) ->
  (forall s, P s -> Q (declareSavings s)) ->
  (forall k y s, Q s -> Q (careerYearBody college profile careerData k y s)) ->
  Q (simulate college profile careerData).
Proof.
  intros Hinit Hu Ha Hg Hr Hd Hc.
  apply (simulate_phases P P P Q); auto.
Qed.

(** More fuel than the [yearsToShow] iterations changes nothing. *)
Lemma careerLoop_fuel (fuel : nat) (k careerYear : Z) (s : Loop.State) :
  (Z.to_nat (yearsToShow profile careerData - careerYear + 1) <= fuel)%nat ->
  careerLoop college profile careerData fuel k careerYear s
  = careerLoop college profile careerData
      (Z.to_nat (yearsToShow profile careerData - careerYear + 1)) k careerYear s.
Proof.
  revert careerYear s.
  induction fuel as [ | fuel IH ]; intros careerYear s Hle.
  - replace (Z.to_nat _) with 0%nat by lia. reflexivity.
  - cbn [careerLoop].
    destruct (Z.leb_spec careerYear (yearsToShow profile careerData)) as [Hin | Hout].
    + replace (Z.to_nat (yearsToShow profile careerData - careerYear + 1))
        with (S (Z.to_nat (yearsToShow profile careerData - (careerYear + 1) + 1)))
        in * by lia.
      cbn [careerLoop].
      destruct (Z.leb_spec careerYear (yearsToShow profile careerData)); [ | lia ].
      destruct (_ >? _); [ reflexivity | ].
      apply IH. lia.
    + replace (Z.to_nat _) with 0%nat by lia. reflexivity.
Qed.

(** Every body pushes one snapshot and records in it the balances it has
    just computed. *)
Lemma bodies_record_running_balances (k y : Z) (s : Loop.State) :
  (exists e, Loop.timeline (undergradYear college profile y s) = Loop.timeline s ++ [e]
             /\ phase (snap e) = College
             /\ run_debt e = Loop.cumulativeDebt (undergradYear college profile y s))
  /\ (exists e, Loop.timeline (gradYear careerData y s) = Loop.timeline s ++ [e]
                /\ phase (snap e) = GradSchool
                /\ run_debt e = Loop.cumulativeDebt (gradYear careerData y s))
  /\ (exists e, Loop.timeline (residencyYear careerData y s) = Loop.timeline s ++ [e]
                /\ phase (snap e) = Residency
                /\ run_debt e = Loop.cumulativeDebt (residencyYear careerData y s))
  /\ (exists e,
         let s' := careerYearBody college profile careerData k y s in
         Loop.timeline s' = Loop.timeline s ++ [e]
         /\ phase (snap e) = Career
         /\ run_debt e = Loop.cumulativeDebt s'
         /\ run_savings e = Loop.accumulatedSavings s').
Proof.
  repeat split; eexists; repeat split.
Qed.

Lemma simulate_shows_balances :
  Forall shows_balances (Loop.timeline (simulate college profile careerData)).
Proof.
  apply (simulate_invariant
           (fun s => Forall shows_balances (Loop.timeline s))
           (fun s => Forall shows_balances (Loop.timeline s))).
  - constructor.
  - intros y s Hs. cbn [undergradYear Loop.timeline]. unfold push.
    apply Forall_app. split; [ exact Hs | ]. constructor; [ | constructor ].
    unfold shows_balances; cbn [phase snap debt netWorth run_debt run_savings].
    repeat split; reflexivity.
  - intros s Hs. exact Hs.
  - intros y s Hs. cbn [gradYear Loop.timeline]. unfold push.
    apply Forall_app. split; [ exact Hs | ]. constructor; [ | constructor ].
    unfold shows_balances; cbn [phase snap debt netWorth run_debt run_savings].
    repeat split; try reflexivity.
    apply Math_round_comp. ring.
  - intros y s Hs. cbn [residencyYear Loop.timeline]. unfold push.
    apply Forall_app. split; [ exact Hs | ]. constructor; [ | constructor ].
    exact I.
  - intros s Hs. exact Hs.
  - intros k y s Hs. cbn [careerYearBody Loop.timeline]. unfold push.
    apply Forall_app. split; [ exact Hs | ]. constructor; [ | constructor ].
    unfold shows_balances; cbn [phase snap debt netWorth run_debt run_savings].
    split; reflexivity.
Qed.

Lemma simulate_break_even :
  Loop.breakEvenAge (simulate college profile careerData)
  = first_career_break_even (Loop.timeline (simulate college profile careerData)).
Proof.
  apply (simulate_invariant before_career
           (fun s => Loop.breakEvenAge s
                     = first_career_break_even (Loop.timeline s))).
  - split; [ reflexivity | constructor ].
  - intros y s [Hb Hf]. split; [ exact Hb | ].
    cbn [undergradYear Loop.timeline]. unfold push.
    apply Forall_app. split; [ exact Hf | ].
    constructor; [ discriminate | constructor ].
  - intros s Hs. exact Hs.
  - intros y s [Hb Hf]. split; [ exact Hb | ].
    cbn [gradYear Loop.timeline]. unfold push.
    apply Forall_app. split; [ exact Hf | ].
    constructor; [ discriminate | constructor ].
  - intros y s [Hb Hf]. split; [ exact Hb | ].
    cbn [residencyYear Loop.timeline]. unfold push.
    apply Forall_app. split; [ exact Hf | ].
    constructor; [ discriminate | constructor ].
  - intros s [Hb Hf]. cbn [declareSavings Loop.breakEvenAge Loop.timeline].
    rewrite Hb. unfold first_career_break_even.
    rewrite find_none_Forall; [ reflexivity | ].
    eapply Forall_impl; [ | exact Hf ].
    intros e He. cbv beta in He |- *.
    destruct (phase (snap e)); try reflexivity. now contradiction He.
  - intros k y s Hs.
    cbn [careerYearBody Loop.breakEvenAge Loop.timeline]. unfold push.
    unfold first_career_break_even in *. rewrite find_snoc.
    rewrite Hs.
    destruct (find _ (Loop.timeline s)) as [e | ]; cbn [option_map].
    + reflexivity.
    + cbn [snap phase Phase_eqb run_savings run_debt andb].
      destruct (_ <? _)%Q; reflexivity.
Qed.

Lemma careerLoop_keeps_break_even (fuel : nat) (k careerYear : Z)
      (s : Loop.State) (a : Z) :
  Loop.breakEvenAge s = Some a ->
  Loop.breakEvenAge (careerLoop college profile careerData fuel k careerYear s)
  = Some a.
Proof.
  intros H.
  apply (careerLoop_invariant (fun st => Loop.breakEvenAge st = Some a));
    [ | exact H ].
  intros cy st Hst. cbn [careerYearBody Loop.breakEvenAge]. now rewrite Hst.
Qed.

Lemma school_max_debt_snoc (tl : list Entry) (e : Entry) :
  school_max_debt (map snap (tl ++ [e]))
  = if is_school (phase (snap e))
    then Z.max (school_max_debt (map snap tl)) (debt (snap e))
    else school_max_debt (map snap tl).
Proof.
  unfold school_max_debt. now rewrite map_app, fold_left_app.
Qed.

Lemma simulate_peakDebt :
  Math_round (Loop.peakDebt (simulate college profile careerData))
  = school_max_debt (map snap (Loop.timeline (simulate college profile careerData))).
Proof.
  set (G := fun s => Math_round (Loop.peakDebt s)
                     = school_max_debt (map snap (Loop.timeline s))).
  apply (simulate_phases
           (fun s => G s /\ (Loop.cumulativeDebt s <= Loop.peakDebt s)%Q) G G G);
    unfold G.
  - split; [ reflexivity | apply Qle_refl ].
  - intros y s [Hs _]. split.
    + cbn [undergradYear Loop.timeline Loop.peakDebt]. unfold push.
      rewrite school_max_debt_snoc. cbn [snap phase debt is_school].
      rewrite <- Hs. apply Math_round_max.
    + cbn [undergradYear Loop.cumulativeDebt Loop.peakDebt]. apply Q.le_max_r.
  - intros s [Hs Hle]. cbn [afterUndergrad Loop.timeline Loop.peakDebt].
    rewrite <- Hs. apply Math_round_comp. unfold Math_max. now apply Q.max_l.
  - intros y s Hs. cbn [gradYear Loop.timeline Loop.peakDebt]. unfold push.
    rewrite school_max_debt_snoc. cbn [snap phase debt is_school].
    rewrite <- Hs. apply Math_round_max.
  - intros s Hs. exact Hs.
  - intros y s Hs. cbn [residencyYear Loop.timeline Loop.peakDebt]. unfold push.
    rewrite school_max_debt_snoc. exact Hs.
  - intros s Hs. exact Hs.
  - intros k y s Hs. cbn [careerYearBody Loop.timeline Loop.peakDebt]. unfold push.
    rewrite school_max_debt_snoc. exact Hs.
Qed.

Lemma timeline_age_by_phase :
  Forall (age_by_phase (startAge profile))
         (timeline (generateLifePath college profile careerData)).
Proof.
  cbn [generateLifePath timeline]. apply Forall_map.
  apply (simulate_invariant
           (fun s => Forall (fun e => age_by_phase (startAge profile) (snap e))
                            (Loop.timeline s))
           (fun s => Forall (fun e => age_by_phase (startAge profile) (snap e))
                            (Loop.timeline s))).
  - constructor.
  - intros y s Hs. cbn [undergradYear Loop.timeline]. unfold push.
    apply Forall_app. split; [ exact Hs | ]. constructor; [ | constructor ].
    unfold age_by_phase; cbn [snap phase age year]. reflexivity.
  - intros s Hs. exact Hs.
  - intros y s Hs. cbn [gradYear Loop.timeline]. unfold push.
    apply Forall_app. split; [ exact Hs | ]. constructor; [ | constructor ].
    unfold age_by_phase; cbn [snap phase age year]. lia.
  - intros y s Hs. cbn [residencyYear Loop.timeline]. unfold push.
    apply Forall_app. split; [ exact Hs | ]. constructor; [ | constructor ].
    unfold age_by_phase; cbn [snap phase age year]. lia.
  - intros s Hs. exact Hs.
  - intros k y s Hs. cbn [careerYearBody Loop.timeline]. unfold push.
    apply Forall_app. split; [ exact Hs | ]. constructor; [ | constructor ].
    exact I.
Qed.

End Invariants.

(** ** Peak debt *)

(** C1, at a failing input.  For a college whose sticker price is 50000 a
    year and a career with one residency year, the summary reports a peak
    debt of 120000 (the balance at graduation), while the residency
    snapshot of year 5 shows a debt of 121000, the largest debt of the
    timeline: the residency loop does not update [peakDebt].  In general the
    reported peak is the largest debt of the College and Grad School
    snapshots (0 at least). *)
Theorem peakDebt_misses_residency :
  (let r := generateLifePath private_college freshman trainee in
   Summary.peakDebt (summary r) = 120000
   /\ map debt (firstn 5 (timeline r)) = [30000; 60000; 90000; 120000; 121000]
   /\ map phase (firstn 5 (timeline r))
      = [College; College; College; College; Residency]
   /\ max_debt (timeline r) = 121000
   /\ Summary.peakDebt (summary r) <> max_debt (timeline r))
  /\ (forall college profile careerData,
         let r := generateLifePath college profile careerData in
         Summary.peakDebt (summary r) = school_max_debt (timeline r)).
Proof.
  split.
  - vm_compute. repeat split; discriminate.
  - intros college profile careerData. apply simulate_peakDebt.
Qed.

(** ** Undergraduate debt *)

(** C4 fails as stated: the college reports a median debt of 20000, yet the
    debt estimate is 120000, 60 percent of the four-year sticker cost. *)
Lemma undergradDebt_ignores_medianDebt :
  medianDebt private_college = Some 20000%Q
  /\ undergradDebt private_college freshman = 120000
  /\ ~ (inject_Z (undergradDebt private_college freshman)
        == undergradDebt_spec private_college freshman)%Q.
Proof.
  repeat split. vm_compute. discriminate.
Qed.

(** C4, amended.  The undergraduate debt estimate is always the rounded 60
    percent of the four-year sticker cost less scholarships (floored at 0),
    whatever the college's median debt is: that field is never read, and
    replacing it leaves the whole result unchanged. *)
Theorem undergradDebt_is_sixty_percent_of_sticker :
  forall (college : CollegeInput) (profile : StudentProfile)
         (careerData : CareerData) (d : option Q),
    undergradDebt (set_medianDebt college d) profile
    = Math_round
        (Qmax 0 (getStickerPrice college (isInState college profile) true * 4
                 - (if hasScholarships profile then scholarshipAmount profile else 0))
         * 0.6)%Q
    /\ generateLifePath (set_medianDebt college d) profile careerData
       = generateLifePath college profile careerData.
Proof.
  intros [i st c m] profile careerData d. split; reflexivity.
Qed.

(** ** Ages *)

(** C6, at a failing input.  A thirty-year-old student whose career needs two
    years of graduate school: the undergraduate snapshots run from age 30 to
    33, the first graduate-school snapshot (year 5) has age 22 instead of
    [startAge + year - 1 = 34], and the first career snapshot (year 7) is
    back at 36.  In general a College snapshot has age
    [startAge + year - 1], while a Grad School or Residency snapshot has age
    [year + 17] whatever the starting age. *)
Theorem grad_school_age_is_fixed :
  (let r := generateLifePath private_college returning_student graduate in
   startAge returning_student = 30
   /\ map (fun y => (year y, phase y, age y)) (firstn 7 (timeline r))
      = [ (1, College, 30); (2, College, 31); (3, College, 32); (4, College, 33);
          (5, GradSchool, 22); (6, GradSchool, 23); (7, Career, 36) ]
   /\ exists y, nth_error (timeline r) 4 = Some y
                /\ age y <> startAge returning_student + year y - 1)
  /\ (forall college profile careerData,
         Forall (age_by_phase (startAge profile))
                (timeline (generateLifePath college profile careerData))).
Proof.
  split.
  - vm_compute. repeat split. eexists. split; [ reflexivity | discriminate ].
  - apply timeline_age_by_phase.
Qed.

(** ** Sign of the debt balance *)

(** C7, at a failing input.  With 2400 of debt at graduation, one residency
    year leaves the running balance at 2400 * 1.05 - 5000 = -2480: only the
    snapshot floors it at 0, the balance that enters the career phase is
    negative.  The residency body assigns the unfloored value; the career
    body floors the balance it assigns. *)
Theorem residency_leaves_negative_balance :
  (let s := residencyPhase trainee
              (gradPhase trainee (undergradPhase community_college freshman init)) in
   (Loop.cumulativeDebt s == -2480)%Q
   /\ (Loop.cumulativeDebt s < 0)%Q
   /\ map (fun e => (phase (snap e), debt (snap e))) (Loop.timeline s)
      = [ (College, 600); (College, 1200); (College, 1800); (College, 2400);
          (Residency, 0) ])
  /\ (forall careerData y s,
         Loop.cumulativeDebt (residencyYear careerData y s)
         = (Loop.cumulativeDebt s * 1.05 - 5000)%Q)
  /\ (forall college profile careerData k y s,
         (0 <= Loop.cumulativeDebt (careerYearBody college profile careerData k y s))%Q).
Proof.
  split; [ | split ].
  - vm_compute. repeat split.
  - reflexivity.
  - intros. cbn [careerYearBody Loop.cumulativeDebt]. apply Q.le_max_l.
Qed.

(** ** Income bracket *)

(** C8 fails as stated: the bracket string "banana" is none of the five
    canonical ones, and the request is answered with a simulation. *)
Lemma unknown_bracket_is_simulated :
  is_canonical (incomeBracket returning_student) = false
  /\ POST (Some [1]) [private_college] returning_student graduate
     = Success [generateLifePath private_college returning_student graduate]
  /\ ~ (exists error,
           POST (Some [1]) [private_college] returning_student graduate
           = BadRequest error).
Proof.
  repeat split. intros [error H]. discriminate H.
Qed.

(** C8, amended.  The handler rejects a request only for a missing or empty
    college list; it never inspects the income bracket, so every request with
    a college answers with one simulation per row.  A bracket outside the
    canonical five (and not a name inherited by every object) resolves the
    aid-adjusted price to the college's average net price, or null. *)
Theorem bracket_is_not_validated :
  forall (ids : list Z) (rows : list CollegeInput) (profile : StudentProfile)
         (careerData : CareerData),
    ids <> [] ->
    POST (Some ids) rows profile careerData
    = Success (map (fun college => generateLifePath college profile careerData) rows)
    /\ (is_canonical (incomeBracket profile) = false ->
        inherited (incomeBracket profile) = false ->
        forall college,
          getAidAdjustedPrice college (incomeBracket profile)
          = match avgNetPrice (cost college) with
            | Some q => Num q
            | None => Null
            end).
Proof.
  intros ids rows profile careerData Hids. split.
  - destruct ids; [ congruence | reflexivity ].
  - intros Hc Hi college.
    unfold getAidAdjustedPrice, netPriceByIncome.
    unfold is_canonical, canonical_brackets in Hc. cbn [existsb] in Hc.
    repeat (apply orb_false_iff in Hc; destruct Hc as [?E Hc]).
    now rewrite E, E0, E1, E2, E3, Hi.
Qed.

Lemma bracket_is_not_validated_witness :
  [1] <> []
  /\ POST (Some [1]) [private_college] returning_student graduate
     = Success [generateLifePath private_college returning_student graduate]
  /\ getAidAdjustedPrice private_college "banana" = Num 20000%Q.
Proof.
  assert (H : [1] <> []) by discriminate.
  destruct (bracket_is_not_validated [1] [private_college] returning_student
              graduate H) as [H1 H2].
  split; [ exact H | split; [ exact H1 | ] ].
  exact (H2 eq_refl eq_refl private_college).
Defined.

(** ** Aid-adjusted cost *)

(** C10.  When the net price resolved for the profile's bracket is a number
    equal to 0, the summary reports [aidAdjustedUndergrad] as null; any other
    resolved price is reported as four times the price, rounded. *)
Theorem zero_net_price_is_reported_as_null :
  forall (college : CollegeInput) (profile : StudentProfile)
         (careerData : CareerData) (price : Q),
    getAidAdjustedPrice college (incomeBracket profile) = Num price ->
    ((price == 0)%Q ->
     Summary.aidAdjustedUndergrad (summary (generateLifePath college profile careerData))
     = None)
    /\ (~ (price == 0)%Q ->
        Summary.aidAdjustedUndergrad (summary (generateLifePath college profile careerData))
        = Some (Math_round (price * 4)%Q)).
Proof.
  intros college profile careerData price H.
  cbn [generateLifePath summary Summary.aidAdjustedUndergrad].
  unfold aidAdjustedUndergrad, aidAdjustedPerYear. rewrite H.
  unfold truthy. split; intros Hp.
  - apply Qeq_bool_iff in Hp. now rewrite Hp.
  - destruct (Qeq_bool price 0) eqn:E.
    + apply Qeq_bool_iff in E. contradiction.
    + cbn [negb]. destruct (Qeq_bool (price * 4) 0) eqn:E4; [ | reflexivity ].
      apply Qeq_bool_iff in E4. exfalso. apply Hp.
      apply (Qmult_inj_r price 0 4); [ discriminate | ].
      now rewrite E4.
Qed.

Lemma zero_net_price_is_reported_as_null_witness :
  getAidAdjustedPrice private_college (incomeBracket freshman) = Num 0%Q
  /\ Summary.aidAdjustedUndergrad
       (summary (generateLifePath private_college freshman trainee)) = None.
Proof.
  split; [ reflexivity | ].
  apply (zero_net_price_is_reported_as_null private_college freshman trainee 0%Q).
  - reflexivity.
  - reflexivity.
Defined.

(** ** Salary curve *)

Section SalaryCurve.

Variable careerData : CareerData.

Local Open Scope Q_scope.

Lemma currentSalary_curve (careerYear : Z) :
  currentSalary careerData careerYear
  = Math_round (salaryCurve (salaryLow careerData) (medianSalary careerData)
                            (salaryHigh careerData) (careerYear - 1)).
Proof.
  unfold currentSalary, salaryCurve.
  set (low := salaryLow careerData). set (median := medianSalary careerData).
  set (high := salaryHigh careerData).
  cbv zeta.
  destruct (careerYear - 1 <=? 0)%Z eqn:E0.
  { apply Math_round_comp. ring. }
  destruct (careerYear - 1 <=? 2)%Z eqn:E2.
  { apply Math_round_comp. unfold lerp. field. }
  destruct (careerYear - 1 <=? 5)%Z eqn:E5.
  { apply Math_round_comp. unfold lerp. field. }
  destruct (careerYear - 1 <=? 10)%Z eqn:E10.
  { apply Math_round_comp. unfold lerp. field. }
  set (e := inject_Z (careerYear - 1)).
  destruct (careerYear - 1 <=? 20)%Z eqn:E20.
  - assert (Hle : (e - 10) / 10 <= 1).
    { apply Z.leb_le in E20. apply Qle_shift_div_r; [ reflexivity | ].
      unfold e. unfold Qle, inject_Z; simpl. lia. }
    apply Math_round_comp. unfold Math_min.
    rewrite (Q.min_l _ _ Hle). unfold lerp. field.
  - assert (Hge : 1 <= (e - 10) / 10).
    { apply Z.leb_gt in E20. apply Qle_shift_div_l; [ reflexivity | ].
      unfold e. unfold Qle, inject_Z; simpl. lia. }
    apply Math_round_comp. unfold Math_min.
    rewrite (Q.min_r _ _ Hge). ring.
Qed.

End SalaryCurve.

(** C5.  For every career profile and every career year the simulated salary
    is the piecewise-linear curve of the specification, taken at
    [e = careerYear - 1] years of experience and rounded to the whole unit:
    0.9 x low for [e <= 0], the midpoint between 0.9 x low and the median at
    [e = 2], the median at [e = 5], median + 0.6 x (high - median) at
    [e = 10], and from there half of the remaining gap to high closed over
    the next ten years. *)
Theorem salary_follows_piecewise_curve :
  forall (careerData : CareerData) (careerYear : Z),
    let low := salaryLow careerData in
    let median := medianSalary careerData in
    let high := salaryHigh careerData in
    let upper := (median + 0.6 * (high - median))%Q in
    currentSalary careerData careerYear
    = Math_round (salaryCurve low median high (careerYear - 1))
    /\ currentSalary careerData (Z.min careerYear 1) = Math_round (0.9 * low)%Q
    /\ currentSalary careerData 3 = Math_round ((0.9 * low + median) / 2)%Q
    /\ currentSalary careerData 6 = Math_round median
    /\ currentSalary careerData 11 = Math_round upper
    /\ currentSalary careerData (Z.max careerYear 21)
       = Math_round (upper + 0.5 * (high - upper))%Q.
Proof.
  intros careerData careerYear low median high upper.
  repeat split; rewrite currentSalary_curve; fold low median high;
    unfold salaryCurve.
  - reflexivity.
  - replace (Z.min careerYear 1 - 1 <=? 0) with true
      by (symmetry; apply Z.leb_le; lia).
    reflexivity.
  - cbn [Z.sub Z.add Z.opp Z.pos_sub Z.leb Z.compare Pos.compare Pos.compare_cont
         Pos.pred_double Z.succ_double Z.pred_double Z.double].
    apply Math_round_comp. unfold lerp. field.
  - cbn [Z.sub Z.add Z.opp Z.pos_sub Z.leb Z.compare Pos.compare Pos.compare_cont
         Pos.pred_double Z.succ_double Z.pred_double Z.double].
    apply Math_round_comp. unfold lerp. field.
  - cbn [Z.sub Z.add Z.opp Z.pos_sub Z.leb Z.compare Pos.compare Pos.compare_cont
         Pos.pred_double Z.succ_double Z.pred_double Z.double].
    apply Math_round_comp. unfold lerp. fold upper. field.
  - assert (H : 21 <= Z.max careerYear 21) by lia.
    destruct (Z.leb_spec (Z.max careerYear 21 - 1) 0); [ lia | ].
    destruct (Z.leb_spec (Z.max careerYear 21 - 1) 2); [ lia | ].
    destruct (Z.leb_spec (Z.max careerYear 21 - 1) 5); [ lia | ].
    destruct (Z.leb_spec (Z.max careerYear 21 - 1) 10); [ lia | ].
    destruct (Z.leb_spec (Z.max careerYear 21 - 1) 20) as [Hle | Hgt].
    + replace (Z.max careerYear 21 - 1) with 20 by lia.
      apply Math_round_comp. unfold lerp. fold upper. field.
    + fold upper. reflexivity.
Qed.

(** ** Career classifier *)

Lemma firstMatch_none (rules : list (list string * string)) (lower : string) :
  (forall r, In r rules -> Regex.test (fst r) lower = false) ->
  firstMatch rules lower = None.
Proof.
  induction rules as [ | [alts cat] rest IH ]; intros H; [ reflexivity | ].
  cbn [firstMatch].
  pose proof (H (alts, cat) (or_introl eq_refl)) as E. cbn [fst] in E.
  rewrite E. apply IH. intros r Hr. apply H. now right.
Qed.

Lemma firstMatch_first (pre post : list (list string * string))
      (alts : list string) (cat lower : string) :
  (forall r, In r pre -> Regex.test (fst r) lower = false) ->
  Regex.test alts lower = true ->
  firstMatch (pre ++ (alts, cat) :: post) lower = Some cat.
Proof.
  induction pre as [ | [a c] pre IH ]; intros Hpre Hhit; cbn [app firstMatch].
  - now rewrite Hhit.
  - pose proof (Hpre (a, c) (or_introl eq_refl)) as E. cbn [fst] in E.
    rewrite E. apply IH; [ | exact Hhit ]. intros r Hr. apply Hpre. now right.
Qed.

(** C9 fails as stated: the text "tech_engineer" is a canonical tag, which
    the exact-key test returns although no keyword rule accepts it (the
    rules match whole words, and [_] is a word character).  An input with no
    matching rule is therefore not always classified "not_sure". *)
Lemma canonical_tag_is_returned_without_a_rule :
  (forall r, In r patterns ->
             Regex.test (fst r) (trim (toLowerCase "tech_engineer")) = false)
  /\ matchCareerFromText "tech_engineer" = "tech_engineer"%string
  /\ ~ (forall text : string,
           (forall r, In r patterns ->
                      Regex.test (fst r) (trim (toLowerCase text)) = false) ->
           matchCareerFromText text = "not_sure"%string).
Proof.
  assert (Hrules : forall r, In r patterns ->
             Regex.test (fst r) (trim (toLowerCase "tech_engineer")) = false).
  { intros r Hr. unfold patterns in Hr. cbn [In] in Hr.
    repeat (destruct Hr as [<- | Hr]; [ vm_compute; reflexivity | ]).
    destruct Hr. }
  split; [ exact Hrules | ].
  split; [ vm_compute; reflexivity | ].
  intros H. specialize (H "tech_engineer"%string Hrules).
  vm_compute in H. discriminate H.
Qed.

(** The rules are not ordered from specific to general throughout: the
    optometry rule lists "eye doctor" but comes after the medicine rule,
    whose "doctor" accepts the text first; and a name every object inherits
    passes the exact-key test. *)
Lemma general_rule_shadows_specific :
  matchCareerFromText "eye doctor" = "medicine"%string
  /\ (exists alts, In (alts, "optometry"%string) patterns
                   /\ In "eye doctor"%string alts
                   /\ Regex.test alts "eye doctor" = true)
  /\ matchCareerFromText "dental hygienist" = "dentistry"%string
  /\ matchCareerFromText "constructor" = "constructor"%string.
Proof.
  split; [ vm_compute; reflexivity | ].
  split; [ | split; vm_compute; reflexivity ].
  exists [ "optometrist"; "optometry"; "eye doctor" ]%string.
  split; [ | split; [ | vm_compute; reflexivity ] ].
  - unfold patterns. cbn [In]. do 13 right. left. reflexivity.
  - cbn [In]. right. right. left. reflexivity.
Qed.

Lemma matchCareerFromText_key (text : string) :
  In (trim (toLowerCase text)) CAREER_PATH_CONFIG_keys ->
  matchCareerFromText text = trim (toLowerCase text).
Proof.
  intros Hin. unfold matchCareerFromText. cbv zeta.
  assert (E : CAREER_PATH_CONFIG_has (trim (toLowerCase text)) = true).
  { unfold CAREER_PATH_CONFIG_has. apply orb_true_iff. left.
    apply existsb_exists. exists (trim (toLowerCase text)).
    split; [ exact Hin | apply String.eqb_refl ]. }
  now rewrite E.
Qed.

(** C9, amended.  The classifier returns the trimmed lower-cased text
    itself when it is a canonical tag; otherwise the keyword rules are tried
    in the order of the table and the first rule that accepts the text gives
    the category.  In that order "neurosurgery" (rule 8) comes before
    "surgery" (rule 9) and "medicine" (rule 10): "I want to be a brain
    surgeon" is classified "neurosurgery" although the surgery rule accepts
    the text too.  A text that is no key of the career table and that no
    rule accepts is classified "not_sure". *)
Theorem career_classifier_first_match_wins :
  (forall text : string,
      In (trim (toLowerCase text)) CAREER_PATH_CONFIG_keys ->
      matchCareerFromText text = trim (toLowerCase text))
  /\ (forall (text : string) pre alts cat post,
         CAREER_PATH_CONFIG_has (trim (toLowerCase text)) = false ->
         patterns = pre ++ (alts, cat) :: post ->
         (forall r, In r pre -> Regex.test (fst r) (trim (toLowerCase text)) = false) ->
         Regex.test alts (trim (toLowerCase text)) = true ->
         matchCareerFromText text = cat)
  /\ (forall text : string,
         CAREER_PATH_CONFIG_has (trim (toLowerCase text)) = false ->
         (forall r, In r patterns ->
                    Regex.test (fst r) (trim (toLowerCase text)) = false) ->
         matchCareerFromText text = "not_sure"%string)
  /\ firstn 3 (skipn 7 (map snd patterns))
     = [ "neurosurgery"; "surgery"; "medicine" ]%string
  /\ matchCareerFromText "I want to be a brain surgeon" = "neurosurgery"%string
  /\ firstMatch (skipn 8 patterns) "i want to be a brain surgeon"
     = Some "surgery"%string.
Proof.
  split; [ exact matchCareerFromText_key | ].
  split.
  { intros text pre alts cat post Hkey Htable Hpre Hhit.
    unfold matchCareerFromText. cbv zeta.
    rewrite Hkey, Htable. now rewrite (firstMatch_first pre post alts cat _ Hpre Hhit). }
  split.
  { intros text Hkey Hrules. unfold matchCareerFromText. cbv zeta.
    rewrite Hkey. now rewrite (firstMatch_none _ _ Hrules). }
  split; [ vm_compute; reflexivity | ].
  split; vm_compute; reflexivity.
Qed.

Lemma career_classifier_first_match_wins_witness :
  (In (trim (toLowerCase " Surgery ")) CAREER_PATH_CONFIG_keys
   /\ matchCareerFromText " Surgery " = trim (toLowerCase " Surgery "))
  /\ (CAREER_PATH_CONFIG_has (trim (toLowerCase "Trauma surgeon")) = false
      /\ patterns = firstn 8 patterns ++ nth 8 patterns ([], ""%string) :: skipn 9 patterns
      /\ (forall r, In r (firstn 8 patterns) ->
                    Regex.test (fst r) (trim (toLowerCase "Trauma surgeon")) = false)
      /\ Regex.test (fst (nth 8 patterns ([], ""%string)))
                    (trim (toLowerCase "Trauma surgeon")) = true
      /\ matchCareerFromText "Trauma surgeon" = "surgery"%string)
  /\ (CAREER_PATH_CONFIG_has (trim (toLowerCase "Lion tamer")) = false
      /\ (forall r, In r patterns ->
                    Regex.test (fst r) (trim (toLowerCase "Lion tamer")) = false)
      /\ matchCareerFromText "Lion tamer" = "not_sure"%string).
Proof.
  destruct career_classifier_first_match_wins as [Hkey [Hfirst [Hnone _]]].
  split; [ | split ].
  - assert (Hin : In (trim (toLowerCase " Surgery ")) CAREER_PATH_CONFIG_keys).
    { vm_compute. do 5 right. left. reflexivity. }
    split; [ exact Hin | exact (Hkey " Surgery "%string Hin) ].
  - assert (Hno : CAREER_PATH_CONFIG_has (trim (toLowerCase "Trauma surgeon")) = false)
      by reflexivity.
    assert (Htable : patterns
                     = firstn 8 patterns
                       ++ nth 8 patterns ([], ""%string) :: skipn 9 patterns)
      by reflexivity.
    assert (Hpre : forall r, In r (firstn 8 patterns) ->
               Regex.test (fst r) (trim (toLowerCase "Trauma surgeon")) = false).
    { intros r Hr. unfold patterns in Hr. cbn [firstn In] in Hr.
      repeat (destruct Hr as [<- | Hr]; [ vm_compute; reflexivity | ]).
      destruct Hr. }
    assert (Hhit : Regex.test (fst (nth 8 patterns ([], ""%string)))
                              (trim (toLowerCase "Trauma surgeon")) = true)
      by (vm_compute; reflexivity).
    split; [ exact Hno | split; [ exact Htable | split; [ exact Hpre | ] ] ].
    split; [ exact Hhit | ].
    exact (Hfirst "Trauma surgeon"%string (firstn 8 patterns)
             (fst (nth 8 patterns ([], ""%string)))
             "surgery"%string (skipn 9 patterns) Hno Htable Hpre Hhit).
  - assert (Hno : CAREER_PATH_CONFIG_has (trim (toLowerCase "Lion tamer")) = false)
      by reflexivity.
    assert (Hrules : forall r, In r patterns ->
               Regex.test (fst r) (trim (toLowerCase "Lion tamer")) = false).
    { intros r Hr. unfold patterns in Hr. cbn [In] in Hr.
      repeat (destruct Hr as [<- | Hr]; [ vm_compute; reflexivity | ]).
      destruct Hr. }
    split; [ exact Hno | split; [ exact Hrules | ] ].
    exact (Hnone "Lion tamer"%string Hno Hrules).
Defined.


(** ** Net worth *)

Lemma Math_round_near (x : Q) :
  (- (1 # 2) < inject_Z (Math_round x) - x <= 1 # 2)%Q.
Proof.
  unfold Math_round.
  pose proof (Qfloor_le (x + (1 # 2))) as Hlo.
  pose proof (Qlt_floor (x + (1 # 2))) as Hhi.
  rewrite inject_Z_plus in Hhi.
  change (inject_Z 1) with 1%Q in Hhi.
  split; lra.
Qed.

(** C2 fails as stated.  For a sticker price of 50000 and a career with
    one residency year, the residency snapshot (year 5) shows debt 121000
    and net worth -61000: the year's salary of 60000 is counted whole.  For
    a college without cost and a salary band of 40000 / 60000 / 80000, the
    third career year (year 7) has savings of 20123.46 and no debt, and
    shows a net worth of 20123. *)
Lemma net_worth_identity_fails :
  (exists e,
      nth_error (Loop.timeline (simulate private_college freshman trainee)) 4 = Some e
      /\ phase (snap e) = Residency
      /\ (debt (snap e), netWorth (snap e)) = (121000, -61000)
      /\ (run_savings e == 0)%Q /\ (run_debt e == 121000)%Q
      /\ ~ net_worth_identity e)
  /\ (exists e,
         nth_error (Loop.timeline (simulate free_college freshman bachelor)) 6 = Some e
         /\ phase (snap e) = Career
         /\ (debt (snap e), netWorth (snap e)) = (0, 20123)
         /\ (run_savings e == 20123.46)%Q /\ (run_debt e == 0)%Q
         /\ ~ net_worth_identity e)
  /\ ~ (forall college profile careerData e,
           In e (Loop.timeline (simulate college profile careerData)) ->
           net_worth_identity e).
Proof.
  assert (H7 : exists e,
             nth_error (Loop.timeline (simulate free_college freshman bachelor)) 6
             = Some e
             /\ phase (snap e) = Career
             /\ (debt (snap e), netWorth (snap e)) = (0, 20123)
             /\ (run_savings e == 20123.46)%Q /\ (run_debt e == 0)%Q
             /\ ~ net_worth_identity e).
  { vm_compute. eexists. split; [ reflexivity | ].
    repeat split. discriminate. }
  split; [ | split; [ exact H7 | ] ].
  - vm_compute. eexists. split; [ reflexivity | ].
    repeat split. discriminate.
  - intros Hall. destruct H7 as [e [Hn [_ [_ [_ [_ Hno]]]]]].
    apply Hno, (Hall free_college freshman bachelor). eapply nth_error_In. exact Hn.
Qed.

(** C2, amended.  Every College, Grad School and Career snapshot shows the
    running balances rounded to the whole unit: its net worth is
    [accumulatedSavings - cumulativeDebt] rounded (in a College year, minus
    the displayed debt), with savings 0 before the career, so it lies
    within one half of the exact difference.  Residency snapshots are not
    covered. *)
Theorem net_worth_is_rounded_savings_minus_debt :
  forall (college : CollegeInput) (profile : StudentProfile)
         (careerData : CareerData) (e : Entry),
    In e (Loop.timeline (simulate college profile careerData)) ->
    phase (snap e) <> Residency ->
    shows_balances e
    /\ (Qabs (inject_Z (netWorth (snap e)) - (run_savings e - run_debt e)) <= 1 # 2)%Q.
Proof.
  intros college profile careerData e Hin Hphase.
  pose proof (simulate_shows_balances college profile careerData) as Hall.
  rewrite Forall_forall in Hall. specialize (Hall e Hin).
  split; [ exact Hall | ].
  apply Qabs_Qle_condition.
  unfold shows_balances in Hall.
  destruct (phase (snap e)).
  - destruct Hall as [Hd [Hn Hs]]. rewrite Hn, Hd, inject_Z_opp.
    pose proof (Math_round_near (run_debt e)). split; lra.
  - destruct Hall as [_ [Hn _]]. rewrite Hn.
    pose proof (Math_round_near (run_savings e - run_debt e)). split; lra.
  - contradiction.
  - destruct Hall as [_ Hn]. rewrite Hn.
    pose proof (Math_round_near (run_savings e - run_debt e)). split; lra.
Qed.

Lemma net_worth_is_rounded_savings_minus_debt_witness :
  exists e,
    nth_error (Loop.timeline (simulate private_college freshman trainee)) 6 = Some e
    /\ phase (snap e) <> Residency
    /\ shows_balances e
    /\ (Qabs (inject_Z (netWorth (snap e)) - (run_savings e - run_debt e)) <= 1 # 2)%Q.
Proof.
  destruct (nth_error (Loop.timeline (simulate private_college freshman trainee)) 6)
    as [e | ] eqn:E; [ | vm_compute in E; discriminate E ].
  exists e. split; [ reflexivity | ].
  assert (Hp : phase (snap e) <> Residency).
  { vm_compute in E. injection E as <-. discriminate. }
  split; [ exact Hp | ].
  apply (net_worth_is_rounded_savings_minus_debt private_college freshman trainee e).
  - eapply nth_error_In. exact E.
  - exact Hp.
Defined.

(** ** Break-even age *)

(** C3 fails as stated.  With a sticker price of 10000 and one residency
    year, the residency snapshot at age 22 already shows a positive net
    worth, and the recorded break-even age is 26, a career year.  With no
    debt and a salary of 2, the first career year (age 22) has a net worth
    of 0.3, which sets the break-even age but is shown as 0: the first
    snapshot with a positive net worth is the one at age 23. *)
Lemma break_even_is_not_first_positive_snapshot :
  (let r := generateLifePath state_college freshman trainee in
   first_positive_age (timeline r) = Some 22
   /\ Summary.breakEvenAge (summary r) = Some 26
   /\ Summary.breakEvenAge (summary r) <> first_positive_age (timeline r))
  /\ (let r := generateLifePath free_college freshman pocket_money in
      first_positive_age (timeline r) = Some 23
      /\ Summary.breakEvenAge (summary r) = Some 22
      /\ Summary.breakEvenAge (summary r) <> first_positive_age (timeline r)).
Proof.
  vm_compute. repeat split; discriminate.
Qed.

(** C3, amended.  [breakEvenAge] is the age of the first Career year whose
    net worth [accumulatedSavings - cumulativeDebt], before it is rounded
    for display, is strictly positive, and null when the horizon holds no
    such career year; once a career year has set it, no later year changes
    it. *)
Theorem breakEvenAge_is_first_positive_career_year :
  forall (college : CollegeInput) (profile : StudentProfile) (careerData : CareerData),
    Summary.breakEvenAge (summary (generateLifePath college profile careerData))
    = first_career_break_even (Loop.timeline (simulate college profile careerData))
    /\ timeline (generateLifePath college profile careerData)
       = map snap (Loop.timeline (simulate college profile careerData))
    /\ (forall (fuel : nat) (k careerYear : Z) (s : Loop.State) (a : Z),
           Loop.breakEvenAge s = Some a ->
           Loop.breakEvenAge (careerLoop college profile careerData fuel k careerYear s)
           = Some a).
Proof.
  intros college profile careerData. split; [ | split ].
  - cbn [generateLifePath summary Summary.breakEvenAge].
    apply simulate_break_even.
  - reflexivity.
  - intros fuel k careerYear s a. apply careerLoop_keeps_break_even.
Qed.

Lemma breakEvenAge_is_first_positive_career_year_witness :
  let s := simulate state_college freshman trainee in
  Loop.breakEvenAge s = Some 26
  /\ Loop.breakEvenAge (careerLoop state_college freshman trainee 2 18 1 s) = Some 26.
Proof.
  cbv zeta.
  assert (H : Loop.breakEvenAge (simulate state_college freshman trainee) = Some 26)
    by (vm_compute; reflexivity).
  split; [ exact H | ].
  exact (proj2 (proj2 (breakEvenAge_is_first_positive_career_year
                         state_college freshman trainee))
           2%nat 18 1 (simulate state_college freshman trainee) 26 H).
Defined.

(** * Further properties *)

(** ** Loops *)

Lemma for_range_length (lo hi : Z) :
  List.length (for_range lo hi) = Z.to_nat (hi - lo + 1).
Proof.
  unfold for_range. now rewrite length_map, length_seq.
Qed.

Lemma for_range_In (lo hi i : Z) : In i (for_range lo hi) <-> lo <= i <= hi.
Proof.
  unfold for_range. rewrite in_map_iff. split.
  - intros [k [<- Hk]]. apply in_seq in Hk. lia.
  - intros H. exists (Z.to_nat (i - lo)). split; [ lia | ].
    apply in_seq. lia.
Qed.

Lemma for_range_from (cy : Z) (n : nat) :
  map (fun k => cy + Z.of_nat k) (seq 0 (S n))
  = cy :: map (fun k => (cy + 1) + Z.of_nat k) (seq 0 n).
Proof.
  cbn [seq map]. f_equal; [ lia | ].
  rewrite <- seq_shift, map_map. apply map_ext. intros k. lia.
Qed.

(** A loop whose body pushes one snapshot per index pushes, seen through
    [proj], the image of its index range. *)
Lemma fold_left_pushes {A : Type} (proj : Entry -> A) (g : Z -> A)
      (body : Z -> Loop.State -> Loop.State) (l : list Z) (s : Loop.State) :
  (forall i st, map proj (Loop.timeline (body i st))
                = map proj (Loop.timeline st) ++ [g i]) ->
  map proj (Loop.timeline (fold_left (fun st i => body i st) l s))
  = map proj (Loop.timeline s) ++ map g l.
Proof.
  intros Hbody. revert s.
  induction l as [ | i l IH ]; intros s; cbn [fold_left map].
  - now rewrite app_nil_r.
  - rewrite IH, Hbody, <- app_assoc. reflexivity.
Qed.

Section Shape.

Variable college : CollegeInput.
Variable profile : StudentProfile.
Variable careerData : CareerData.

(** The [break] of the career loop is never taken. *)
Lemma careerLoop_unrolls (fuel : nat) (k careerYear : Z) (s : Loop.State) :
  fuel = Z.to_nat (yearsToShow profile careerData - careerYear + 1) ->
  careerLoop college profile careerData fuel k careerYear s
  = fold_left (fun st i => careerYearBody college profile careerData k i st)
      (map (fun j => careerYear + Z.of_nat j) (seq 0 fuel)) s.
Proof.
  revert careerYear s.
  induction fuel as [ | fuel IH ]; intros careerYear s Hfuel; [ reflexivity | ].
  rewrite for_range_from. cbn [careerLoop fold_left].
  destruct (Z.leb_spec careerYear (yearsToShow profile careerData)); [ | lia ].
  destruct (Z.gtb_spec (careerStartAge profile careerData + careerYear - 1)
                       (projectionEndAge profile)) as [Hgt | Hle].
  - unfold yearsToShow in *. lia.
  - apply IH. lia.
Qed.

Lemma careerPhase_is_for_loop (s : Loop.State) :
  careerPhase college profile careerData s
  = for_loop 1 (yearsToShow profile careerData)
      (careerYearBody college profile careerData
         (Z.of_nat (List.length (Loop.timeline s))))
      (declareSavings s).
Proof.
  unfold careerPhase, for_loop, for_range.
  rewrite careerLoop_unrolls by lia.
  replace (yearsToShow profile careerData - 1 + 1)
    with (yearsToShow profile careerData) by lia.
  reflexivity.
Qed.

Lemma trainingPhases_shape :
  map (fun e => shape (snap e))
      (Loop.timeline
         (residencyPhase careerData
            (gradPhase careerData (undergradPhase college profile init))))
  = trainingShape profile careerData.
Proof.
  unfold trainingShape.
  assert (HU : map (fun e => shape (snap e))
                   (Loop.timeline (undergradPhase college profile init))
               = map (collegeShape profile) (for_range 1 4)).
  { unfold undergradPhase, for_loop. cbn [afterUndergrad Loop.timeline].
    rewrite (fold_left_pushes _ (collegeShape profile)).
    - reflexivity.
    - intros i st. cbn [undergradYear Loop.timeline]. unfold push.
      now rewrite map_app. }
  assert (HG : map (fun e => shape (snap e))
                   (Loop.timeline
                      (gradPhase careerData (undergradPhase college profile init)))
               = map (collegeShape profile) (for_range 1 4)
                 ++ (if gradRuns careerData
                     then map gradShape (for_range 1 (gradSchoolYears careerData))
                     else [])).
  { unfold gradPhase. fold (gradRuns careerData).
    destruct (gradRuns careerData).
    - unfold for_loop. rewrite (fold_left_pushes _ gradShape).
      + now rewrite HU.
      + intros i st. cbn [gradYear Loop.timeline]. unfold push.
        now rewrite map_app.
    - now rewrite HU, app_nil_r. }
  unfold residencyPhase. fold (residencyRuns careerData).
  destruct (residencyRuns careerData).
  - unfold for_loop. rewrite (fold_left_pushes _ (residencyShape careerData)).
    + now rewrite HG, <- app_assoc.
    + intros i st. cbn [residencyYear Loop.timeline]. unfold push.
      now rewrite map_app.
  - now rewrite HG, app_nil_r.
Qed.

Lemma simulate_shape :
  map shape (timeline (generateLifePath college profile careerData))
  = timelineShape profile careerData.
Proof.
  cbn [generateLifePath timeline]. rewrite map_map.
  unfold simulate. rewrite careerPhase_is_for_loop. unfold for_loop.
  set (s := residencyPhase careerData
              (gradPhase careerData (undergradPhase college profile init))).
  rewrite (fold_left_pushes _
             (careerShape profile careerData (Z.of_nat (List.length (Loop.timeline s))))).
  - cbn [declareSavings Loop.timeline]. unfold timelineShape.
    rewrite <- trainingPhases_shape. fold s. now rewrite length_map.
  - intros i st. cbn [careerYearBody Loop.timeline]. unfold push.
    now rewrite map_app.
Qed.

End Shape.

(** ** Shape of the timeline *)

Lemma seq_from (n m : nat) : seq n m = map (fun k => (n + k)%nat) (seq 0 m).
Proof.
  revert n. induction m as [ | m IH ]; intros n; cbn [seq map]; [ reflexivity | ].
  f_equal; [ lia | ].
  rewrite (IH (S n)), <- (seq_shift m 0), map_map.
  apply map_ext. intros k. lia.
Qed.

Lemma for_range_app (a b c : Z) :
  a <= b + 1 -> b <= c ->
  for_range a b ++ for_range (b + 1) c = for_range a c.
Proof.
  intros Hab Hbc. unfold for_range.
  replace (Z.to_nat (c - a + 1))
    with (Z.to_nat (b - a + 1) + Z.to_nat (c - (b + 1) + 1))%nat by lia.
  rewrite seq_app, map_app. f_equal.
  cbn [Nat.add]. rewrite (seq_from (Z.to_nat (b - a + 1))), map_map.
  apply map_ext. intros k. lia.
Qed.

Lemma for_range_shift (d lo hi : Z) :
  map (fun y => d + y) (for_range lo hi) = for_range (d + lo) (d + hi).
Proof.
  unfold for_range. rewrite map_map.
  replace (d + hi - (d + lo) + 1) with (hi - lo + 1) by lia.
  apply map_ext. intros k. lia.
Qed.

Lemma for_range_empty (lo hi : Z) : hi < lo -> for_range lo hi = [].
Proof.
  intros H. unfold for_range. replace (Z.to_nat (hi - lo + 1)) with 0%nat by lia.
  reflexivity.
Qed.

Section ShapeFacts.

Variable profile : StudentProfile.
Variable careerData : CareerData.

Lemma yearsToShow_eq :
  yearsToShow profile careerData
  = 14 - gradSchoolYears careerData - residencyYears careerData.
Proof.
  unfold yearsToShow, projectionEndAge, careerStartAge. lia.
Qed.

Lemma trainingShape_length :
  List.length (trainingShape profile careerData)
  = (4 + (if gradRuns careerData then Z.to_nat (gradSchoolYears careerData) else 0)
     + (if residencyRuns careerData then Z.to_nat (residencyYears careerData) else 0))%nat.
Proof.
  unfold trainingShape. rewrite !length_app, length_map, for_range_length.
  destruct (gradRuns careerData), (residencyRuns careerData);
    rewrite ?length_map, ?for_range_length; cbn [List.length]; lia.
Qed.

Lemma trainingShape_years :
  (residencyRuns careerData = true ->
   gradRuns careerData = true \/ gradSchoolYears careerData = 0) ->
  map (fun x => fst (fst (fst x))) (trainingShape profile careerData)
  = for_range 1 (Z.of_nat (List.length (trainingShape profile careerData))).
Proof.
  intros Hres.
  rewrite trainingShape_length. unfold trainingShape.
  rewrite !map_app, !map_map. cbn [collegeShape fst].
  rewrite map_id.
  destruct (gradRuns careerData) eqn:EG.
  - assert (0 < gradSchoolYears careerData).
    { unfold gradRuns in EG. apply andb_prop in EG. lia. }
    rewrite map_map. cbn [gradShape fst]. rewrite (for_range_shift 4).
    destruct (residencyRuns careerData) eqn:ER.
    + assert (0 < residencyYears careerData).
      { unfold residencyRuns in ER. apply andb_prop in ER. lia. }
      rewrite map_map. cbn [residencyShape fst].
      rewrite (for_range_shift (4 + gradSchoolYears careerData)).
      rewrite app_assoc.
      rewrite (for_range_app 1 4 (4 + gradSchoolYears careerData)) by lia.
      rewrite for_range_app by lia. f_equal. lia.
    + cbn [map]. rewrite app_nil_r.
      rewrite (for_range_app 1 4 (4 + gradSchoolYears careerData)) by lia.
      f_equal. lia.
  - cbn [map app]. destruct (residencyRuns careerData) eqn:ER.
    + assert (0 < residencyYears careerData).
      { unfold residencyRuns in ER. apply andb_prop in ER. lia. }
      destruct (Hres eq_refl) as [Hg | Hg]; [ discriminate | ].
      rewrite map_map. cbn [residencyShape fst]. rewrite Hg.
      change (4 + 0) with 4. rewrite (for_range_shift 4).
      rewrite (for_range_app 1 4 (4 + residencyYears careerData)) by lia.
      f_equal. lia.
    + cbn [map]. rewrite app_nil_r. reflexivity.
Qed.

End ShapeFacts.

(** X1.  The timeline is four College years, then the Grad School years when
    their loop runs, then the Residency years when their loop runs, then
    [yearsToShow] Career years; the year number, age, phase and earnings of
    a snapshot are those its position in the loops gives it.  The career
    loop never leaves through its [break]. *)
Theorem timeline_shape :
  forall (college : CollegeInput) (profile : StudentProfile) (careerData : CareerData),
    map shape (timeline (generateLifePath college profile careerData))
    = timelineShape profile careerData.
Proof.
  exact simulate_shape.
Qed.

(** X2.  The number of snapshots: 4, plus the graduate and residency years
    whose loops run, plus [14 - gradSchoolYears - residencyYears] career
    years when that is positive.  It does not depend on the starting age,
    and the school and training years are deducted from the career even
    when their loop is skipped. *)
Theorem timeline_length :
  forall (college : CollegeInput) (profile : StudentProfile) (careerData : CareerData),
    List.length (timeline (generateLifePath college profile careerData))
    = (4
       + (if requiresGradSchool careerData && (0 <? gradSchoolYears careerData)%Z
          then Z.to_nat (gradSchoolYears careerData) else 0)
       + (if (0 <? residencyYears careerData)%Z && (0 <? residencySalary careerData)%Q
          then Z.to_nat (residencyYears careerData) else 0)
       + Z.to_nat (14 - gradSchoolYears careerData - residencyYears careerData))%nat.
Proof.
  intros college profile careerData.
  rewrite <- (length_map shape), simulate_shape. unfold timelineShape.
  rewrite length_app, length_map, for_range_length, trainingShape_length.
  rewrite yearsToShow_eq. unfold gradRuns, residencyRuns. lia.
Qed.

(** X3.  When the residency loop runs only after graduate years that were
    themselves simulated (or after none), the year numbers of the timeline
    are 1, 2, 3, ... without a gap. *)
Theorem timeline_years_contiguous :
  forall (college : CollegeInput) (profile : StudentProfile) (careerData : CareerData),
    (residencyRuns careerData = true ->
     gradRuns careerData = true \/ gradSchoolYears careerData = 0) ->
    map year (timeline (generateLifePath college profile careerData))
    = for_range 1 (Z.of_nat (List.length
                               (timeline (generateLifePath college profile careerData)))).
Proof.
  intros college profile careerData Hres.
  set (tl := timeline (generateLifePath college profile careerData)).
  assert (Hy : map year tl = map (fun x => fst (fst (fst x))) (map shape tl))
    by (rewrite map_map; reflexivity).
  assert (Hlen : List.length tl = List.length (map shape tl))
    by (now rewrite length_map).
  rewrite Hy, Hlen. unfold tl. rewrite simulate_shape.
  unfold timelineShape. rewrite length_app, length_map, for_range_length.
  rewrite map_app, !map_map. cbn [careerShape fst].
  rewrite (trainingShape_years profile careerData Hres).
  set (n := List.length (trainingShape profile careerData)).
  rewrite (for_range_shift (Z.of_nat n)).
  destruct (Z.le_gt_cases 1 (yearsToShow profile careerData)) as [Hpos | Hneg].
  - rewrite for_range_app by lia. f_equal. lia.
  - rewrite (for_range_empty (Z.of_nat n + 1)) by lia.
    rewrite app_nil_r. f_equal. lia.
Qed.

Lemma timeline_years_contiguous_witness :
  map year (timeline (generateLifePath private_college returning_student graduate))
  = for_range 1 18.
Proof.
  assert (H : residencyRuns graduate = true ->
              gradRuns graduate = true \/ gradSchoolYears graduate = 0)
    by (intros _; left; reflexivity).
  exact (timeline_years_contiguous private_college returning_student graduate H).
Defined.

(** ** Horizon *)

Lemma for_range_last (lo hi : Z) :
  lo <= hi -> for_range lo hi = for_range lo (hi - 1) ++ [hi].
Proof.
  intros H. rewrite <- (for_range_app lo (hi - 1) hi) by lia.
  f_equal. unfold for_range.
  replace (Z.to_nat (hi - (hi - 1 + 1) + 1)) with 1%nat by lia.
  cbn [seq map]. f_equal. lia.
Qed.

Lemma trainingShape_phase (profile : StudentProfile) (careerData : CareerData)
      (x : Z * Z * Phase * option Q) :
  In x (trainingShape profile careerData) -> snd (fst x) <> Career.
Proof.
  unfold trainingShape. rewrite !in_app_iff. intros [H | [H | H]].
  - apply in_map_iff in H. destruct H as [y [<- _]]. discriminate.
  - destruct (gradRuns careerData); [ | destruct H ].
    apply in_map_iff in H. destruct H as [y [<- _]]. discriminate.
  - destruct (residencyRuns careerData); [ | destruct H ].
    apply in_map_iff in H. destruct H as [y [<- _]]. discriminate.
Qed.

(** X4.  When schooling and training leave at least one career year
    ([gradSchoolYears + residencyYears < 14]), the timeline ends with a
    Career snapshot at age [startAge + 17]. *)
Theorem timeline_ends_at_horizon :
  forall (college : CollegeInput) (profile : StudentProfile)
         (careerData : CareerData) (d : LifePathYear),
    gradSchoolYears careerData + residencyYears careerData < 14 ->
    let lastYear := last (timeline (generateLifePath college profile careerData)) d in
    phase lastYear = Career /\ age lastYear = startAge profile + 17.
Proof.
  intros college profile careerData d Hyears.
  pose proof (simulate_shape college profile careerData) as Hshape.
  unfold timelineShape in Hshape.
  rewrite (for_range_last 1 (yearsToShow profile careerData)) in Hshape
    by (rewrite yearsToShow_eq; lia).
  rewrite map_app, app_assoc in Hshape. cbn [map] in Hshape.
  apply map_eq_app in Hshape. destruct Hshape as [l1 [l2 [Htl [_ H2]]]].
  destruct l2 as [ | y [ | ? ? ] ]; try discriminate H2.
  cbn [map] in H2. unfold shape, careerShape in H2.
  injection H2 as _ Hage Hphase _.
  cbv zeta. rewrite Htl, last_last.
  split; [ exact Hphase | ].
  rewrite Hage. unfold yearsToShow, projectionEndAge. lia.
Qed.

Lemma timeline_ends_at_horizon_witness :
  let lastYear :=
    last (timeline (generateLifePath private_college returning_student graduate))
         {| year := 0; age := 0; phase := College; earnings := None;
            debt := 0; netWorth := 0 |} in
  phase lastYear = Career /\ age lastYear = 47.
Proof.
  apply (timeline_ends_at_horizon private_college returning_student graduate).
  vm_compute. reflexivity.
Defined.

(** X5.  When schooling and training take fourteen years or more, the
    timeline holds no Career snapshot and the break-even age is null. *)
Theorem no_career_year_no_break_even :
  forall (college : CollegeInput) (profile : StudentProfile) (careerData : CareerData),
    14 <= gradSchoolYears careerData + residencyYears careerData ->
    Forall (fun y => phase y <> Career)
           (timeline (generateLifePath college profile careerData))
    /\ Summary.breakEvenAge (summary (generateLifePath college profile careerData))
       = None.
Proof.
  intros college profile careerData Hyears.
  assert (Hph : Forall (fun y => phase y <> Career)
                       (timeline (generateLifePath college profile careerData))).
  { apply Forall_forall. intros y Hy.
    apply (in_map shape) in Hy. rewrite simulate_shape in Hy.
    unfold timelineShape in Hy.
    rewrite (for_range_empty 1) in Hy by (rewrite yearsToShow_eq; lia).
    cbn [map] in Hy. rewrite app_nil_r in Hy.
    exact (trainingShape_phase _ _ _ Hy). }
  split; [ exact Hph | ].
  cbn [generateLifePath summary Summary.breakEvenAge].
  rewrite simulate_break_even. unfold first_career_break_even.
  rewrite find_none_Forall; [ reflexivity | ].
  cbn [generateLifePath timeline] in Hph. rewrite Forall_map in Hph.
  eapply Forall_impl; [ | exact Hph ].
  intros e He. cbv beta in He.
  destruct (phase (snap e)); try reflexivity. now contradiction He.
Qed.

Lemma no_career_year_no_break_even_witness :
  Forall (fun y => phase y <> Career)
         (timeline (generateLifePath private_college freshman long_training))
  /\ Summary.breakEvenAge
       (summary (generateLifePath private_college freshman long_training)) = None.
Proof.
  apply (no_career_year_no_break_even private_college freshman long_training).
  vm_compute. discriminate.
Defined.

(** ** Debt during the college years *)

Lemma fold_left_extends (body : Z -> Loop.State -> Loop.State) (l : list Z)
      (s : Loop.State) :
  (forall i st, exists e, Loop.timeline (body i st) = Loop.timeline st ++ [e]) ->
  exists more,
    Loop.timeline (fold_left (fun st i => body i st) l s) = Loop.timeline s ++ more.
Proof.
  intros Hbody. revert s.
  induction l as [ | i l IH ]; intros s; cbn [fold_left].
  - exists []. now rewrite app_nil_r.
  - destruct (IH (body i s)) as [more Hmore].
    destruct (Hbody i s) as [e He].
    exists (e :: more). rewrite Hmore, He, <- app_assoc. reflexivity.
Qed.

Section CollegeYears.

Variable college : CollegeInput.
Variable profile : StudentProfile.
Variable careerData : CareerData.

(** The later loops only append to what the undergraduate loop pushed. *)
Lemma simulate_extends_undergrad :
  exists more,
    Loop.timeline (simulate college profile careerData)
    = Loop.timeline (undergradPhase college profile init) ++ more.
Proof.
  unfold simulate. rewrite careerPhase_is_for_loop.
  set (u := undergradPhase college profile init).
  assert (HG : exists more,
             Loop.timeline (gradPhase careerData u) = Loop.timeline u ++ more).
  { unfold gradPhase. destruct (_ && _).
    - apply fold_left_extends. intros i st. eexists. reflexivity.
    - exists []. now rewrite app_nil_r. }
  destruct HG as [mg HG].
  assert (HR : exists more,
             Loop.timeline (residencyPhase careerData (gradPhase careerData u))
             = Loop.timeline (gradPhase careerData u) ++ more).
  { unfold residencyPhase. destruct (_ && _).
    - apply fold_left_extends. intros i st. eexists. reflexivity.
    - exists []. now rewrite app_nil_r. }
  destruct HR as [mr HR].
  destruct (fold_left_extends
              (careerYearBody college profile careerData
                 (Z.of_nat (List.length
                    (Loop.timeline (residencyPhase careerData (gradPhase careerData u))))))
              (for_range 1 (yearsToShow profile careerData))
              (declareSavings (residencyPhase careerData (gradPhase careerData u))))
    as [mc HC].
  { intros i st. eexists. reflexivity. }
  unfold for_loop. rewrite HC. cbn [declareSavings Loop.timeline].
  rewrite HR, HG. exists (mg ++ mr ++ mc). now rewrite <- !app_assoc.
Qed.

Lemma undergrad_debts :
  map (fun e => (debt (snap e), netWorth (snap e)))
      (Loop.timeline (undergradPhase college profile init))
  = map (fun y => (Math_round (stickerPriceWithRB college profile * 0.6 * inject_Z y)%Q,
                   - Math_round (stickerPriceWithRB college profile * 0.6 * inject_Z y)%Q))
        [1; 2; 3; 4].
Proof.
  unfold undergradPhase, for_loop.
  change (for_range 1 4) with [1; 2; 3; 4].
  cbn [fold_left undergradYear afterUndergrad Loop.timeline Loop.cumulativeDebt
       push app map snap debt netWorth init].
  set (s := stickerPriceWithRB college profile).
  repeat match goal with
         | |- context [ Math_round ?x ] =>
             lazymatch x with
             | (s * 0.6 * inject_Z _)%Q => fail
             | _ => idtac
             end;
             let y := fresh "y" in
             let Hy := fresh "Hy" in
             evar (y : Q);
             assert (Hy : Math_round x = Math_round y)
               by (apply Math_round_comp; subst y;
                   first [ instantiate (1 := (s * 0.6 * inject_Z 1)%Q); ring
                         | instantiate (1 := (s * 0.6 * inject_Z 2)%Q); ring
                         | instantiate (1 := (s * 0.6 * inject_Z 3)%Q); ring
                         | instantiate (1 := (s * 0.6 * inject_Z 4)%Q); ring ]);
             subst y; rewrite !Hy; clear Hy
         end.
  reflexivity.
Qed.

End CollegeYears.

Lemma Math_round_inject_Z (n : Z) : Math_round (inject_Z n) = n.
Proof.
  unfold Math_round, Qfloor, Qplus, inject_Z. cbn [Qnum Qden].
  change (Z.pos (1 * 2)) with 2. symmetry.
  apply (Z.div_unique _ _ _ 1); lia.
Qed.

Lemma Math_round_nonneg (x : Q) : (0 <= x)%Q -> 0 <= Math_round x.
Proof.
  intros H. change 0 with (Math_round (inject_Z 0)) at 1.
  now apply Math_round_mono.
Qed.

Lemma stickerPrice_nonneg (college : CollegeInput) (inState roomBoard : bool) :
  costs_nonnegative (cost college) ->
  (0 <= getStickerPrice college inState roomBoard)%Q.
Proof.
  intros [Hi [Ho Hr]]. unfold getStickerPrice, nullish, nullish_opt.
  unfold nonneg_opt in *.
  destruct (tuitionInState (cost college)), (tuitionOutOfState (cost college)),
    (roomBoardOnCampus (cost college)), inState, roomBoard; lra.
Qed.

Lemma college_snapshots (college : CollegeInput) (profile : StudentProfile)
      (careerData : CareerData) :
  map (fun y => (year y, debt y, netWorth y))
      (firstn 4 (timeline (generateLifePath college profile careerData)))
  = map (fun y => (y, Math_round (stickerPriceWithRB college profile * 0.6 * inject_Z y)%Q,
                   - Math_round (stickerPriceWithRB college profile * 0.6 * inject_Z y)%Q))
        [1; 2; 3; 4].
Proof.
  cbn [generateLifePath timeline].
  destruct (simulate_extends_undergrad college profile careerData) as [more Hmore].
  rewrite Hmore, map_app.
  pose proof (undergrad_debts college profile) as Hd.
  pose proof (f_equal (@List.length _) Hd) as Hlen.
  rewrite !length_map in Hlen. cbn [List.length] in Hlen.
  rewrite firstn_app, length_map, Hlen, Nat.sub_diag, firstn_O, app_nil_r.
  rewrite <- Hlen, <- (length_map snap), firstn_all.
  assert (Hy : map (fun e => year (snap e))
                   (Loop.timeline (undergradPhase college profile init))
               = [1; 2; 3; 4]).
  { unfold undergradPhase, for_loop. cbn [afterUndergrad Loop.timeline].
    rewrite (fold_left_pushes _ (fun y => y)).
    - reflexivity.
    - intros i st. cbn [undergradYear Loop.timeline]. unfold push.
      now rewrite map_app. }
  rewrite map_map.
  revert Hd Hy.
  generalize (Loop.timeline (undergradPhase college profile init)) as l.
  intros l Hd Hy.
  do 5 (destruct l as [ | ? l ]; try discriminate Hy).
  cbn [map] in *.
  injection Hy as -> -> -> ->. injection Hd as -> -> -> -> -> -> -> ->.
  reflexivity.
Qed.

(** X6.  The four College snapshots show a debt of 60 percent of the sticker
    price with room and board per year elapsed, rounded, and a net worth of
    minus that debt.  Scholarships, the aid-adjusted price and the college's
    median debt do not enter. *)
Theorem college_years_accrue_sixty_percent :
  forall (college : CollegeInput) (profile : StudentProfile) (careerData : CareerData),
    let price := getStickerPrice college (isInState college profile) true in
    map (fun y => (year y, debt y, netWorth y))
        (firstn 4 (timeline (generateLifePath college profile careerData)))
    = map (fun y => (y, Math_round (price * 0.6 * inject_Z y)%Q,
                     - Math_round (price * 0.6 * inject_Z y)%Q))
          [1; 2; 3; 4].
Proof.
  intros college profile careerData price.
  rewrite college_snapshots. reflexivity.
Qed.

(** X7.  When the tuition and room-and-board figures a college has are not
    negative, the debt shown in years 1 to 4 never decreases. *)
Theorem undergrad_debt_is_monotone :
  forall (college : CollegeInput) (profile : StudentProfile) (careerData : CareerData),
    costs_nonnegative (cost college) ->
    exists d1 d2 d3 d4,
      map debt (firstn 4 (timeline (generateLifePath college profile careerData)))
      = [d1; d2; d3; d4]
      /\ 0 <= d1 /\ d1 <= d2 /\ d2 <= d3 /\ d3 <= d4.
Proof.
  intros college profile careerData Hcost.
  pose proof (f_equal (map (fun t => snd (fst t)))
                (college_snapshots college profile careerData)) as H.
  rewrite !map_map in H. cbn [fst snd map] in H.
  unfold stickerPriceWithRB in H.
  set (price := getStickerPrice college (isInState college profile) true) in *.
  assert (Hp : (0 <= price)%Q) by (now apply stickerPrice_nonneg).
  exists (Math_round (price * 0.6 * inject_Z 1)%Q),
         (Math_round (price * 0.6 * inject_Z 2)%Q),
         (Math_round (price * 0.6 * inject_Z 3)%Q),
         (Math_round (price * 0.6 * inject_Z 4)%Q).
  split; [ exact H | ].
  repeat split.
  - apply Math_round_nonneg. change (inject_Z 1) with 1%Q. lra.
  - apply Math_round_mono.
    change (inject_Z 1) with 1%Q. change (inject_Z 2) with 2%Q. lra.
  - apply Math_round_mono.
    change (inject_Z 2) with 2%Q. change (inject_Z 3) with 3%Q. lra.
  - apply Math_round_mono.
    change (inject_Z 3) with 3%Q. change (inject_Z 4) with 4%Q. lra.
Qed.

Lemma undergrad_debt_is_monotone_witness :
  costs_nonnegative (cost private_college)
  /\ exists d1 d2 d3 d4,
       map debt (firstn 4 (timeline (generateLifePath private_college freshman trainee)))
       = [d1; d2; d3; d4]
       /\ 0 <= d1 /\ d1 <= d2 /\ d2 <= d3 /\ d3 <= d4.
Proof.
  assert (H : costs_nonnegative (cost private_college)).
  { repeat split; vm_compute; discriminate. }
  split; [ exact H | ].
  exact (undergrad_debt_is_monotone private_college freshman trainee H).
Defined.

(** ** Sign and repayment of the debt *)

Section DebtSign.

Variable college : CollegeInput.
Variable profile : StudentProfile.
Variable careerData : CareerData.

Lemma simulate_debts_nonneg :
  costs_nonnegative (cost college) ->
  (0 <= gradCostPerYear careerData)%Q ->
  Forall (fun e => 0 <= debt (snap e))
         (Loop.timeline (simulate college profile careerData)).
Proof.
  intros Hcost Hgrad.
  assert (Hp : (0 <= stickerPriceWithRB college profile)%Q)
    by (now apply stickerPrice_nonneg).
  set (shown := fun s : Loop.State =>
                  Forall (fun e => 0 <= debt (snap e)) (Loop.timeline s)).
  apply (simulate_phases college profile careerData
           (fun s => shown s /\ (0 <= Loop.cumulativeDebt s)%Q)
           (fun s => shown s /\ (0 <= Loop.cumulativeDebt s)%Q)
           shown shown); unfold shown.
  - split; [ constructor | apply Qle_refl ].
  - intros y s [Hs Hd].
    assert (Hd' : (0 <= Loop.cumulativeDebt s + stickerPriceWithRB college profile * 0.6)%Q)
      by lra.
    split; [ | exact Hd' ].
    cbn [undergradYear Loop.timeline]. unfold push.
    apply Forall_app. split; [ exact Hs | ]. constructor; [ | constructor ].
    cbn [snap debt]. now apply Math_round_nonneg.
  - intros s Hs. exact Hs.
  - intros y s [Hs Hd].
    assert (Hd' : (0 <= Loop.cumulativeDebt s + gradCostPerYear careerData)%Q) by lra.
    split; [ | exact Hd' ].
    cbn [gradYear Loop.timeline]. unfold push.
    apply Forall_app. split; [ exact Hs | ]. constructor; [ | constructor ].
    cbn [snap debt]. now apply Math_round_nonneg.
  - intros s [Hs _]. exact Hs.
  - intros y s Hs. cbn [residencyYear Loop.timeline]. unfold push.
    apply Forall_app. split; [ exact Hs | ]. constructor; [ | constructor ].
    cbn [snap debt]. apply Math_round_nonneg. apply Q.le_max_l.
  - intros s Hs. exact Hs.
  - intros k y s Hs. cbn [careerYearBody Loop.timeline]. unfold push.
    apply Forall_app. split; [ exact Hs | ]. constructor; [ | constructor ].
    cbn [snap debt]. apply Math_round_nonneg. apply Q.le_max_l.
Qed.

(** A career year leaves at least the year's interest of a positive
    balance: the payment is capped by the balance before interest. *)
Lemma careerYear_keeps_interest (k y : Z) (s : Loop.State) :
  (0 < Loop.cumulativeDebt s)%Q ->
  (Loop.cumulativeDebt s * 0.05
   <= Loop.cumulativeDebt (careerYearBody college profile careerData k y s))%Q.
Proof.
  intros Hpos. cbn [careerYearBody Loop.cumulativeDebt].
  set (D := Loop.cumulativeDebt s) in *.
  set (payment := if (0 <? totalDebt college profile careerData)%Q
                  then Math_min (totalDebt college profile careerData / 10 * 1.5) D
                  else 0%Q).
  assert (Hpay : (payment <= D)%Q).
  { unfold payment. destruct (_ <? _)%Q.
    - apply Q.le_min_r.
    - now apply Qlt_le_weak. }
  unfold Math_max.
  eapply Qle_trans; [ | apply Q.le_max_r ]. lra.
Qed.

Lemma career_balance_stays_positive :
  (0 < balanceAtCareerStart college profile careerData)%Q ->
  Forall (fun e => phase (snap e) = Career -> (0 < run_debt e)%Q)
         (Loop.timeline (simulate college profile careerData))
  /\ (0 < Loop.cumulativeDebt (simulate college profile careerData))%Q.
Proof.
  intros Hstart. unfold simulate. rewrite careerPhase_is_for_loop.
  set (s0 := residencyPhase careerData
               (gradPhase careerData (undergradPhase college profile init))).
  apply (for_loop_invariant
           (fun s => Forall (fun e => phase (snap e) = Career -> (0 < run_debt e)%Q)
                            (Loop.timeline s)
                     /\ (0 < Loop.cumulativeDebt s)%Q)).
  - intros i st [Hall Hpos].
    pose proof (careerYear_keeps_interest
                  (Z.of_nat (List.length (Loop.timeline s0))) i st Hpos) as Hnext.
    assert (Hpos' : (0 < Loop.cumulativeDebt
                           (careerYearBody college profile careerData
                              (Z.of_nat (List.length (Loop.timeline s0))) i st))%Q)
      by lra.
    split; [ | exact Hpos' ].
    cbn [careerYearBody Loop.timeline] in *. unfold push.
    apply Forall_app. split; [ exact Hall | ]. constructor; [ | constructor ].
    intros _. cbn [run_debt]. exact Hpos'.
  - split; [ | exact Hstart ].
    cbn [declareSavings Loop.timeline].
    apply Forall_forall. intros e He Hph. exfalso.
    apply (in_map (fun e => shape (snap e))) in He.
    unfold s0 in He. rewrite trainingPhases_shape in He.
    apply trainingShape_phase in He. cbn [shape fst snd] in He. contradiction.
Qed.

End DebtSign.

(** X8.  When the tuition and room-and-board figures and the graduate cost
    per year are not negative, no snapshot shows a negative debt. *)
Theorem shown_debt_is_never_negative :
  forall (college : CollegeInput) (profile : StudentProfile) (careerData : CareerData),
    costs_nonnegative (cost college) ->
    (0 <= gradCostPerYear careerData)%Q ->
    Forall (fun y => 0 <= debt y)
           (timeline (generateLifePath college profile careerData)).
Proof.
  intros college profile careerData Hcost Hgrad.
  cbn [generateLifePath timeline]. apply Forall_map.
  now apply simulate_debts_nonneg.
Qed.

Lemma shown_debt_is_never_negative_witness :
  costs_nonnegative (cost community_college)
  /\ (0 <= gradCostPerYear trainee)%Q
  /\ Forall (fun y => 0 <= debt y)
            (timeline (generateLifePath community_college freshman trainee)).
Proof.
  assert (H : costs_nonnegative (cost community_college)).
  { repeat split; vm_compute; discriminate. }
  assert (G : (0 <= gradCostPerYear trainee)%Q) by (vm_compute; discriminate).
  split; [ exact H | split; [ exact G | ] ].
  exact (shown_debt_is_never_negative community_college freshman trainee H G).
Defined.

(** X9.  A balance that is positive when the career starts is never paid
    off: every career year leaves at least 5 percent of the balance it
    found, because the payment is capped by the balance before the year's
    interest is added.  The running balance of every Career snapshot, and
    the final one, is positive. *)
Theorem career_never_pays_off :
  forall (college : CollegeInput) (profile : StudentProfile) (careerData : CareerData),
    (0 < balanceAtCareerStart college profile careerData)%Q ->
    Forall (fun e => phase (snap e) = Career -> (0 < run_debt e)%Q)
           (Loop.timeline (simulate college profile careerData))
    /\ (0 < Loop.cumulativeDebt (simulate college profile careerData))%Q
    /\ (forall k y s,
           (0 < Loop.cumulativeDebt s)%Q ->
           (Loop.cumulativeDebt s * 0.05
            <= Loop.cumulativeDebt (careerYearBody college profile careerData k y s))%Q).
Proof.
  intros college profile careerData Hstart.
  destruct (career_balance_stays_positive college profile careerData Hstart)
    as [Hall Hend].
  split; [ exact Hall | split; [ exact Hend | ] ].
  intros k y s. apply careerYear_keeps_interest.
Qed.

Lemma career_never_pays_off_witness :
  (0 < balanceAtCareerStart private_college freshman trainee)%Q
  /\ (0 < Loop.cumulativeDebt (simulate private_college freshman trainee))%Q.
Proof.
  assert (H : (0 < balanceAtCareerStart private_college freshman trainee)%Q)
    by (vm_compute; reflexivity).
  split; [ exact H | ].
  exact (proj1 (proj2 (career_never_pays_off private_college freshman trainee H))).
Defined.

(** ** Net worth at the horizon *)

Lemma simulate_timeline_nonempty (college : CollegeInput) (profile : StudentProfile)
      (careerData : CareerData) :
  Loop.timeline (simulate college profile careerData) <> [].
Proof.
  intros H. pose proof (simulate_shape college profile careerData) as Hs.
  cbn [generateLifePath timeline] in Hs. rewrite H in Hs. cbn [map] in Hs.
  unfold timelineShape, trainingShape in Hs.
  change (for_range 1 4) with [1; 2; 3; 4] in Hs. discriminate Hs.
Qed.

(** X10.  [netWorthAt35] is the net worth of the last snapshot, except that
    a last net worth of exactly 0 is replaced by minus the total debt
    (rounded): the source reads [lastYear?.netWorth || -totalDebt]. *)
Theorem netWorthAt35_is_last_net_worth_unless_zero :
  forall (college : CollegeInput) (profile : StudentProfile)
         (careerData : CareerData) (d : LifePathYear),
    let r := generateLifePath college profile careerData in
    Summary.netWorthAt35 (summary r)
    = if netWorth (last (timeline r) d) =? 0
      then Math_round (- totalDebt college profile careerData)%Q
      else netWorth (last (timeline r) d).
Proof.
  intros college profile careerData d. cbv zeta.
  cbn [generateLifePath summary timeline Summary.netWorthAt35].
  destruct (exists_last (simulate_timeline_nonempty college profile careerData))
    as [l [e He]].
  rewrite He. unfold netWorthAtEnd.
  rewrite !map_app. cbn [map]. rewrite !last_last.
  destruct (netWorth (snap e) =? 0); [ reflexivity | ].
  apply Math_round_inject_Z.
Qed.

(** ** In-state test *)

Lemma lower_upper_ascii (c : ascii) : lower_ascii (upper_ascii c) = lower_ascii c.
Proof.
  destruct c as [[] [] [] [] [] [] [] []]; reflexivity.
Qed.

Lemma upper_lower_ascii (c : ascii) : upper_ascii (lower_ascii c) = upper_ascii c.
Proof.
  destruct c as [[] [] [] [] [] [] [] []]; reflexivity.
Qed.

Lemma toLowerCase_toUpperCase (s : string) :
  toLowerCase (toUpperCase s) = toLowerCase s.
Proof.
  induction s as [ | c s IH ]; [ reflexivity | ].
  unfold toLowerCase, toUpperCase in *. cbn [map_string].
  now rewrite lower_upper_ascii, IH.
Qed.

Lemma toUpperCase_toLowerCase (s : string) :
  toUpperCase (toLowerCase s) = toUpperCase s.
Proof.
  induction s as [ | c s IH ]; [ reflexivity | ].
  unfold toLowerCase, toUpperCase in *. cbn [map_string].
  now rewrite upper_lower_ascii, IH.
Qed.

Lemma isInState_lower (college : CollegeInput) (profile : StudentProfile) :
  isInState college profile
  = String.eqb (toLowerCase (homeState profile)) (toLowerCase (state college)).
Proof.
  unfold isInState.
  destruct (String.eqb_spec (toLowerCase (homeState profile))
                            (toLowerCase (state college))) as [H | H].
  - apply String.eqb_eq.
    rewrite <- (toUpperCase_toLowerCase (homeState profile)), H.
    apply toUpperCase_toLowerCase.
  - apply String.eqb_neq. intros E. apply H.
    rewrite <- (toLowerCase_toUpperCase (homeState profile)), E.
    apply toLowerCase_toUpperCase.
Qed.

(** X11.  For state names written in ASCII, the student counts as in-state
    exactly when the home state and the college's state are the same text up
    to the case of the letters.  For a college that reports both tuitions,
    the summary's tuition-only cost is then four years of in-state tuition,
    and four years of out-of-state tuition otherwise; the cost with room and
    board adds four years of room and board (15000 a year when the college
    reports none). *)
Theorem isInState_ignores_case :
  forall (college : CollegeInput) (profile : StudentProfile) (careerData : CareerData)
         (inStateTuition outOfStateTuition : Q),
    isASCII (homeState profile) = true ->
    isASCII (state college) = true ->
    tuitionInState (cost college) = Some inStateTuition ->
    tuitionOutOfState (cost college) = Some outOfStateTuition ->
    let same := String.eqb (toLowerCase (homeState profile))
                           (toLowerCase (state college)) in
    let tuition := if same then inStateTuition else outOfStateTuition in
    let r := generateLifePath college profile careerData in
    (isInState college profile = true
     <-> toLowerCase (homeState profile) = toLowerCase (state college))
    /\ Summary.undergradTuitionOnly (summary r) = Math_round (tuition * 4)%Q
    /\ Summary.undergradWithRoomBoard (summary r)
       = Math_round ((tuition + nullish (roomBoardOnCampus (cost college)) 15000) * 4)%Q.
Proof.
  intros college profile careerData tin tout _ _ Hin Hout. cbv zeta.
  split; [ | split ].
  - rewrite isInState_lower. apply String.eqb_eq.
  - cbn [generateLifePath summary Summary.undergradTuitionOnly].
    unfold undergradCostTuitionOnly, stickerPriceTuitionOnly, getStickerPrice.
    rewrite isInState_lower, Hin, Hout.
    apply Math_round_comp.
    destruct (String.eqb _ _); cbn [nullish nullish_opt]; ring.
  - cbn [generateLifePath summary Summary.undergradWithRoomBoard].
    unfold undergradCostWithRB, stickerPriceWithRB, getStickerPrice.
    rewrite isInState_lower, Hin, Hout.
    apply Math_round_comp.
    destruct (String.eqb _ _); cbn [nullish nullish_opt]; ring.
Qed.

Lemma isInState_ignores_case_witness :
  isASCII (homeState resident) = true
  /\ isASCII (state state_university) = true
  /\ tuitionInState (cost state_university) = Some 8000%Q
  /\ tuitionOutOfState (cost state_university) = Some 24000%Q
  /\ (isInState state_university resident = true
      <-> toLowerCase (homeState resident) = toLowerCase (state state_university))
  /\ Summary.undergradTuitionOnly
       (summary (generateLifePath state_university resident bachelor))
     = Math_round ((if String.eqb (toLowerCase (homeState resident))
                                  (toLowerCase (state state_university))
                    then 8000 else 24000) * 4)%Q.
Proof.
  destruct (isInState_ignores_case state_university resident bachelor 8000%Q 24000%Q
              eq_refl eq_refl eq_refl eq_refl) as [Hiff [Htuition _]].
  repeat (split; [ reflexivity | ]).
  split; [ exact Hiff | exact Htuition ].
Defined.

(** ** Monotony of the salary curve *)

Lemma lerp_mono (x0 y0 x1 y1 x x' : Q) :
  (x0 < x1)%Q -> (y0 <= y1)%Q -> (x <= x')%Q ->
  (lerp x0 y0 x1 y1 x <= lerp x0 y0 x1 y1 x')%Q.
Proof.
  intros Hx Hy Hxx. unfold lerp.
  apply Qplus_le_r.
  rewrite !(Qmult_comm (y1 - y0)).
  apply Qmult_le_compat_r; [ | lra ].
  apply Qmult_le_compat_r; [ lra | ].
  apply Qlt_le_weak, Qinv_lt_0_compat. lra.
Qed.

Lemma lerp_start (x0 y0 x1 y1 : Q) : (lerp x0 y0 x1 y1 x0 == y0)%Q.
Proof.
  unfold lerp. setoid_replace (x0 - x0)%Q with 0%Q by ring.
  unfold Qdiv. ring.
Qed.

Lemma lerp_end (x0 y0 x1 y1 : Q) : (x0 < x1)%Q -> (lerp x0 y0 x1 y1 x1 == y1)%Q.
Proof.
  intros H. unfold lerp. field. lra.
Qed.

Lemma lerp_bounds (x0 y0 x1 y1 x : Q) :
  (x0 < x1)%Q -> (y0 <= y1)%Q -> (x0 <= x <= x1)%Q ->
  (y0 <= lerp x0 y0 x1 y1 x <= y1)%Q.
Proof.
  intros Hx Hy [Hlo Hhi]. split.
  - rewrite <- (lerp_start x0 y0 x1 y1) at 1. now apply lerp_mono.
  - rewrite <- (lerp_end x0 y0 x1 y1 Hx) at 2. now apply lerp_mono.
Qed.

Section CurveMonotone.

Variables low median high : Q.
Hypothesis entry_below_median : (0.9 * low <= median)%Q.
Hypothesis median_below_high : (median <= high)%Q.

Lemma inject_Z_le (a b : Z) : a <= b -> (inject_Z a <= inject_Z b)%Q.
Proof. intros H. now rewrite <- Zle_Qle. Qed.

Lemma salaryCurve_mono (e e' : Z) :
  e <= e' -> (salaryCurve low median high e <= salaryCurve low median high e')%Q.
Proof.
  intros Hee. unfold salaryCurve.
  set (entry := (0.9 * low)%Q).
  set (midpoint := ((entry + median) / 2)%Q).
  set (upper := (median + 0.6 * (high - median))%Q).
  set (top := (upper + 0.5 * (high - upper))%Q).
  assert (Hm : (midpoint == (entry + median) * (1 # 2))%Q)
    by (unfold midpoint; field).
  assert (H1 : (entry <= midpoint)%Q) by (rewrite Hm; unfold entry; lra).
  assert (H2 : (midpoint <= median)%Q) by (rewrite Hm; unfold entry; lra).
  assert (H3 : (median <= upper)%Q) by (unfold upper; lra).
  assert (H4 : (upper <= top)%Q) by (unfold top, upper; lra).
  clear Hm.
  pose proof (inject_Z_le e e' Hee) as Hq.
  assert (B1 : forall x, 0 <= x <= 2 ->
                 (entry <= lerp 0 entry 2 midpoint (inject_Z x) <= midpoint)%Q).
  { intros x Hx. apply lerp_bounds; [ reflexivity | exact H1 | ].
    split; [ apply (inject_Z_le 0) | apply (inject_Z_le x 2) ]; lia. }
  assert (B2 : forall x, 2 <= x <= 5 ->
                 (midpoint <= lerp 2 midpoint 5 median (inject_Z x) <= median)%Q).
  { intros x Hx. apply lerp_bounds; [ reflexivity | exact H2 | ].
    split; [ apply (inject_Z_le 2) | apply (inject_Z_le x 5) ]; lia. }
  assert (B3 : forall x, 5 <= x <= 10 ->
                 (median <= lerp 5 median 10 upper (inject_Z x) <= upper)%Q).
  { intros x Hx. apply lerp_bounds; [ reflexivity | exact H3 | ].
    split; [ apply (inject_Z_le 5) | apply (inject_Z_le x 10) ]; lia. }
  assert (B4 : forall x, 10 <= x <= 20 ->
                 (upper <= lerp 10 upper 20 top (inject_Z x) <= top)%Q).
  { intros x Hx. apply lerp_bounds; [ reflexivity | exact H4 | ].
    split; [ apply (inject_Z_le 10) | apply (inject_Z_le x 20) ]; lia. }
  destruct (Z.leb_spec e 0); [ | destruct (Z.leb_spec e 2);
    [ | destruct (Z.leb_spec e 5); [ | destruct (Z.leb_spec e 10);
    [ | destruct (Z.leb_spec e 20) ] ] ] ];
  (destruct (Z.leb_spec e' 0); [ | destruct (Z.leb_spec e' 2);
    [ | destruct (Z.leb_spec e' 5); [ | destruct (Z.leb_spec e' 10);
    [ | destruct (Z.leb_spec e' 20) ] ] ] ]);
  try lia;
  try (apply lerp_mono; [ reflexivity | assumption | assumption ]);
  try apply Qle_refl;
  repeat match goal with
         | |- context [ lerp 0 entry 2 midpoint (inject_Z ?x) ] =>
             lazymatch goal with
             | _ : (entry <= lerp 0 entry 2 midpoint (inject_Z x) <= midpoint)%Q |- _ => fail
             | _ => pose proof (B1 x ltac:(lia))
             end
         | |- context [ lerp 2 midpoint 5 median (inject_Z ?x) ] =>
             lazymatch goal with
             | _ : (midpoint <= lerp 2 midpoint 5 median (inject_Z x) <= median)%Q |- _ => fail
             | _ => pose proof (B2 x ltac:(lia))
             end
         | |- context [ lerp 5 median 10 upper (inject_Z ?x) ] =>
             lazymatch goal with
             | _ : (median <= lerp 5 median 10 upper (inject_Z x) <= upper)%Q |- _ => fail
             | _ => pose proof (B3 x ltac:(lia))
             end
         | |- context [ lerp 10 upper 20 top (inject_Z ?x) ] =>
             lazymatch goal with
             | _ : (upper <= lerp 10 upper 20 top (inject_Z x) <= top)%Q |- _ => fail
             | _ => pose proof (B4 x ltac:(lia))
             end
         end;
  clear B1 B2 B3 B4; clearbody entry midpoint upper top;
  repeat match goal with
         | H : (_ <= lerp ?a ?b ?c ?d ?x <= _)%Q |- _ =>
             let v := fresh "v" in
             set (v := lerp a b c d x) in *; destruct H
         end;
  lra.
Qed.

Lemma salaryCurve_bounds (e : Z) :
  (0.9 * low <= salaryCurve low median high e <= high)%Q.
Proof.
  split.
  - apply (Qle_trans _ (salaryCurve low median high (Z.min e 0))).
    + unfold salaryCurve at 1.
      destruct (Z.leb_spec (Z.min e 0) 0); [ apply Qle_refl | lia ].
    + apply salaryCurve_mono. lia.
  - apply (Qle_trans _ (salaryCurve low median high (Z.max e 21))).
    + apply salaryCurve_mono. lia.
    + unfold salaryCurve.
      destruct (Z.leb_spec (Z.max e 21) 0); [ lia | ].
      destruct (Z.leb_spec (Z.max e 21) 2); [ lia | ].
      destruct (Z.leb_spec (Z.max e 21) 5); [ lia | ].
      destruct (Z.leb_spec (Z.max e 21) 10); [ lia | ].
      destruct (Z.leb_spec (Z.max e 21) 20); [ lia | ].
      lra.
Qed.

End CurveMonotone.

(** X12.  When 0.9 x low <= median <= high, the salary never decreases from
    one career year to a later one, and it stays between the entry salary
    round(0.9 x low) and round(high). *)
Theorem salary_never_decreases :
  forall (careerData : CareerData) (y y' : Z),
    (0.9 * salaryLow careerData <= medianSalary careerData)%Q ->
    (medianSalary careerData <= salaryHigh careerData)%Q ->
    y <= y' ->
    currentSalary careerData y <= currentSalary careerData y'
    /\ Math_round (0.9 * salaryLow careerData)%Q <= currentSalary careerData y
    /\ currentSalary careerData y <= Math_round (salaryHigh careerData).
Proof.
  intros careerData y y' Hlow Hhigh Hyy.
  rewrite !currentSalary_curve.
  split; [ | split ]; apply Math_round_mono.
  - apply salaryCurve_mono; [ exact Hlow | exact Hhigh | lia ].
  - now apply salaryCurve_bounds.
  - now apply salaryCurve_bounds.
Qed.

Lemma salary_never_decreases_witness :
  currentSalary trainee 3 <= currentSalary trainee 9
  /\ Math_round (0.9 * salaryLow trainee)%Q <= currentSalary trainee 3
  /\ currentSalary trainee 3 <= Math_round (salaryHigh trainee).
Proof.
  apply (salary_never_decreases trainee 3 9).
  - vm_compute. discriminate.
  - vm_compute. discriminate.
  - lia.
Defined.

(** ** Classifiers *)

Lemma isSpace_lower_ascii (c : ascii) : isSpace (lower_ascii c) = isSpace c.
Proof.
  destruct c as [[] [] [] [] [] [] [] []]; reflexivity.
Qed.

Lemma lower_lower_ascii (c : ascii) : lower_ascii (lower_ascii c) = lower_ascii c.
Proof.
  destruct c as [[] [] [] [] [] [] [] []]; reflexivity.
Qed.

Lemma toLowerCase_idem (s : string) : toLowerCase (toLowerCase s) = toLowerCase s.
Proof.
  induction s as [ | c s IH ]; [ reflexivity | ].
  unfold toLowerCase in *. cbn [map_string].
  now rewrite lower_lower_ascii, IH.
Qed.

Lemma toLowerCase_trimStart (s : string) :
  toLowerCase (trimStart s) = trimStart (toLowerCase s).
Proof.
  induction s as [ | c s IH ]; [ reflexivity | ].
  unfold toLowerCase in *. cbn [trimStart map_string].
  rewrite isSpace_lower_ascii. destruct (isSpace c); [ exact IH | reflexivity ].
Qed.

Lemma toLowerCase_trimEnd (s : string) :
  toLowerCase (trimEnd s) = trimEnd (toLowerCase s).
Proof.
  induction s as [ | c s IH ]; [ reflexivity | ].
  unfold toLowerCase in *. cbn [trimEnd map_string].
  rewrite <- IH, isSpace_lower_ascii.
  destruct (trimEnd s) as [ | c' r ]; cbn [map_string].
  - destruct (isSpace c); reflexivity.
  - reflexivity.
Qed.

Lemma toLowerCase_trim (s : string) : toLowerCase (trim s) = trim (toLowerCase s).
Proof.
  unfold trim. now rewrite toLowerCase_trimEnd, toLowerCase_trimStart.
Qed.

Lemma trimEnd_idem (s : string) : trimEnd (trimEnd s) = trimEnd s.
Proof.
  induction s as [ | c s IH ]; [ reflexivity | ].
  cbn [trimEnd]. destruct (trimEnd s) as [ | c' r ] eqn:E.
  - destruct (isSpace c) eqn:Ec; [ reflexivity | ].
    cbn [trimEnd]. now rewrite Ec.
  - cbn [trimEnd] in *. now rewrite IH.
Qed.

Lemma trimStart_no_leading (s : string) : no_leading_space (trimStart s).
Proof.
  induction s as [ | c s IH ]; [ exact I | ].
  cbn [trimStart]. destruct (isSpace c) eqn:E; [ exact IH | exact E ].
Qed.

Lemma trimStart_fix (s : string) : no_leading_space s -> trimStart s = s.
Proof.
  destruct s as [ | c s ]; [ reflexivity | ].
  cbn [no_leading_space trimStart]. now intros ->.
Qed.

Lemma trimEnd_no_leading (s : string) :
  no_leading_space s -> no_leading_space (trimEnd s).
Proof.
  destruct s as [ | c s ]; [ intros _; exact I | ].
  cbn [no_leading_space trimEnd]. intros Hc.
  destruct (trimEnd s); [ rewrite Hc | ]; exact Hc.
Qed.

Lemma trim_idem (s : string) : trim (trim s) = trim s.
Proof.
  unfold trim.
  rewrite (trimStart_fix (trimEnd (trimStart s))).
  - apply trimEnd_idem.
  - apply trimEnd_no_leading, trimStart_no_leading.
Qed.

Lemma trimStart_spaces (ws s : string) :
  allSpaces ws = true -> trimStart (ws ++ s) = trimStart s.
Proof.
  induction ws as [ | c ws IH ]; [ reflexivity | ].
  cbn [allSpaces String.append trimStart]. intros H.
  apply andb_prop in H. destruct H as [Hc Hws]. now rewrite Hc, IH.
Qed.

Lemma trimEnd_spaces (ws : string) : allSpaces ws = true -> trimEnd ws = EmptyString.
Proof.
  induction ws as [ | c ws IH ]; [ reflexivity | ].
  cbn [allSpaces trimEnd]. intros H.
  apply andb_prop in H. destruct H as [Hc Hws]. now rewrite IH, Hc.
Qed.

Lemma trimEnd_app_spaces (s ws : string) :
  allSpaces ws = true -> trimEnd (s ++ ws) = trimEnd s.
Proof.
  intros Hws. induction s as [ | c s IH ].
  - cbn [String.append]. now rewrite trimEnd_spaces.
  - cbn [String.append trimEnd]. now rewrite IH.
Qed.

Lemma trimStart_all_spaces (ws : string) :
  allSpaces ws = true -> trimStart ws = EmptyString.
Proof.
  induction ws as [ | c ws IH ]; [ reflexivity | ].
  cbn [allSpaces trimStart]. intros H.
  apply andb_prop in H. destruct H as [Hc Hws]. now rewrite Hc, IH.
Qed.

Lemma trim_app_spaces (s ws : string) :
  allSpaces ws = true -> trim (s ++ ws) = trim s.
Proof.
  intros Hws. unfold trim. induction s as [ | c s IH ].
  - cbn [String.append]. now rewrite trimStart_all_spaces.
  - cbn [String.append trimStart]. destruct (isSpace c); [ exact IH | ].
    exact (trimEnd_app_spaces (String c s) ws Hws).
Qed.

Lemma trim_padded (before after s : string) :
  allSpaces before = true -> allSpaces after = true ->
  trim (before ++ s ++ after) = trim s.
Proof.
  intros Hb Ha. unfold trim at 1. rewrite trimStart_spaces by exact Hb.
  fold (trim (s ++ after)). now apply trim_app_spaces.
Qed.

Lemma toLowerCase_app (a b : string) :
  toLowerCase (a ++ b) = (toLowerCase a ++ toLowerCase b)%string.
Proof.
  induction a as [ | c a IH ]; [ reflexivity | ].
  unfold toLowerCase in *. cbn [String.append map_string]. now rewrite IH.
Qed.

Lemma allSpaces_toLowerCase (s : string) : allSpaces (toLowerCase s) = allSpaces s.
Proof.
  induction s as [ | c s IH ]; [ reflexivity | ].
  unfold toLowerCase in *. cbn [allSpaces map_string].
  now rewrite isSpace_lower_ascii, IH.
Qed.

Lemma firstMatch_category (rules : list (list string * string))
      (lower category : string) :
  firstMatch rules lower = Some category -> In category (map snd rules).
Proof.
  induction rules as [ | [alts cat] rest IH ]; cbn [firstMatch map snd In].
  - discriminate.
  - destruct (Regex.test alts lower).
    + intros [= ->]. now left.
    + intros H. right. now apply IH.
Qed.

Section Classify.

Variable has : string -> bool.
Variable rules : list (list string * string).
Variable fallback : string.

(** Every tag a rule can give, and the fallback, is a key of the table and
    is written in lower case without surrounding white space. *)
Hypothesis tags_known :
  forallb (fun tag => has tag && String.eqb (trim (toLowerCase tag)) tag)
          (fallback :: map snd rules) = true.

Lemma classify_tag (text : string) :
  has (classify has rules fallback text) = true
  /\ trim (toLowerCase (classify has rules fallback text))
     = classify has rules fallback text.
Proof.
  unfold classify. cbv zeta.
  destruct (has (trim (toLowerCase text))) eqn:E.
  - split; [ exact E | ].
    now rewrite toLowerCase_trim, toLowerCase_idem, trim_idem.
  - rewrite forallb_forall in tags_known.
    assert (Hin : In (match firstMatch rules (trim (toLowerCase text)) with
                      | Some category => category
                      | None => fallback
                      end) (fallback :: map snd rules)).
    { destruct (firstMatch rules (trim (toLowerCase text))) eqn:F.
      - right. eapply firstMatch_category. exact F.
      - now left. }
    apply tags_known in Hin. apply andb_prop in Hin. destruct Hin as [H1 H2].
    split; [ exact H1 | now apply String.eqb_eq ].
Qed.

Lemma classify_idem (text : string) :
  classify has rules fallback (classify has rules fallback text)
  = classify has rules fallback text.
Proof.
  destruct (classify_tag text) as [Hhas Hnorm].
  unfold classify at 1. cbv zeta. now rewrite Hnorm, Hhas.
Qed.

End Classify.

Lemma classify_insensitive (has : string -> bool) (rules : list (list string * string))
      (fallback text before after : string) :
  allSpaces before = true -> allSpaces after = true ->
  classify has rules fallback (before ++ toUpperCase text ++ after)
  = classify has rules fallback text.
Proof.
  intros Hb Ha. unfold classify. cbv zeta.
  rewrite !toLowerCase_app, toLowerCase_toUpperCase.
  rewrite trim_padded by (now rewrite allSpaces_toLowerCase).
  reflexivity.
Qed.

Lemma career_tags_known :
  forallb (fun tag => CAREER_PATH_CONFIG_has tag
                      && String.eqb (trim (toLowerCase tag)) tag)
          ("not_sure"%string :: map snd patterns) = true.
Proof. vm_compute. reflexivity. Qed.

Lemma major_tags_known :
  forallb (fun tag => MAJOR_EARNINGS_MULTIPLIERS_has tag
                      && String.eqb (trim (toLowerCase tag)) tag)
          ("undecided"%string :: map snd major_patterns) = true.
Proof. vm_compute. reflexivity. Qed.

Lemma career_tags_own :
  forallb (fun tag => existsb (String.eqb tag) CAREER_PATH_CONFIG_keys)
          ("not_sure"%string :: map snd patterns) = true.
Proof. vm_compute. reflexivity. Qed.

Lemma major_tags_own :
  forallb (fun tag => existsb (String.eqb tag) (map fst MAJOR_EARNINGS_MULTIPLIERS))
          ("undecided"%string :: map snd major_patterns) = true.
Proof. vm_compute. reflexivity. Qed.

Lemma existsb_eqb_In (key : string) (keys : list string) :
  existsb (String.eqb key) keys = true <-> In key keys.
Proof.
  rewrite existsb_exists. split.
  - intros [k [Hin E]]. apply String.eqb_eq in E. now subst.
  - intros Hin. exists key. split; [ exact Hin | apply String.eqb_refl ].
Qed.

Lemma existsb_map_fst (key : string) (l : list (string * string)) :
  existsb (String.eqb key) (map fst l)
  = existsb (fun entry => String.eqb key (fst entry)) l.
Proof.
  induction l as [ | e l IH ]; [ reflexivity | ].
  cbn [map existsb]. now rewrite IH.
Qed.

Lemma classify_ext (has has' : string -> bool) (rules : list (list string * string))
      (fallback text : string) :
  (forall key, has key = has' key) ->
  classify has rules fallback text = classify has' rules fallback text.
Proof.
  intros H. unfold classify. cbv zeta. now rewrite H.
Qed.

Lemma inherited_names_are_no_keys :
  forallb (fun key => negb (existsb (String.eqb key) CAREER_PATH_CONFIG_keys)
                      && negb (existsb (String.eqb key)
                                       (map fst MAJOR_EARNINGS_MULTIPLIERS)))
          Object_prototype_keys = true.
Proof. vm_compute. reflexivity. Qed.

(** A classifier over a table with own keys [keys]: unless the text itself
    is an inherited name, the tag is an own key. *)
Lemma classify_own_key (keys : list string) (rules : list (list string * string))
      (fallback text : string) :
  forallb (fun tag => existsb (String.eqb tag) keys) (fallback :: map snd rules) = true ->
  let lower := trim (toLowerCase text) in
  let tag := classify (fun key => existsb (String.eqb key) keys || inherited key)
                      rules fallback text in
  (inherited lower = false -> In tag keys)
  /\ (inherited lower = true -> tag = lower).
Proof.
  intros Hown. cbv zeta. unfold classify. cbv zeta.
  rewrite forallb_forall in Hown.
  destruct (existsb (String.eqb (trim (toLowerCase text))) keys) eqn:Ekey;
    destruct (inherited (trim (toLowerCase text))) eqn:Einh; cbn [orb];
    (split; [ intros Hf | intros Ht ]); try discriminate; try reflexivity.
  - now apply existsb_eqb_In.
  - apply existsb_eqb_In. apply Hown.
    destruct (firstMatch rules (trim (toLowerCase text))) eqn:F.
    + right. eapply firstMatch_category. exact F.
    + now left.
Qed.

(** X13.  For every text whose trimmed lower-case form is not a property
    name that every object inherits ("constructor", "__proto__", ...), both
    classifiers return a tag that is an own key of their table
    ([CAREER_PATH_CONFIG], [MAJOR_EARNINGS_MULTIPLIERS]).  For an inherited
    name they return that name itself, which is a key of neither table. *)
Theorem classifiers_return_known_tags :
  forall text : string,
    let lower := trim (toLowerCase text) in
    (inherited lower = false ->
     In (matchCareerFromText text) CAREER_PATH_CONFIG_keys
     /\ In (matchMajorFromText text) (map fst MAJOR_EARNINGS_MULTIPLIERS))
    /\ (inherited lower = true ->
        matchCareerFromText text = lower
        /\ matchMajorFromText text = lower
        /\ ~ In lower CAREER_PATH_CONFIG_keys
        /\ ~ In lower (map fst MAJOR_EARNINGS_MULTIPLIERS)).
Proof.
  intros text. cbv zeta.
  pose proof (classify_own_key CAREER_PATH_CONFIG_keys patterns "not_sure" text
                career_tags_own) as [Hc1 Hc2].
  pose proof (classify_own_key (map fst MAJOR_EARNINGS_MULTIPLIERS) major_patterns
                "undecided" text major_tags_own) as [Hm1 Hm2].
  rewrite (classify_ext _ MAJOR_EARNINGS_MULTIPLIERS_has) in Hm1, Hm2
    by (intros key; unfold MAJOR_EARNINGS_MULTIPLIERS_has; now rewrite existsb_map_fst).
  split.
  - intros Hf. split; [ exact (Hc1 Hf) | exact (Hm1 Hf) ].
  - intros Ht. split; [ exact (Hc2 Ht) | split; [ exact (Hm2 Ht) | ] ].
    apply existsb_eqb_In in Ht.
    pose proof inherited_names_are_no_keys as Hno.
    rewrite forallb_forall in Hno. apply Hno in Ht.
    apply andb_prop in Ht. destruct Ht as [Hk Hmaj].
    apply negb_true_iff in Hk, Hmaj.
    split; intros Hin; apply existsb_eqb_In in Hin; congruence.
Qed.

Lemma classifiers_return_known_tags_witness :
  (inherited (trim (toLowerCase "Marine biologist")) = false
   /\ In (matchCareerFromText "Marine biologist") CAREER_PATH_CONFIG_keys
   /\ In (matchMajorFromText "Marine biologist") (map fst MAJOR_EARNINGS_MULTIPLIERS))
  /\ (inherited (trim (toLowerCase " Constructor")) = true
      /\ matchCareerFromText " Constructor" = "constructor"%string
      /\ matchMajorFromText " Constructor" = "constructor"%string
      /\ ~ In "constructor"%string CAREER_PATH_CONFIG_keys
      /\ ~ In "constructor"%string (map fst MAJOR_EARNINGS_MULTIPLIERS)).
Proof.
  split.
  - destruct (classifiers_return_known_tags "Marine biologist"%string) as [H _].
    split; [ reflexivity | exact (H eq_refl) ].
  - destruct (classifiers_return_known_tags " Constructor"%string) as [_ H].
    split; [ reflexivity | exact (H eq_refl) ].
Defined.

(** X14.  Classifying a tag that a classifier returned gives the same tag
    back (the exact-key test comes first). *)
Theorem classifiers_are_idempotent :
  forall text : string,
    matchCareerFromText (matchCareerFromText text) = matchCareerFromText text
    /\ matchMajorFromText (matchMajorFromText text) = matchMajorFromText text.
Proof.
  intros text. split.
  - exact (classify_idem CAREER_PATH_CONFIG_has patterns "not_sure"
             career_tags_known text).
  - exact (classify_idem MAJOR_EARNINGS_MULTIPLIERS_has major_patterns
             "undecided" major_tags_known text).
Qed.

(** X15.  Both classifiers ignore the case of ASCII letters and white space
    around the text. *)
Theorem classifiers_ignore_case_and_padding :
  forall text before after : string,
    allSpaces before = true -> allSpaces after = true ->
    matchCareerFromText (before ++ toUpperCase text ++ after)
    = matchCareerFromText text
    /\ matchMajorFromText (before ++ toUpperCase text ++ after)
       = matchMajorFromText text.
Proof.
  intros text before after Hb Ha. split.
  - exact (classify_insensitive CAREER_PATH_CONFIG_has patterns "not_sure"
             text before after Hb Ha).
  - exact (classify_insensitive MAJOR_EARNINGS_MULTIPLIERS_has major_patterns
             "undecided" text before after Hb Ha).
Qed.

Lemma classifiers_ignore_case_and_padding_witness :
  matchCareerFromText ("  " ++ toUpperCase "brain surgeon" ++ " ")
  = matchCareerFromText "brain surgeon"
  /\ matchMajorFromText ("  " ++ toUpperCase "brain surgeon" ++ " ")
     = matchMajorFromText "brain surgeon".
Proof.
  apply (classifiers_ignore_case_and_padding "brain surgeon" "  " " ");
    reflexivity.
Defined.

(** ** Validated career data *)

Lemma orElse_nonzero (a : option Q) (b : Q) : ~ (b == 0)%Q -> ~ (orElse a b == 0)%Q.
Proof.
  intros Hb. unfold orElse, truthy. destruct a as [v | ]; [ | exact Hb ].
  destruct (Qeq_bool v 0) eqn:E; cbn [negb]; [ exact Hb | ].
  intros H. apply Qeq_bool_iff in H. congruence.
Qed.

Lemma orElse_absent (a : option Q) (b : Q) : absent a -> orElse a b = b.
Proof.
  unfold absent, orElse, truthy. destruct a as [v | ]; [ | reflexivity ].
  intros H. apply Qeq_bool_iff in H. now rewrite H.
Qed.

Lemma orElse_present (v b : Q) : ~ (v == 0)%Q -> orElse (Some v) b = v.
Proof.
  intros H. unfold orElse, truthy.
  destruct (Qeq_bool v 0) eqn:E; [ | reflexivity ].
  apply Qeq_bool_iff in E. contradiction.
Qed.

(** X16.  Whatever the provider sends, the validated median, low and high
    salaries are never zero: a missing, null or zero field is replaced by
    its default. *)
Theorem validated_salaries_are_never_zero :
  forall data : RawCareerData,
    ~ (medianSalary (validatedData data) == 0)%Q
    /\ ~ (salaryLow (validatedData data) == 0)%Q
    /\ ~ (salaryHigh (validatedData data) == 0)%Q.
Proof.
  intros data. cbn [validatedData medianSalary salaryLow salaryHigh].
  repeat split; repeat apply orElse_nonzero; discriminate.
Qed.

(** X17.  When the provider fails, or answers with a positive median and no
    percentiles, the salaries of the simulation never decrease from one
    career year to a later one: the defaults 0.7 x median and 1.4 x median
    keep the band ordered. *)
Theorem default_band_gives_monotone_salary :
  forall (response : option RawCareerData) (y y' : Z),
    match response with
    | Some data =>
        (exists m, raw_medianSalary data = Some m /\ (0 < m)%Q)
        /\ absent (raw_salaryLow data) /\ absent (raw_salaryHigh data)
    | None => True
    end ->
    y <= y' ->
    currentSalary (getCareerDataFromAI response) y
    <= currentSalary (getCareerDataFromAI response) y'.
Proof.
  intros response y y' Hresp Hyy.
  rewrite !currentSalary_curve. apply Math_round_mono.
  destruct response as [data | ]; cbn [getCareerDataFromAI].
  - destruct Hresp as [[m [Hm Hpos]] [Hlow Hhigh]].
    assert (Hm0 : ~ (m == 0)%Q) by lra.
    assert (H7 : ~ (m * 0.7 == 0)%Q) by lra.
    assert (H14 : ~ (m * 1.4 == 0)%Q) by lra.
    cbn [validatedData medianSalary salaryLow salaryHigh].
    unfold scaledMedian. rewrite Hm.
    rewrite (orElse_absent _ _ Hlow), (orElse_absent _ _ Hhigh).
    rewrite !orElse_present by assumption.
    apply salaryCurve_mono; [ lra | lra | lia ].
  - apply salaryCurve_mono; [ | | lia ];
      cbn [fallbackCareerData medianSalary salaryLow salaryHigh]; lra.
Qed.

Lemma default_band_gives_monotone_salary_witness :
  currentSalary (getCareerDataFromAI (Some median_only)) 2
  <= currentSalary (getCareerDataFromAI (Some median_only)) 7.
Proof.
  apply (default_band_gives_monotone_salary (Some median_only) 2 7).
  - split; [ exists 80000%Q; split; [ reflexivity | reflexivity ] | ].
    split; exact I.
  - lia.
Defined.

(** ** Transfer paths *)

Section TransferPaths.

Variable request : Alternatives.AlternativeRequest.
Variable ccRows : list Alternatives.CommunityCollege.

Lemma transferPath_balanced (text : string) (cc : Alternatives.CommunityCollege)
      (p : Q) (target : string) (netPrice : Q) :
  Alternatives.balanced netPrice (Alternatives.transferPath text cc p target netPrice).
Proof.
  unfold Alternatives.balanced, Alternatives.transferPath.
  cbn [Alternatives.totalCost Alternatives.savings Alternatives.total
       Alternatives.years1_2 Alternatives.years3_4].
  split; ring.
Qed.

Lemma directPath_balanced (target : string) (netPrice : Q) :
  Alternatives.balanced netPrice (Alternatives.directPath target netPrice).
Proof.
  unfold Alternatives.balanced, Alternatives.directPath.
  cbn [Alternatives.totalCost Alternatives.savings Alternatives.total
       Alternatives.years1_2 Alternatives.years3_4].
  split; ring.
Qed.

Lemma alternatives_balanced (alternatives : list Alternatives.AlternativePath)
      (available : list Alternatives.CommunityCollege) :
  Alternatives.POST request ccRows = Alternatives.Success alternatives available ->
  Forall (Alternatives.balanced (Alternatives.netPrice request)) alternatives.
Proof.
  unfold Alternatives.POST. destruct (_ || _); [ discriminate | ].
  intros [= <- _].
  apply (for_loop_invariant
           (Forall (Alternatives.balanced (Alternatives.netPrice request)))).
  - intros i st Hst. unfold Alternatives.morePaths.
    destruct (nth_error ccRows (Z.to_nat i)) as [cc | ]; [ | exact Hst ].
    destruct (Alternatives.priced cc); [ | exact Hst ].
    apply Forall_app. split; [ exact Hst | ].
    constructor; [ apply transferPath_balanced | constructor ].
  - unfold Alternatives.cheapestPath.
    assert (H0 : Forall (Alternatives.balanced (Alternatives.netPrice request))
                        [Alternatives.directPath (Alternatives.collegeName request)
                                                 (Alternatives.netPrice request)])
      by (constructor; [ apply directPath_balanced | constructor ]).
    destruct ccRows as [ | cheapest rest ]; [ exact H0 | ].
    destruct (Alternatives.priced cheapest); [ | exact H0 ].
    apply Forall_app. split; [ exact H0 | ].
    constructor; [ apply transferPath_balanced | constructor ].
Qed.

End TransferPaths.

(** X18.  In every answer of the transfer-path route, each alternative's
    total cost plus its savings is four years at the target school's net
    price, and its two two-year halves add up to its total cost. *)
Theorem alternatives_add_up :
  forall (request : Alternatives.AlternativeRequest)
         (ccRows : list Alternatives.CommunityCollege)
         (alternatives : list Alternatives.AlternativePath)
         (available : list Alternatives.CommunityCollege),
    Alternatives.POST request ccRows = Alternatives.Success alternatives available ->
    Forall (Alternatives.balanced (Alternatives.netPrice request)) alternatives.
Proof.
  intros request ccRows alternatives available H.
  exact (alternatives_balanced request ccRows alternatives available H).
Qed.

Lemma alternatives_add_up_witness :
  exists alternatives available,
    Alternatives.POST Alternatives.sample_request Alternatives.sample_rows
    = Alternatives.Success alternatives available
    /\ Forall (Alternatives.balanced 18000%Q) alternatives.
Proof.
  eexists. eexists. split.
  - reflexivity.
  - exact (alternatives_add_up Alternatives.sample_request Alternatives.sample_rows
             _ _ eq_refl).
Defined.

Lemma priced_nonzero (cc : Alternatives.CommunityCollege) (p : Q) :
  Alternatives.priced cc = Some p -> ~ (p == 0)%Q.
Proof.
  unfold Alternatives.priced, truthy.
  destruct (Alternatives.avgNetPrice cc) as [q | ]; [ | discriminate ].
  destruct (Qeq_bool q 0) eqn:E; cbn [negb]; [ discriminate | ].
  intros [= <-] H. apply Qeq_bool_iff in H. congruence.
Qed.

Lemma transferPath_transfers (text : string) (cc : Alternatives.CommunityCollege)
      (p : Q) (target : string) (netPrice : Q) :
  Alternatives.priced cc = Some p ->
  transfers_to_priced netPrice (Alternatives.transferPath text cc p target netPrice).
Proof.
  intros Hp. split; [ reflexivity | ].
  exists cc, p. repeat split.
  - exact Hp.
  - exact (priced_nonzero cc p Hp).
  - cbn [Alternatives.transferPath Alternatives.savings]. ring.
Qed.

Lemma more_range (n : nat) :
  for_range 1 (Z.min 3 (Z.of_nat n) - 1)
  = match n with
    | O | S O => []
    | S (S O) => [1]
    | _ => [1; 2]
    end.
Proof.
  destruct n as [ | [ | [ | n ] ] ].
  - reflexivity.
  - reflexivity.
  - reflexivity.
  - replace (Z.min 3 (Z.of_nat (S (S (S n)))) - 1) with 2 by lia. reflexivity.
Qed.

(** X19.  The answer lists the direct path first, then one 2+2 path for each
    of the first three community colleges whose net price is present and not
    zero, in the order of the rows: a college with a price of 0 or without a
    price is skipped, and rows after the third are never offered.  Each 2+2
    path saves twice the difference between the target's price and the
    community college's. *)
Theorem transfer_paths_offered :
  forall (request : Alternatives.AlternativeRequest)
         (ccRows : list Alternatives.CommunityCollege)
         (alternatives : list Alternatives.AlternativePath)
         (available : list Alternatives.CommunityCollege),
    Alternatives.POST request ccRows = Alternatives.Success alternatives available ->
    available = ccRows
    /\ exists rest,
         alternatives
         = Alternatives.directPath (Alternatives.collegeName request)
                                   (Alternatives.netPrice request) :: rest
         /\ map Alternatives.communityCollege rest
            = map Some (Alternatives.pricedOnes (firstn 3 ccRows))
         /\ Forall (transfers_to_priced (Alternatives.netPrice request)) rest.
Proof.
  intros request ccRows alternatives available.
  unfold Alternatives.POST. destruct (_ || _); [ discriminate | ].
  intros [= <- <-]. split; [ reflexivity | ].
  unfold for_loop. rewrite more_range.
  destruct ccRows as [ | a [ | b [ | c rows ] ] ];
    cbn [List.length fold_left]; unfold Alternatives.cheapestPath, Alternatives.morePaths;
    change (Z.to_nat 1) with 1%nat; change (Z.to_nat 2) with 2%nat;
    cbn [nth_error firstn Alternatives.pricedOnes filter];
    repeat match goal with
           | |- context [ Alternatives.priced ?x ] =>
               let E := fresh "E" in
               destruct (Alternatives.priced x) eqn:E
           end;
    cbn [app];
    eexists; (split; [ reflexivity | ]);
    (split; [ reflexivity | ]);
    repeat (constructor; [ now apply transferPath_transfers | ]);
    constructor.
Qed.

Lemma transfer_paths_offered_witness :
  exists rest,
    Alternatives.POST Alternatives.sample_request Alternatives.sample_rows
    = Alternatives.Success
        (Alternatives.directPath "State University" 18000%Q :: rest)
        Alternatives.sample_rows
    /\ map (fun a => option_map Alternatives.id (Alternatives.communityCollege a)) rest
       = [Some 11; Some 13].
Proof.
  destruct (transfer_paths_offered Alternatives.sample_request Alternatives.sample_rows
              _ _ eq_refl) as [_ [rest [Halts [Hcc _]]]].
  exists rest. split.
  - unfold Alternatives.POST at 1. cbn [Alternatives.falsyId Alternatives.falsyText
      Alternatives.collegeId Alternatives.state Alternatives.sample_request
      Z.eqb String.eqb orb].
    change (Alternatives.POST Alternatives.sample_request Alternatives.sample_rows
            = Alternatives.Success
                (Alternatives.directPath "State University" 18000%Q :: rest)
                Alternatives.sample_rows).
    pose proof Halts as H. unfold Alternatives.POST.
    cbn [Alternatives.falsyId Alternatives.falsyText
      Alternatives.collegeId Alternatives.state Alternatives.sample_request
      Z.eqb String.eqb orb]. now rewrite H.
  - rewrite <- (map_map Alternatives.communityCollege (option_map Alternatives.id)).
    rewrite Hcc. reflexivity.
Defined.

(** ** Loan payments *)

Section Annuity.

Variables principal rate : Q.
Hypothesis rate_positive : (0 < rate)%Q.

Lemma growth_succ (k : nat) : (growth rate (S k) == growth rate k * (1 + rate))%Q.
Proof.
  unfold growth. rewrite Nat2Z.inj_succ. unfold Z.succ.
  rewrite Qpower_plus by lra. reflexivity.
Qed.

Lemma growth_above_one (k : nat) : (1 <= growth rate k)%Q.
Proof.
  induction k as [ | k IH ].
  - unfold growth. cbn. apply Qle_refl.
  - rewrite growth_succ. nra.
Qed.

Lemma growth_grows (k : nat) : (1 < growth rate (S k))%Q.
Proof.
  rewrite growth_succ. pose proof (growth_above_one k). nra.
Qed.

Lemma outstanding_closed (payment : Q) (k : nat) :
  (outstanding principal rate payment k
   == principal * growth rate k - payment * (growth rate k - 1) / rate)%Q.
Proof.
  induction k as [ | k IH ].
  - unfold growth. cbn [outstanding Z.of_nat Qpower]. field. lra.
  - cbn [outstanding]. rewrite IH, growth_succ. field. lra.
Qed.

End Annuity.

Lemma Qeq_bool_false (x y : Q) : ~ (x == y)%Q -> Qeq_bool x y = false.
Proof.
  intros H. destruct (Qeq_bool x y) eqn:E; [ | reflexivity ].
  apply Qeq_bool_iff in E. contradiction.
Qed.

Lemma Qle_bool_false (x y : Q) : (y < x)%Q -> Qle_bool x y = false.
Proof.
  intros H. destruct (Qle_bool x y) eqn:E; [ | reflexivity ].
  apply Qle_bool_iff in E. lra.
Qed.

Lemma monthly_rate_positive (annualRate : Q) :
  (0 < annualRate)%Q -> (0 < annualRate / 12)%Q.
Proof.
  intros H. apply Qlt_shift_div_l; [ reflexivity | lra ].
Qed.

Lemma annuity_amortizes (principal annualRate : Q) (years : Z) :
  (0 < principal)%Q -> (0 < annualRate)%Q -> 0 < years ->
  exists payment,
    annuity principal annualRate years = Some payment
    /\ (principal * (annualRate / 12) < payment)%Q
    /\ (outstanding principal (annualRate / 12) payment (Z.to_nat (years * 12)) == 0)%Q.
Proof.
  intros HP Hrate Hyears.
  pose proof (monthly_rate_positive annualRate Hrate) as Hr.
  set (r := (annualRate / 12)%Q) in *.
  destruct (Z.to_nat (years * 12)) as [ | N ] eqn:EN; [ lia | ].
  assert (Hn : years * 12 = Z.of_nat (S N)) by lia.
  pose proof (growth_grows r Hr N) as Hg.
  unfold annuity, Math_pow, divide. cbv zeta. fold r. rewrite Hn.
  rewrite (Qeq_bool_false (1 + r) 0) by lra. cbn [andb].
  fold (growth r (S N)).
  set (g := growth r (S N)) in *.
  rewrite (Qeq_bool_false (g - 1) 0) by lra.
  eexists. split; [ reflexivity | ]. split.
  - assert (Hq : (0 < principal * r / (g - 1))%Q).
    { apply Qlt_shift_div_l; [ lra | nra ]. }
    assert (Heq : (principal * r * g / (g - 1)
                   == principal * r + principal * r / (g - 1))%Q)
      by (field; lra).
    rewrite Heq. lra.
  - rewrite (outstanding_closed principal r Hr). fold g. field. split; lra.
Qed.

(** X20.  For a positive principal, a positive annual rate and a whole
    number of years, the monthly payment of the outcomes route is the
    annuity that repays the loan exactly: paying it every month, after that
    month's interest is added, leaves nothing owed after the last month, and
    it exceeds one month's interest on the principal.  The page shows the
    same payment rounded to the whole unit. *)
Theorem monthly_payment_amortizes_the_loan :
  forall (principal annualRate : Q) (years : Z),
    (0 < principal)%Q -> (0 < annualRate)%Q -> 0 < years ->
    exists payment,
      Outcomes.calculateMonthlyPayment principal annualRate years = Some payment
      /\ Page.calculateMonthlyPayment principal annualRate years
         = Some (Math_round payment)
      /\ (principal * (annualRate / 12) < payment)%Q
      /\ (outstanding principal (annualRate / 12) payment (Z.to_nat (years * 12))
          == 0)%Q.
Proof.
  intros principal annualRate years HP Hrate Hyears.
  destruct (annuity_amortizes principal annualRate years HP Hrate Hyears)
    as [payment [Ha [Hint Hout]]].
  exists payment.
  unfold Outcomes.calculateMonthlyPayment, Page.calculateMonthlyPayment.
  rewrite (Qle_bool_false principal 0 HP), Ha.
  repeat split; assumption.
Qed.

Lemma monthly_payment_amortizes_the_loan_witness :
  exists payment,
    Outcomes.calculateMonthlyPayment 40000 0.075 10 = Some payment
    /\ Page.calculateMonthlyPayment 40000 0.075 10 = Some (Math_round payment)
    /\ (40000 * (0.075 / 12) < payment)%Q
    /\ (outstanding 40000 (0.075 / 12) payment (Z.to_nat (10 * 12)) == 0)%Q.
Proof.
  apply (monthly_payment_amortizes_the_loan 40000 0.075 10).
  - reflexivity.
  - reflexivity.
  - reflexivity.
Defined.

(** X21.  A principal that is zero or negative gives a monthly payment of 0
    in both routes, and the page's total interest is then minus the
    principal. *)
Theorem non_positive_principal_pays_nothing :
  forall (principal annualRate : Q) (years : Z),
    (principal <= 0)%Q ->
    Outcomes.calculateMonthlyPayment principal annualRate years = Some 0%Q
    /\ Page.calculateMonthlyPayment principal annualRate years = Some 0
    /\ exists interest,
         Page.calculateTotalInterest principal annualRate years = Some interest
         /\ (interest == - principal)%Q.
Proof.
  intros principal annualRate years HP.
  apply Qle_bool_iff in HP.
  unfold Page.calculateTotalInterest, Outcomes.calculateMonthlyPayment,
    Page.calculateMonthlyPayment.
  rewrite HP. split; [ reflexivity | split; [ reflexivity | ] ].
  cbn [option_map]. eexists. split; [ reflexivity | ].
  change (inject_Z 0) with 0%Q. ring.
Qed.

Lemma non_positive_principal_pays_nothing_witness :
  Outcomes.calculateMonthlyPayment (-500) 0.075 10 = Some 0%Q
  /\ Page.calculateMonthlyPayment (-500) 0.075 10 = Some 0
  /\ exists interest,
       Page.calculateTotalInterest (-500) 0.075 10 = Some interest
       /\ (interest == - (-500))%Q.
Proof.
  apply (non_positive_principal_pays_nothing (-500) 0.075 10).
  vm_compute. discriminate.
Defined.

(** X22.  For a positive principal, an annual rate of zero or a term of zero
    years makes the formula divide by zero: neither route computes a finite
    payment, and the page has no total interest. *)
Theorem interest_free_loan_has_no_payment :
  forall (principal annualRate : Q) (years : Z),
    (0 < principal)%Q ->
    (annualRate == 0)%Q \/ years = 0 ->
    Outcomes.calculateMonthlyPayment principal annualRate years = None
    /\ Page.calculateMonthlyPayment principal annualRate years = None
    /\ Page.calculateTotalInterest principal annualRate years = None.
Proof.
  intros principal annualRate years HP Hzero.
  assert (Ha : annuity principal annualRate years = None).
  { unfold annuity, Math_pow, divide. cbv zeta.
    destruct (Qeq_bool (1 + annualRate / 12) 0 && (years * 12 <? 0)) eqn:E;
      [ reflexivity | ].
    assert (H1 : ((1 + annualRate / 12) ^ (years * 12) - 1 == 0)%Q).
    { destruct Hzero as [Hrate | Hyears].
      - assert (Hb : (1 + annualRate / 12 == 1)%Q).
        { rewrite Hrate. reflexivity. }
        rewrite Hb, Qpower_1. reflexivity.
      - rewrite Hyears. reflexivity. }
    apply Qeq_bool_iff in H1. now rewrite H1. }
  unfold Page.calculateTotalInterest, Outcomes.calculateMonthlyPayment,
    Page.calculateMonthlyPayment.
  rewrite (Qle_bool_false principal 0 HP), Ha. repeat split.
Qed.

Lemma interest_free_loan_has_no_payment_witness :
  Outcomes.calculateMonthlyPayment 40000 0 10 = None
  /\ Page.calculateMonthlyPayment 40000 0 10 = None
  /\ Page.calculateTotalInterest 40000 0 10 = None.
Proof.
  apply (interest_free_loan_has_no_payment 40000 0 10).
  - reflexivity.
  - left. reflexivity.
Defined.

(** ** The outcomes route *)

Lemma annuity_value (principal annualRate : Q) (years : Z) :
  (0 < annualRate)%Q -> 0 < years ->
  let r := (annualRate / 12)%Q in
  let g := growth r (Z.to_nat (years * 12)) in
  (1 < g)%Q
  /\ annuity principal annualRate years = Some (principal * r * g / (g - 1))%Q.
Proof.
  intros Hrate Hyears. cbv zeta.
  pose proof (monthly_rate_positive annualRate Hrate) as Hr.
  set (r := (annualRate / 12)%Q) in *.
  destruct (Z.to_nat (years * 12)) as [ | N ] eqn:EN; [ lia | ].
  assert (Hn : years * 12 = Z.of_nat (S N)) by lia.
  pose proof (growth_grows r Hr N) as Hg.
  split; [ exact Hg | ].
  unfold annuity, Math_pow, divide. cbv zeta. fold r. rewrite Hn.
  rewrite (Qeq_bool_false (1 + r) 0) by lra. cbn [andb].
  fold (growth r (S N)).
  now rewrite (Qeq_bool_false (growth r (S N) - 1) 0) by lra.
Qed.

Lemma Qltb_true (x y : Q) : (x <? y)%Q = true -> (x < y)%Q.
Proof.
  unfold Qltb. intros H. apply negb_true_iff in H.
  apply Qnot_le_lt. intros L. apply Qle_bool_iff in L. congruence.
Qed.

Lemma payoff_years_constant :
  Qceiling ((growth (Outcome.INTEREST_RATE / 12) 120 - 1)
            / (12 * (Outcome.INTEREST_RATE / 12)
               * growth (Outcome.INTEREST_RATE / 12) 120)) = 8.
Proof. vm_compute. reflexivity. Qed.

Lemma yearsToPayoffOf_value (config : Outcome.PathConfig) (undergradDebt : Q) :
  Outcome.yearsToPayoffOf config undergradDebt
  = if (0 <? Outcome.totalDebtOf config undergradDebt)%Q then 8 else 0.
Proof.
  unfold Outcome.yearsToPayoffOf.
  destruct (0 <? Outcome.totalDebtOf config undergradDebt)%Q eqn:E;
    [ | reflexivity ].
  apply Qltb_true in E.
  set (P := Outcome.totalDebtOf config undergradDebt) in *.
  assert (Hceil : Outcome.Math_ceil (P / Outcome.annualPaymentOf config undergradDebt) = 8).
  { unfold Outcome.annualPaymentOf, Outcome.monthlyPaymentOf. fold P.
    unfold Outcomes.calculateMonthlyPayment.
    rewrite (Qle_bool_false P 0 E).
    destruct (annuity_value P Outcome.INTEREST_RATE Outcome.LOAN_TERM_YEARS)
      as [Hg Ha]; [ reflexivity | reflexivity | ].
    rewrite Ha. cbn [nullish].
    change (Z.to_nat (Outcome.LOAN_TERM_YEARS * 12)) with 120%nat in *.
    rewrite <- payoff_years_constant. unfold Outcome.Math_ceil.
    set (g := growth (Outcome.INTEREST_RATE / 12) 120) in *.
    assert (Hr : (0 < Outcome.INTEREST_RATE / 12)%Q)
      by (apply monthly_rate_positive; reflexivity).
    set (r := (Outcome.INTEREST_RATE / 12)%Q) in *.
    apply Qceiling_comp. field. repeat split; lra. }
  rewrite Hceil. reflexivity.
Qed.

(** X23.  In every answer of the outcomes route, [yearsToPayoff] is 8 or 0,
    and it is 8 whenever the total debt the summary reports is positive: the
    ratio of the debt to the annual annuity payment does not depend on the
    debt.  (The test reads the debt before it is rounded.) *)
Theorem years_to_payoff_is_eight_or_zero :
  forall (college : Outcome.CollegeInput) (incomeBracket : string)
         (professionalPath : option Outcome.ProfessionalPath)
         (timeline : list Outcome.TimelineYear) (summary : Outcome.OutcomeSummary),
    Outcome.POST (Some college) incomeBracket professionalPath
    = Outcome.Success timeline summary ->
    (Outcome.yearsToPayoff summary = 8 \/ Outcome.yearsToPayoff summary = 0)
    /\ (0 < Outcome.totalDebt summary -> Outcome.yearsToPayoff summary = 8).
Proof.
  intros college incomeBracket professionalPath timeline summary.
  unfold Outcome.POST.
  destruct (Outcome.getNetPrice college incomeBracket) as [price | ];
    [ | discriminate ].
  intros [= _ <-].
  cbn [Outcome.summaryOf Outcome.yearsToPayoff Outcome.totalDebt].
  rewrite yearsToPayoffOf_value.
  destruct (0 <? _)%Q eqn:E.
  - split; [ now left | reflexivity ].
  - split; [ now right | ].
    intros Hpos. exfalso.
    assert (Hle : (Outcome.totalDebtOf
                     (Outcome.PROFESSIONAL_PATHS
                        (nullish professionalPath Outcome.bachelors))
                     (nullish (Outcome.medianDebt college)
                        (inject_Z
                           (Math_round
                              (price
                               * inject_Z
                                   (Outcome.undergradYears
                                      (Outcome.PROFESSIONAL_PATHS
                                         (nullish professionalPath Outcome.bachelors)))
                               * 0.6)))) <= 0)%Q).
    { unfold Qltb in E. apply negb_false_iff in E. now apply Qle_bool_iff. }
    apply Math_round_mono in Hle.
    change (Math_round 0) with 0 in Hle. lia.
Qed.

Lemma years_to_payoff_is_eight_or_zero_witness :
  exists timeline summary,
    Outcome.POST (Some Outcome.sample_college) "0-30000" (Some Outcome.law)
    = Outcome.Success timeline summary
    /\ Outcome.yearsToPayoff summary = 8.
Proof.
  eexists. eexists. split; [ reflexivity | ].
  apply (years_to_payoff_is_eight_or_zero Outcome.sample_college "0-30000"
           (Some Outcome.law) _ _ eq_refl).
  cbn [Outcome.summaryOf Outcome.totalDebt].
  unfold Outcome.totalDebtOf. vm_compute. reflexivity.
Defined.

Lemma fold_left_appends {S E A : Type} (tl : S -> list E) (proj : E -> A)
      (g : Z -> A) (body : Z -> S -> S) (l : list Z) (s : S) :
  (forall i st, map proj (tl (body i st)) = map proj (tl st) ++ [g i]) ->
  map proj (tl (fold_left (fun st i => body i st) l s))
  = map proj (tl s) ++ map g l.
Proof.
  intros Hbody. revert s.
  induction l as [ | i l IH ]; intros s; cbn [fold_left map].
  - now rewrite app_nil_r.
  - rewrite IH, Hbody, <- app_assoc. reflexivity.
Qed.

Section OutcomeRun.

Variable config : Outcome.PathConfig.
Variable netPricePerYear : Q.
Variable undergradDebt : Q.
Variable baseCareerEarnings : Q.

Lemma yearBody_pushes (i : Z) (st : Outcome.State) :
  exists t nw,
    Outcome.pushed (Outcome.yearBody config netPricePerYear undergradDebt
                      baseCareerEarnings i st)
    = Outcome.pushed st ++ [(t, nw)]
    /\ Outcome.year t = i
    /\ (Outcome.phase t, Outcome.milestone t) = Outcome.getYearLabel i config
    /\ Outcome.netWorth t = Math_round nw
    /\ Outcome.s_breakEvenYear
         (Outcome.yearBody config netPricePerYear undergradDebt baseCareerEarnings i st)
       = match Outcome.s_breakEvenYear st with
         | None => if (0 <? nw)%Q then Some i else None
         | Some y => Some y
         end.
Proof.
  unfold Outcome.yearBody.
  destruct (Outcome.getYearLabel i config) as [phase milestone].
  destruct phase;
    repeat match goal with
           | |- context [ if ?c then _ else _ ] =>
               lazymatch c with
               | (_ =? _)%Z => destruct c
               | (0 <? Outcome.s_remainingDebt st)%Q => destruct c
               end
           end;
    cbn [Outcome.pushed Outcome.s_breakEvenYear];
    eexists; eexists; (split; [ reflexivity | ]);
    cbn [Outcome.year Outcome.phase Outcome.milestone Outcome.netWorth];
    repeat split.
Qed.

Lemma run_shape :
  map (fun e => (Outcome.year (fst e), (Outcome.phase (fst e), Outcome.milestone (fst e))))
      (Outcome.pushed (Outcome.run config netPricePerYear undergradDebt baseCareerEarnings))
  = map (fun y => (y, Outcome.getYearLabel y config))
        (for_range 1 (Outcome.totalYearsOf config)).
Proof.
  unfold Outcome.run, for_loop.
  rewrite (fold_left_appends Outcome.pushed _
             (fun y => (y, Outcome.getYearLabel y config))).
  - reflexivity.
  - intros i st. destruct (yearBody_pushes i st) as [t [nw [Hp [Hy [Hl _]]]]].
    rewrite Hp, map_app. cbn [map fst]. now rewrite Hy, Hl.
Qed.

Lemma run_break_even :
  Outcome.s_breakEvenYear
    (Outcome.run config netPricePerYear undergradDebt baseCareerEarnings)
  = Outcome.firstPositiveYear
      (Outcome.pushed (Outcome.run config netPricePerYear undergradDebt
                         baseCareerEarnings))
  /\ Forall (fun e => Outcome.netWorth (fst e) = Math_round (snd e))
            (Outcome.pushed (Outcome.run config netPricePerYear undergradDebt
                               baseCareerEarnings)).
Proof.
  unfold Outcome.run.
  apply (for_loop_invariant
           (fun s => Outcome.s_breakEvenYear s
                     = Outcome.firstPositiveYear (Outcome.pushed s)
                     /\ Forall (fun e => Outcome.netWorth (fst e) = Math_round (snd e))
                               (Outcome.pushed s))).
  - intros i st [Hb Hall].
    destruct (yearBody_pushes i st) as [t [nw [Hp [Hy [_ [Hn Hbe]]]]]].
    rewrite Hp, Hbe. split.
    + unfold Outcome.firstPositiveYear in *. rewrite find_snoc, Hb.
      destruct (find _ (Outcome.pushed st)); cbn [option_map]; [ reflexivity | ].
      cbn [snd]. destruct (0 <? nw)%Q; cbn [option_map fst]; now rewrite ?Hy.
    + apply Forall_app. split; [ exact Hall | ].
      constructor; [ exact Hn | constructor ].
  - split; [ reflexivity | constructor ].
Qed.

End OutcomeRun.

Lemma totalYears_at_least_fifteen (p : Outcome.ProfessionalPath) :
  Outcome.totalYearsOf (Outcome.PROFESSIONAL_PATHS p)
  = Z.max 15 (Outcome.totalSchoolYearsOf (Outcome.PROFESSIONAL_PATHS p) + 6).
Proof.
  unfold Outcome.totalYearsOf, Outcome.careerYearsToShow. lia.
Qed.

(** X24.  An answer of the outcomes route has exactly [totalYears]
    snapshots, numbered 1, 2, 3, ... in order, each with the phase and the
    milestone of its year; there are fifteen years, or the school and
    training years plus six when that is more. *)
Theorem outcome_timeline_covers_every_year :
  forall (college : Outcome.CollegeInput) (incomeBracket : string)
         (professionalPath : option Outcome.ProfessionalPath)
         (timeline : list Outcome.TimelineYear) (summary : Outcome.OutcomeSummary),
    Outcome.POST (Some college) incomeBracket professionalPath
    = Outcome.Success timeline summary ->
    let config := Outcome.PROFESSIONAL_PATHS (nullish professionalPath Outcome.bachelors) in
    map Outcome.year timeline = for_range 1 (Outcome.totalYears summary)
    /\ Forall (fun t => (Outcome.phase t, Outcome.milestone t)
                        = Outcome.getYearLabel (Outcome.year t) config) timeline
    /\ Outcome.totalYears summary
       = Z.max 15 (Outcome.undergradYears config + Outcome.gradYears config
                   + Outcome.residencyYears config + 6).
Proof.
  intros college incomeBracket professionalPath timeline summary.
  unfold Outcome.POST.
  destruct (Outcome.getNetPrice college incomeBracket) as [price | ];
    [ | discriminate ].
  intros [= <- <-]. cbv zeta.
  set (config := Outcome.PROFESSIONAL_PATHS (nullish professionalPath Outcome.bachelors)).
  cbn [Outcome.summaryOf Outcome.totalYears].
  match goal with
  | |- context [ Outcome.run config price ?d ?b ] =>
      pose proof (run_shape config price d b) as Hshape;
      set (r := Outcome.run config price d b) in *
  end.
  split; [ | split ].
  - pose proof (f_equal (map fst) Hshape) as Hy.
    rewrite !map_map in Hy. cbn [fst] in Hy. rewrite map_id in Hy.
    rewrite map_map. exact Hy.
  - apply Forall_map. apply Forall_forall. intros e He.
    pose proof (in_map (fun e => (Outcome.year (fst e),
                                  (Outcome.phase (fst e), Outcome.milestone (fst e))))
                       _ _ He) as Hin.
    rewrite Hshape in Hin. apply in_map_iff in Hin.
    destruct Hin as [y [Heq _]]. injection Heq as Hy Hl. now rewrite <- Hy, Hl.
  - unfold config. apply totalYears_at_least_fifteen.
Qed.

Section OutcomeExact.

Variable config : Outcome.PathConfig.
Variable netPricePerYear : Q.
Variable undergradDebt : Q.
Variable baseCareerEarnings : Q.

(** The pair a year pushes holds the year's number and the difference of the
    two running totals as the year leaves them. *)
Lemma yearBody_exact (i : Z) (st : Outcome.State) :
  let st' := Outcome.yearBody config netPricePerYear undergradDebt
               baseCareerEarnings i st in
  exists t,
    Outcome.pushed st'
    = Outcome.pushed st
      ++ [(t, (Outcome.s_totalEarnings st' - Outcome.s_debtWithInterest st')%Q)]
    /\ Outcome.year t = i.
Proof.
  cbv zeta. unfold Outcome.yearBody.
  destruct (Outcome.getYearLabel i config) as [phase milestone].
  destruct phase;
    repeat match goal with
           | |- context [ if ?c then _ else _ ] =>
               lazymatch c with
               | (_ =? _)%Z => destruct c
               | (0 <? Outcome.s_remainingDebt st)%Q => destruct c
               end
           end;
    cbn [Outcome.pushed Outcome.s_totalEarnings Outcome.s_debtWithInterest];
    eexists; (split; [ reflexivity | ]); reflexivity.
Qed.

Lemma years_exact (n : nat) :
  let after := fun y => for_loop 1 y
                          (Outcome.yearBody config netPricePerYear undergradDebt
                             baseCareerEarnings) Outcome.start in
  map (fun e => (Outcome.year (fst e), snd e)) (Outcome.pushed (after (Z.of_nat n)))
  = map (fun y => (y, (Outcome.s_totalEarnings (after y)
                       - Outcome.s_debtWithInterest (after y))%Q))
        (for_range 1 (Z.of_nat n)).
Proof.
  cbv zeta. induction n as [ | n IH ]; [ reflexivity | ].
  replace (Z.of_nat (S n)) with (Z.of_nat n + 1) by lia.
  rewrite (for_range_last 1 (Z.of_nat n + 1)) by lia.
  replace (Z.of_nat n + 1 - 1) with (Z.of_nat n) by lia.
  assert (Hstep : for_loop 1 (Z.of_nat n + 1)
                    (Outcome.yearBody config netPricePerYear undergradDebt
                       baseCareerEarnings) Outcome.start
                  = Outcome.yearBody config netPricePerYear undergradDebt
                      baseCareerEarnings (Z.of_nat n + 1)
                      (for_loop 1 (Z.of_nat n)
                         (Outcome.yearBody config netPricePerYear undergradDebt
                            baseCareerEarnings) Outcome.start)).
  { unfold for_loop. rewrite (for_range_last 1 (Z.of_nat n + 1)) by lia.
    replace (Z.of_nat n + 1 - 1) with (Z.of_nat n) by lia.
    now rewrite fold_left_app. }
  rewrite map_app. cbn [map]. rewrite <- IH.
  destruct (yearBody_exact (Z.of_nat n + 1)
              (for_loop 1 (Z.of_nat n)
                 (Outcome.yearBody config netPricePerYear undergradDebt
                    baseCareerEarnings) Outcome.start)) as [t [Hp Hy]].
  cbv zeta in Hp. rewrite <- Hstep in Hp. rewrite Hp, map_app.
  cbn [map fst snd]. now rewrite Hy.
Qed.

End OutcomeExact.

Lemma find_map {A B : Type} (f : B -> bool) (g : A -> B) (l : list A) :
  find f (map g l) = option_map g (find (fun a => f (g a)) l).
Proof.
  induction l as [ | a l IH ]; [ reflexivity | ].
  cbn [map find]. destruct (f (g a)); [ reflexivity | exact IH ].
Qed.

(** X25.  In the outcomes route the break-even year is the first year, of
    any phase, at which the total earnings so far less the debt with interest
    of that year are positive; the test reads the exact difference, of which
    the snapshot of the year shows the rounded value (so the break-even year
    can show a net worth of 0).  It is null when no year qualifies. *)
Theorem outcome_break_even_is_first_positive_year :
  forall (college : Outcome.CollegeInput) (incomeBracket : string)
         (professionalPath : option Outcome.ProfessionalPath) (netPricePerYear : Q),
    Outcome.getNetPrice college incomeBracket = Some netPricePerYear ->
    let exact := outcome_net_worth college netPricePerYear professionalPath in
    exists timeline summary,
      Outcome.POST (Some college) incomeBracket professionalPath
      = Outcome.Success timeline summary
      /\ map (fun t => (Outcome.year t, Outcome.netWorth t)) timeline
         = map (fun y => (y, Math_round (exact y)))
               (for_range 1 (Outcome.totalYears summary))
      /\ Outcome.breakEvenYear summary
         = find (fun y => (0 <? exact y)%Q) (for_range 1 (Outcome.totalYears summary)).
Proof.
  intros college incomeBracket professionalPath price Hprice. cbv zeta.
  unfold Outcome.POST. rewrite Hprice.
  eexists. eexists. split; [ reflexivity | ].
  cbn [Outcome.summaryOf Outcome.totalYears Outcome.breakEvenYear].
  set (config := Outcome.PROFESSIONAL_PATHS (nullish professionalPath Outcome.bachelors)).
  set (debt := nullish (Outcome.medianDebt college)
                 (inject_Z (Math_round (price * inject_Z (Outcome.undergradYears config)
                                        * 0.6)%Q))).
  set (base := nullish (Outcome.median10yr college) 55000%Q).
  destruct (run_break_even config price debt base) as [Hb Hall].
  assert (Hn : Outcome.totalYearsOf config
               = Z.of_nat (Z.to_nat (Outcome.totalYearsOf config))).
  { unfold config. rewrite totalYears_at_least_fifteen. lia. }
  pose proof (years_exact config price debt base
                (Z.to_nat (Outcome.totalYearsOf config))) as Hex.
  cbv zeta in Hex. rewrite <- Hn in Hex.
  fold (Outcome.run config price debt base) in Hex.
  change (fun y : Z =>
            (y, (Outcome.s_totalEarnings
                   (for_loop 1 y (Outcome.yearBody config price debt base) Outcome.start)
                 - Outcome.s_debtWithInterest
                     (for_loop 1 y (Outcome.yearBody config price debt base)
                        Outcome.start))%Q))
    with (fun y : Z => (y, outcome_net_worth college price professionalPath y)) in Hex.
  set (P := Outcome.pushed (Outcome.run config price debt base)) in *.
  split.
  - rewrite map_map.
    transitivity (map (fun p : Z * Q => (fst p, Math_round (snd p)))
                      (map (fun e => (Outcome.year (fst e), snd e)) P)).
    + rewrite map_map. apply map_ext_in. intros e He. cbn [fst snd].
      rewrite Forall_forall in Hall. now rewrite (Hall e He).
    + rewrite Hex, map_map. reflexivity.
  - rewrite Hb. unfold Outcome.firstPositiveYear.
    transitivity (option_map fst
                    (find (fun p : Z * Q => (0 <? snd p)%Q)
                          (map (fun e => (Outcome.year (fst e), snd e)) P))).
    + rewrite find_map. cbn [snd]. now destruct (find _ P).
    + rewrite Hex, find_map. cbn [snd].
      now destruct (find _ (for_range 1 (Outcome.totalYearsOf config))).
Qed.

Lemma outcome_timeline_covers_every_year_witness :
  exists timeline summary,
    Outcome.POST (Some Outcome.sample_college) "0-30000" (Some Outcome.medical)
    = Outcome.Success timeline summary
    /\ map Outcome.year timeline = for_range 1 (Outcome.totalYears summary)
    /\ Outcome.totalYears summary = 18.
Proof.
  eexists. eexists. split; [ reflexivity | ].
  destruct (outcome_timeline_covers_every_year Outcome.sample_college "0-30000"
              (Some Outcome.medical) _ _ eq_refl) as [Hy [_ Hn]].
  split; [ exact Hy | exact Hn ].
Defined.

Lemma outcome_break_even_is_first_positive_year_witness :
  Outcome.getNetPrice quarter_college "0-30000" = Some 0%Q
  /\ exists timeline summary,
       Outcome.POST (Some quarter_college) "0-30000" None
       = Outcome.Success timeline summary
       /\ map (fun t => (Outcome.year t, Outcome.netWorth t)) timeline
          = map (fun y => (y, Math_round (outcome_net_worth quarter_college 0 None y)))
                (for_range 1 (Outcome.totalYears summary))
       /\ Outcome.breakEvenYear summary = Some 5
       /\ Math_round (outcome_net_worth quarter_college 0 None 5) = 0.
Proof.
  split; [ reflexivity | ].
  destruct (outcome_break_even_is_first_positive_year quarter_college "0-30000" None
              0%Q eq_refl) as [timeline [summary [Hpost [Hshown Hbe]]]].
  exists timeline, summary.
  split; [ exact Hpost | split; [ exact Hshown | ] ].
  assert (Hyears : Outcome.totalYears summary = 15).
  { pose proof (f_equal (fun r => match r with
                                  | Outcome.Success _ s => Outcome.totalYears s
                                  | _ => 15
                                  end) Hpost) as H.
    cbv beta iota in H. rewrite <- H. reflexivity. }
  split.
  - rewrite Hbe, Hyears. vm_compute. reflexivity.
  - vm_compute. reflexivity.
Defined.

Lemma yearBody_resets_debt (config : Outcome.PathConfig)
      (netPricePerYear undergradDebt baseCareerEarnings : Q)
      (i : Z) (st : Outcome.State) :
  exists t nw,
    Outcome.pushed (Outcome.yearBody config netPricePerYear undergradDebt
                      baseCareerEarnings i st)
    = Outcome.pushed st ++ [(t, nw)]
    /\ resets_debt config undergradDebt
         (Outcome.totalDebtOf config undergradDebt) t.
Proof.
  unfold Outcome.yearBody, Outcome.getYearLabel.
  destruct (Z.leb_spec i (Outcome.undergradYears config)) as [Hu | Hu].
  - destruct (Z.eqb_spec i (Outcome.undergradYears config)) as [He | He];
      cbn [Outcome.pushed]; eexists; eexists; (split; [ reflexivity | ]);
      split; cbn [Outcome.year Outcome.debtWithInterest]; intros; try lia;
      reflexivity.
  - destruct (Z.leb_spec i (Outcome.undergradYears config + Outcome.gradYears config))
      as [Hg | Hg].
    + destruct (Z.eqb_spec i (Outcome.undergradYears config + Outcome.gradYears config))
        as [He | He];
        cbn [Outcome.pushed]; eexists; eexists; (split; [ reflexivity | ]);
        split; cbn [Outcome.year Outcome.debtWithInterest]; intros; try lia;
        reflexivity.
    + destruct (i <=? _);
        [ | destruct (0 <? Outcome.s_remainingDebt st)%Q ];
        cbn [Outcome.pushed]; eexists; eexists; (split; [ reflexivity | ]);
        split; cbn [Outcome.year Outcome.debtWithInterest]; intros; lia.
Qed.

(** X26.  In the outcomes route the snapshot of the last undergraduate year
    shows the undergraduate debt estimate, which is the college's median
    debt when it has one and otherwise 60 percent of the undergraduate
    tuition, rounded; the snapshot of the last graduate year shows that
    estimate plus the path's additional debt.  What the earlier years
    accrued is discarded at both points. *)
Theorem outcome_debt_is_reset_at_graduation :
  forall (college : Outcome.CollegeInput) (incomeBracket : string)
         (professionalPath : option Outcome.ProfessionalPath)
         (timeline : list Outcome.TimelineYear) (summary : Outcome.OutcomeSummary),
    Outcome.POST (Some college) incomeBracket professionalPath
    = Outcome.Success timeline summary ->
    let config := Outcome.PROFESSIONAL_PATHS (nullish professionalPath Outcome.bachelors) in
    exists price,
      Outcome.getNetPrice college incomeBracket = Some price
      /\ let undergradDebt :=
           nullish (Outcome.medianDebt college)
             (inject_Z (Math_round
                          (price * inject_Z (Outcome.undergradYears config) * 0.6)%Q)) in
         Forall (resets_debt config undergradDebt
                   (undergradDebt + Outcome.additionalDebt config)%Q) timeline.
Proof.
  intros college incomeBracket professionalPath timeline summary.
  unfold Outcome.POST.
  destruct (Outcome.getNetPrice college incomeBracket) as [price | ];
    [ | discriminate ].
  intros [= <- _]. cbv zeta. exists price. split; [ reflexivity | ].
  apply Forall_map. unfold Outcome.run.
  apply (for_loop_invariant
           (fun s => Forall (fun e => resets_debt _ _ _ (fst e)) (Outcome.pushed s))).
  - intros i st Hst.
    match goal with
    | |- context [ Outcome.yearBody ?c ?p ?d ?b i st ] =>
        destruct (yearBody_resets_debt c p d b i st) as [t [nw [Hp Ht]]]
    end.
    rewrite Hp. apply Forall_app. split; [ exact Hst | ].
    constructor; [ exact Ht | constructor ].
  - constructor.
Qed.

Lemma outcome_debt_is_reset_at_graduation_witness :
  exists timeline summary price,
    Outcome.POST (Some Outcome.sample_college) "0-30000" (Some Outcome.medical)
    = Outcome.Success timeline summary
    /\ Outcome.getNetPrice Outcome.sample_college "0-30000" = Some price
    /\ Forall (resets_debt (Outcome.PROFESSIONAL_PATHS Outcome.medical)
                 (inject_Z (Math_round (price * inject_Z 4 * 0.6)%Q))
                 (inject_Z (Math_round (price * inject_Z 4 * 0.6)%Q) + 200000)%Q)
              timeline.
Proof.
  destruct (outcome_debt_is_reset_at_graduation Outcome.sample_college "0-30000"
              (Some Outcome.medical) _ _ eq_refl) as [price [Hp Hall]].
  eexists. eexists. exists price.
  split; [ reflexivity | ]. split; [ exact Hp | exact Hall ].
Defined.

(** ** Career years *)

Lemma StronglySorted_snoc {A : Type} (R : A -> A -> Prop) (l : list A) (x : A) :
  StronglySorted R l -> Forall (fun a => R a x) l -> StronglySorted R (l ++ [x]).
Proof.
  induction 1 as [ | a l Hl IH Ha ]; intros Hx; cbn [app].
  - constructor; constructor.
  - inversion Hx as [ | ? ? Hax Hlx ]; subst.
    constructor; [ now apply IH | ].
    apply Forall_app. split; [ exact Ha | constructor; [ exact Hax | constructor ] ].
Qed.

Lemma career_years_none (l : list Entry) :
  Forall (fun e => phase (snap e) <> Career) l -> career_years (map snap l) = [].
Proof.
  unfold career_years.
  induction 1 as [ | e l He _ IH ]; [ reflexivity | ].
  cbn [map filter]. destruct (phase (snap e)); cbn [Phase_eqb];
    try exact IH. exfalso. now apply He.
Qed.

Section CareerMonotone.

Variable college : CollegeInput.
Variable profile : StudentProfile.
Variable careerData : CareerData.

(** One career year, for a balance between 0 and three times the total
    debt: the balance does not grow, the savings do not shrink. *)
Lemma careerYear_improves (k y : Z) (s : Loop.State) :
  let T := totalDebt college profile careerData in
  let s' := careerYearBody college profile careerData k y s in
  (0 <= Loop.cumulativeDebt s <= 3 * T)%Q ->
  (0 <= Loop.accumulatedSavings s)%Q ->
  (0 <= Loop.cumulativeDebt s' <= Loop.cumulativeDebt s)%Q
  /\ (Loop.accumulatedSavings s <= Loop.accumulatedSavings s')%Q.
Proof.
  cbv zeta. intros [HD0 HD3] HS.
  cbn [careerYearBody Loop.cumulativeDebt Loop.accumulatedSavings].
  set (D := Loop.cumulativeDebt s) in *.
  set (S0 := Loop.accumulatedSavings s) in *.
  set (T := totalDebt college profile careerData) in *.
  set (salary := inject_Z (currentSalary careerData y)).
  assert (HT : (T / 10 * 1.5 == T * 0.15)%Q) by field.
  set (payment := if (0 <? T)%Q then Math_min (T / 10 * 1.5) D else 0%Q).
  assert (Hpay : (D * 0.05 <= payment)%Q).
  { unfold payment. destruct (0 <? T)%Q eqn:E.
    - unfold Math_min. apply Q.min_glb; [ rewrite HT | ]; lra.
    - unfold Qltb in E. apply negb_false_iff in E. apply Qle_bool_iff in E. lra. }
  assert (Hsave : (0 <= Math_max 0 (salary * SAVINGS_RATE - payment))%Q)
    by apply Q.le_max_l.
  unfold INVESTMENT_RETURN.
  repeat split.
  - apply Q.le_max_l.
  - unfold Math_max. apply Q.max_lub; lra.
  - lra.
Qed.

Lemma career_years_snoc (tl : list Entry) (e : Entry) :
  career_years (map snap (tl ++ [e]))
  = career_years (map snap tl)
    ++ (if Phase_eqb (phase (snap e)) Career then [snap e] else []).
Proof.
  unfold career_years. rewrite map_app, filter_app. reflexivity.
Qed.

Lemma career_years_improve :
  (0 <= balanceAtCareerStart college profile careerData
   <= 3 * totalDebt college profile careerData)%Q ->
  StronglySorted improves
    (career_years (timeline (generateLifePath college profile careerData))).
Proof.
  intros Hstart. cbn [generateLifePath timeline].
  unfold simulate. rewrite careerPhase_is_for_loop.
  set (s0 := residencyPhase careerData
               (gradPhase careerData (undergradPhase college profile init))).
  set (k := Z.of_nat (List.length (Loop.timeline s0))).
  set (T := totalDebt college profile careerData) in *.
  apply (for_loop_invariant
           (fun s =>
              ((0 <= Loop.cumulativeDebt s <= 3 * T)%Q
               /\ (0 <= Loop.accumulatedSavings s)%Q
               /\ Forall (fun a =>
                            Math_round (Math_max 0 (Loop.cumulativeDebt s)) <= debt a
                            /\ netWorth a
                               <= Math_round (Loop.accumulatedSavings s
                                              - Loop.cumulativeDebt s)%Q)
                         (career_years (map snap (Loop.timeline s))))
              /\ StronglySorted improves (career_years (map snap (Loop.timeline s)))));
    [ intros i st [[HD [HS Hall]] Hsorted]
    | split; [ split; [ exact Hstart | split; [ apply Qle_refl | ] ] | ] ].
  - destruct (careerYear_improves k i st HD HS) as [[HD0' HD'] HS'].
    set (st' := careerYearBody college profile careerData k i st) in *.
    assert (Htl : Loop.timeline st'
                  = Loop.timeline st
                    ++ [ {| snap := {| year := k + i;
                                       age := careerStartAge profile careerData + i - 1;
                                       phase := Career;
                                       earnings := Some (inject_Z (currentSalary careerData i));
                                       debt := Math_round
                                                 (Math_max 0 (Loop.cumulativeDebt st'));
                                       netWorth := Math_round
                                                     (Loop.accumulatedSavings st'
                                                      - Loop.cumulativeDebt st')%Q |};
                            run_debt := Loop.cumulativeDebt st';
                            run_savings := Loop.accumulatedSavings st' |} ])
      by reflexivity.
    rewrite Htl, career_years_snoc. cbn [snap phase Phase_eqb].
    assert (Hd : Math_round (Math_max 0 (Loop.cumulativeDebt st'))
                 <= Math_round (Math_max 0 (Loop.cumulativeDebt st))).
    { apply Math_round_mono. unfold Math_max.
      apply Q.max_le_compat_l. exact HD'. }
    assert (Hn : Math_round (Loop.accumulatedSavings st - Loop.cumulativeDebt st)%Q
                 <= Math_round (Loop.accumulatedSavings st' - Loop.cumulativeDebt st')%Q).
    { apply Math_round_mono. lra. }
    assert (Hprev : Forall (fun a =>
                              Math_round (Math_max 0 (Loop.cumulativeDebt st')) <= debt a
                              /\ netWorth a
                                 <= Math_round (Loop.accumulatedSavings st'
                                                - Loop.cumulativeDebt st')%Q)
                           (career_years (map snap (Loop.timeline st)))).
    { eapply Forall_impl; [ | exact Hall ]. cbv beta. intros a [Ha1 Ha2]. lia. }
    split; [ split; [ split; [ exact HD0' | lra ] | split; [ lra | ] ] | ].
    + apply Forall_app. split; [ exact Hprev | ].
      constructor; [ | constructor ]. cbn [debt netWorth]. lia.
    + apply StronglySorted_snoc; [ exact Hsorted | ].
      eapply Forall_impl; [ | exact Hprev ]. cbv beta.
      intros a Ha. unfold improves. cbn [debt netWorth]. exact Ha.
  - assert (Hnone : career_years (map snap (Loop.timeline (declareSavings s0))) = []).
    { cbn [declareSavings Loop.timeline]. apply career_years_none.
      pose proof (trainingPhases_shape college profile careerData) as Hshape.
      fold s0 in Hshape.
      apply Forall_forall. intros e He.
      apply (trainingShape_phase profile careerData (shape (snap e))).
      rewrite <- Hshape. apply in_map_iff. exists e. split; [ reflexivity | exact He ]. }
    rewrite Hnone. constructor.
  - assert (Hnone : career_years (map snap (Loop.timeline (declareSavings s0))) = []).
    { cbn [declareSavings Loop.timeline]. apply career_years_none.
      pose proof (trainingPhases_shape college profile careerData) as Hshape.
      fold s0 in Hshape.
      apply Forall_forall. intros e He.
      apply (trainingShape_phase profile careerData (shape (snap e))).
      rewrite <- Hshape. apply in_map_iff. exists e. split; [ reflexivity | exact He ]. }
    rewrite Hnone. constructor.
Qed.

End CareerMonotone.

(** X27.  When the balance at the start of the career lies between 0 and
    three times the total debt, the Career snapshots only get better: from
    one career year to any later one the debt shown does not grow and the
    net worth shown does not fall. *)
Theorem career_years_only_improve :
  forall (college : CollegeInput) (profile : StudentProfile) (careerData : CareerData),
    (0 <= balanceAtCareerStart college profile careerData
     <= 3 * totalDebt college profile careerData)%Q ->
    StronglySorted improves
      (career_years (timeline (generateLifePath college profile careerData))).
Proof.
  intros college profile careerData Hstart.
  now apply career_years_improve.
Qed.

Lemma career_years_only_improve_witness :
  (0 <= balanceAtCareerStart private_college freshman trainee
   <= 3 * totalDebt private_college freshman trainee)%Q
  /\ StronglySorted improves
       (career_years (timeline (generateLifePath private_college freshman trainee))).
Proof.
  assert (H : (0 <= balanceAtCareerStart private_college freshman trainee
               <= 3 * totalDebt private_college freshman trainee)%Q)
    by (split; vm_compute; discriminate).
  split; [ exact H | ].
  exact (career_years_only_improve private_college freshman trainee H).
Defined.

(** ** A scholarship that covers everything *)

(** A counting loop keeps an invariant that follows its index. *)
Lemma fold_left_indexed {St : Type} (P : Z -> St -> Prop) (body : Z -> St -> St)
      (n : nat) :
  forall (lo : Z) (s : St),
    (forall i st, lo <= i < lo + Z.of_nat n -> P i st -> P (i + 1) (body i st)) ->
    P lo s ->
    P (lo + Z.of_nat n)
      (fold_left (fun st i => body i st)
                 (map (fun k => lo + Z.of_nat k) (seq 0 n)) s).
Proof.
  induction n as [ | n IH ]; intros lo s Hbody Hs.
  - cbn [seq map fold_left]. now replace (lo + Z.of_nat 0) with lo by lia.
  - rewrite for_range_from. cbn [fold_left].
    replace (lo + Z.of_nat (S n)) with ((lo + 1) + Z.of_nat n) by lia.
    apply IH.
    + intros i st Hi. apply Hbody. lia.
    + apply Hbody; [ lia | exact Hs ].
Qed.

Section FullyFunded.

Variable college : CollegeInput.
Variable profile : StudentProfile.
Variable careerData : CareerData.

Hypothesis funded : fully_funded college profile.
Hypothesis no_grad_cost : (gradDebt careerData == 0)%Q.

Lemma funded_costs_nothing : (adjustedUndergradCost college profile == 0)%Q.
Proof.
  destruct funded as [Hhas Hamount].
  unfold adjustedUndergradCost, scholarshipOffset. rewrite Hhas.
  unfold Math_max. apply Q.max_l. lra.
Qed.

Lemma funded_totalDebt : (totalDebt college profile careerData == 0)%Q.
Proof.
  unfold totalDebt, undergradDebt.
  rewrite (Math_round_comp _ 0%Q) by (rewrite funded_costs_nothing; ring).
  rewrite no_grad_cost. reflexivity.
Qed.

(** No payment is made: the balance grows by its interest. *)
Lemma funded_career_year (k y : Z) (s : Loop.State) :
  (0 <= Loop.cumulativeDebt s)%Q ->
  (Loop.cumulativeDebt (careerYearBody college profile careerData k y s)
   == Loop.cumulativeDebt s * 1.05)%Q.
Proof.
  intros HD. cbn [careerYearBody Loop.cumulativeDebt].
  assert (E : (0 <? totalDebt college profile careerData)%Q = false).
  { unfold Qltb. apply negb_false_iff, Qle_bool_iff.
    rewrite funded_totalDebt. apply Qle_refl. }
  rewrite E. unfold Math_max. rewrite Q.max_r by lra. ring.
Qed.

Lemma funded_career_debts :
  (0 <= balanceAtCareerStart college profile careerData)%Q ->
  Forall (fun y => debt y
                   = Math_round (balanceAtCareerStart college profile careerData
                                 * 1.05 ^ (age y - careerStartAge profile careerData + 1))%Q)
         (career_years (timeline (generateLifePath college profile careerData))).
Proof.
  intros HB. cbn [generateLifePath timeline].
  unfold simulate. rewrite careerPhase_is_for_loop.
  set (s0 := residencyPhase careerData
               (gradPhase careerData (undergradPhase college profile init))).
  set (k := Z.of_nat (List.length (Loop.timeline s0))).
  set (B := balanceAtCareerStart college profile careerData) in *.
  set (cs := careerStartAge profile careerData).
  unfold for_loop, for_range.
  pose (P := fun (i : Z) (s : Loop.State) =>
               (Loop.cumulativeDebt s == B * 1.05 ^ (i - 1))%Q
               /\ Forall (fun y => debt y = Math_round (B * 1.05 ^ (age y - cs + 1))%Q)
                         (career_years (map snap (Loop.timeline s)))).
  assert (Hpow : forall n, (0 <= 1.05 ^ n)%Q)
    by (intros n; apply Qpower_0_le; lra).
  assert (Hend : P (1 + Z.of_nat (Z.to_nat (yearsToShow profile careerData - 1 + 1)))
                   (fold_left
                      (fun st i => careerYearBody college profile careerData k i st)
                      (map (fun j => 1 + Z.of_nat j)
                           (seq 0 (Z.to_nat (yearsToShow profile careerData - 1 + 1))))
                      (declareSavings s0))).
  { apply fold_left_indexed.
    - intros i st Hi [HD Hall].
      assert (HD0 : (0 <= Loop.cumulativeDebt st)%Q).
      { rewrite HD. apply Qmult_le_0_compat; [ exact HB | apply Hpow ]. }
      pose proof (funded_career_year k i st HD0) as Hnext.
      assert (Hnew : (Loop.cumulativeDebt
                        (careerYearBody college profile careerData k i st)
                      == B * 1.05 ^ i)%Q).
      { rewrite Hnext, HD.
        replace i with ((i - 1) + 1) at 2 by lia.
        rewrite Qpower_plus by lra. change (1.05 ^ 1)%Q with 1.05%Q. ring. }
      split.
      + replace (i + 1 - 1) with i by lia. exact Hnew.
      + set (st' := careerYearBody college profile careerData k i st) in *.
        assert (Htl : exists y,
                   Loop.timeline st' = Loop.timeline st ++ [ y ]
                   /\ phase (snap y) = Career
                   /\ age (snap y) = cs + i - 1
                   /\ debt (snap y)
                      = Math_round (Math_max 0 (Loop.cumulativeDebt st'))).
        { eexists. split; [ reflexivity | ]. repeat split. }
        destruct Htl as [y [Htl [Hph [Hage Hdebt]]]].
        rewrite Htl, career_years_snoc, Hph. cbn [Phase_eqb].
        apply Forall_app. split; [ exact Hall | ].
        constructor; [ | constructor ].
        rewrite Hdebt, Hage. replace (cs + i - 1 - cs + 1) with i by lia.
        apply Math_round_comp. rewrite Hnew. unfold Math_max.
        apply Q.max_r. apply Qmult_le_0_compat; [ exact HB | apply Hpow ].
    - split.
      + cbn [declareSavings Loop.cumulativeDebt]. fold B.
        replace (1 - 1) with 0 by lia. change (1.05 ^ 0)%Q with 1%Q.
        unfold B, balanceAtCareerStart. fold s0. ring.
      + cbn [declareSavings Loop.timeline]. rewrite career_years_none; [ constructor | ].
        pose proof (trainingPhases_shape college profile careerData) as Hshape.
        fold s0 in Hshape.
        apply Forall_forall. intros e He.
        apply (trainingShape_phase profile careerData (shape (snap e))).
        rewrite <- Hshape. apply in_map_iff. exists e.
        split; [ reflexivity | exact He ]. }
  exact (proj2 Hend).
Qed.

End FullyFunded.

(** X28.  With a scholarship of at least four years at the sticker price, no
    graduate cost and a balance that is not negative when the career starts,
    the summary reports a total cost of 0, and no payment is ever made:
    every Career snapshot shows the balance the student had when the career
    started, compounded at 5 percent for each career year. *)
Theorem full_scholarship_debt_keeps_growing :
  forall (college : CollegeInput) (profile : StudentProfile) (careerData : CareerData),
    fully_funded college profile ->
    (gradDebt careerData == 0)%Q ->
    (0 <= balanceAtCareerStart college profile careerData)%Q ->
    let r := generateLifePath college profile careerData in
    Summary.totalCost (summary r) = 0
    /\ Forall (fun y =>
                 debt y
                 = Math_round (balanceAtCareerStart college profile careerData
                               * 1.05 ^ (age y - careerStartAge profile careerData + 1))%Q)
              (career_years (timeline r)).
Proof.
  intros college profile careerData Hfunded Hgrad HB. cbv zeta. split.
  - cbn [generateLifePath summary Summary.totalCost].
    unfold gradDebt in Hgrad.
    rewrite (Math_round_comp _ 0%Q); [ reflexivity | ].
    rewrite (funded_costs_nothing college profile Hfunded), Hgrad. ring.
  - now apply funded_career_debts.
Qed.

Lemma full_scholarship_debt_keeps_growing_witness :
  fully_funded private_college scholar
  /\ (gradDebt bachelor == 0)%Q
  /\ (0 <= balanceAtCareerStart private_college scholar bachelor)%Q
  /\ Summary.totalCost (summary (generateLifePath private_college scholar bachelor)) = 0
  /\ Forall (fun y =>
               debt y
               = Math_round (balanceAtCareerStart private_college scholar bachelor
                             * 1.05 ^ (age y - careerStartAge scholar bachelor + 1))%Q)
            (career_years (timeline (generateLifePath private_college scholar bachelor))).
Proof.
  assert (F : fully_funded private_college scholar)
    by (split; [ reflexivity | vm_compute; discriminate ]).
  assert (G : (gradDebt bachelor == 0)%Q) by reflexivity.
  assert (B : (0 <= balanceAtCareerStart private_college scholar bachelor)%Q)
    by (vm_compute; discriminate).
  split; [ exact F | split; [ exact G | split; [ exact B | ] ] ].
  exact (full_scholarship_debt_keeps_growing private_college scholar bachelor F G B).
Defined.
